(** * The newsletter generation pipeline: fetch, condense, render, dispatch

    A shallow embedding of the four agents of [app/agents], of the storage
    functions of [app/db/database.py] and of the orchestration script
    [app/scripts/generate_newsletter.py], followed by the properties of the
    pipeline that the specification states and by further properties of the
    code.

    Conventions of the embedding.
    - A Python [str] is a [string] holding its UTF-8 encoding; the literals of
      the source are copied byte for byte.
    - A value of a JSON-like dictionary ([Dict[str, Any]]) is a [pyval]:
      [None] or a [str].  Dictionaries whose iteration order is observable
      (topic name -> data) are association lists with Python's assignment
      semantics; dictionaries that are only read by key are [gmap]s.
    - The outside world (text generation, news search, template engine,
      clock, SMTP server) is a record of oracles.  Every oracle sees the whole
      history of outbound calls made so far, so an oracle may answer or raise
      differently on every call.
    - Agent code runs in a state-and-exception monad over that history.
      [print] and [logging] output is not part of the state.
    - The storage service is a second record of oracles with a history of
      its own; the script runs over both histories. *)

From Stdlib Require Import ZArith Ascii String List Lia.
From stdpp Require Import base option gmap strings list pretty.

Local Open Scope Z_scope.

(** ** Python string primitives *)

Module PyStr.

Definition utf8 (bs : list nat) : string :=
  foldr (λ b s, String (ascii_of_nat b) s) EmptyString bs.

Definition dquote : string := utf8 [34%nat].
Definition squote : string := utf8 [39%nat].

(** [strip_prefix p s] is [Some r] when [s = p ++ r]. *)
Fixpoint strip_prefix (p s : string) : option string :=
  match p, s with
  | EmptyString, _ => Some s
  | String a p', String b s' =>
      if decide (a = b) then strip_prefix p' s' else None
  | String _ _, EmptyString => None
  end.

(** The code points for which [str.isspace] holds, UTF-8 encoded:
    U+0009..U+000D, U+001C..U+0020, U+0085, U+00A0, U+1680,
    U+2000..U+200A, U+2028, U+2029, U+202F, U+205F, U+3000. *)
Definition whitespace : list string :=
  (utf8 <$> [[9]; [10]; [11]; [12]; [13]; [28]; [29]; [30]; [31]; [32];
             [194; 133]; [194; 160]; [225; 154; 128];
             [226; 128; 128]; [226; 128; 129]; [226; 128; 130];
             [226; 128; 131]; [226; 128; 132]; [226; 128; 133];
             [226; 128; 134]; [226; 128; 135]; [226; 128; 136];
             [226; 128; 137]; [226; 128; 138]; [226; 128; 168];
             [226; 128; 169]; [226; 128; 175]; [226; 129; 159];
             [227; 128; 128]])%nat.

(** One step of stripping: drop one leading character of the set [cs]. *)
Fixpoint lstrip1 (cs : list string) (s : string) : option string :=
  match cs with
  | [] => None
  | c :: cs' =>
      match strip_prefix c s with
      | Some r => Some r
      | None => lstrip1 cs' s
      end
  end.

Fixpoint lstrip_fuel (n : nat) (cs : list string) (s : string) : string :=
  match n with
  | O => s
  | S n' =>
      match lstrip1 cs s with
      | Some r => lstrip_fuel n' cs r
      | None => s
      end
  end.

Definition lstrip_set (cs : list string) (s : string) : string :=
  lstrip_fuel (String.length s) cs s.

Definition rstrip_set (cs : list string) (s : string) : string :=
  String.rev (lstrip_set (String.rev <$> cs) (String.rev s)).

(** [s.strip(chars)] for a set [cs] of characters. *)
Definition strip_set (cs : list string) (s : string) : string :=
  rstrip_set cs (lstrip_set cs s).

(** [s.strip()] *)
Definition strip (s : string) : string := strip_set whitespace s.

(** [s.split(sep, 1)]: [None] stands for the one-element list [[s]],
    [Some (a, b)] for [[a, b]], cut at the leftmost occurrence of [sep]. *)
Fixpoint split_once (sep s : string) : option (string * string) :=
  match strip_prefix sep s with
  | Some r => Some (EmptyString, r)
  | None =>
      match s with
      | EmptyString => None
      | String c s' =>
          match split_once sep s' with
          | Some (a, b) => Some (String c a, b)
          | None => None
          end
      end
  end.

(** [sep in s] *)
Definition contains (sep s : string) : bool :=
  match split_once sep s with Some _ => true | None => false end.

(** [s.split(c)] for a one-character separator. *)
Fixpoint split_char (c : ascii) (s : string) : list string :=
  match s with
  | EmptyString => [EmptyString]
  | String a s' =>
      let r := split_char c s' in
      if decide (a = c) then EmptyString :: r
      else match r with
           | h :: t => String a h :: t
           | [] => [String a EmptyString]
           end
  end.

(** [sep.join(l)] *)
Fixpoint join (sep : string) (l : list string) : string :=
  match l with
  | [] => EmptyString
  | [x] => x
  | x :: l' => x +:+ sep +:+ join sep l'
  end.

(** [s.upper()] on text of the Latin-1 range (U+0000..U+00FF): the letters
    [a]..[z] and the accented letters U+00E0..U+00FE lose 32, the
    division sign U+00F7 stays, the sharp s U+00DF becomes [SS], U+00FF
    becomes U+0178 and the micro sign U+00B5 becomes U+039C.  A character
    outside that range is left as it is. *)
Fixpoint str_upper (s : string) : string :=
  match s with
  | EmptyString => EmptyString
  | String a s' =>
      let b := nat_of_ascii a in
      if decide (b = 195)%nat then
        match s' with
        | String c s'' =>
            let n := nat_of_ascii c in
            (if decide (n = 159)%nat then utf8 [83; 83]%nat
             else if decide (n = 191)%nat then utf8 [197; 184]%nat
             else if decide (160 ≤ n ≤ 190 ∧ n ≠ 183)%nat then utf8 [195; n - 32]%nat
             else utf8 [195; n]%nat)
            +:+ str_upper s''
        | EmptyString => String a EmptyString
        end
      else if decide (b = 194)%nat then
        match s' with
        | String c s'' =>
            let n := nat_of_ascii c in
            (if decide (n = 181)%nat then utf8 [206; 156]%nat else utf8 [194; n]%nat)
            +:+ str_upper s''
        | EmptyString => String a EmptyString
        end
      else if decide (97 ≤ b ≤ 122)%nat
           then String (ascii_of_nat (b - 32)) (str_upper s')
           else String a (str_upper s')
  end.

(** [l[:n]] for a Python integer [n]. *)
Definition slice_to {A} (n : Z) (l : list A) : list A :=
  if decide (0 ≤ n) then take (Z.to_nat n) l
  else take (length l - Z.to_nat (- n)) l.

End PyStr.

(** ** Python values and dictionaries *)

Inductive pyval :=
  | PyNone
  | PyStr (s : string).

Global Instance pyval_eq_dec : EqDecision pyval.
Proof. solve_decision. Defined.

(** Truth value of a Python object. *)
Definition truthy (v : pyval) : bool :=
  match v with
  | PyNone => false
  | PyStr s => bool_decide (s ≠ EmptyString)
  end.

(** [str(v)], which is also how an f-string formats [v]. *)
Definition py_format (v : pyval) : string :=
  match v with
  | PyNone => "None"
  | PyStr s => s
  end.

(** [a or b] *)
Definition py_or (a b : pyval) : pyval := if truthy a then a else b.

(** A dictionary that is only read by key. *)
Abbreviation pydict := (gmap string pyval).

(** [d.get(k, default)] *)
Definition dict_get (d : pydict) (k : string) (default : pyval) : pyval :=
  from_option id default (d !! k).

(** A dictionary whose iteration order is observable: an association list in
    insertion order.  [set] is Python's [d[k] = v]: an existing key keeps its
    place and takes the new value, a new key goes to the end. *)
Module ODict.
Section odict.
Context {V : Type}.

Fixpoint set (k : string) (v : V) (d : list (string * V)) : list (string * V) :=
  match d with
  | [] => [(k, v)]
  | (k', v') :: d' =>
      if decide (k' = k) then (k, v) :: d' else (k', v') :: set k v d'
  end.

Fixpoint get (k : string) (d : list (string * V)) : option V :=
  match d with
  | [] => None
  | (k', v') :: d' => if decide (k' = k) then Some v' else get k d'
  end.

(** [list(d.keys())] *)
Definition keys (d : list (string * V)) : list string := d.*1.

(** What makes an association list a dictionary: no key twice. *)
Definition wf (d : list (string * V)) : Prop := NoDup (keys d).
End odict.
End ODict.

(** ** Data of the pipeline *)

(** A topic of interest: a dictionary read as [topic["name"]] and
    [topic.get("description", ...)]. *)
Record Topic := {
  topic_name : string;
  topic_description : option pyval
}.

(** One record of the search service's answer.  [api_source] is the entry
    under ["source"]: absent, present but not a dictionary, or a dictionary. *)
Record ApiArticle := {
  api_fields : pydict;
  api_source : option (option pydict)
}.

(** The search service's answer; [None] when it has no ["articles"] entry. *)
Definition ApiResponse := option (list ApiArticle).

(** The context handed to the template engine and to the text rendering. *)
Record TopicData := {
  td_name : string;
  td_summary : pyval;
  td_articles : list pydict
}.

Record TemplateData := {
  user_name : pyval;
  newsletter_title : string;
  introduction : string;
  topics : list TopicData;
  date : string
}.

(** What the condenser stores per topic: a dictionary with the entries
    ["summary"] and ["articles"], either of which a caller may leave out. *)
Record TopicSummary := {
  ts_summary : option pyval;
  ts_articles : option (list pydict)
}.

(** The formatted newsletter, a dictionary of strings
    (["html"], ["text"], ["title"], ["subject"]). *)
Abbreviation pydoc := (gmap string string).

(** The multipart message handed to the transport. *)
Record Message := {
  msg_subject : string;
  msg_from : pyval;
  msg_to : pyval;
  msg_parts : list (string * string)
}.

(** The outcome of a delivery attempt. *)
Record Outcome := {
  success : bool;
  message : string;
  channel : string;
  recipient : option pyval;
  subject : option string
}.

(** Mail settings of [app.core.config]. *)
Record Config := {
  EMAIL_HOST : pyval;
  EMAIL_PORT : Z;
  EMAIL_USERNAME : pyval;
  EMAIL_PASSWORD : pyval;
  EMAIL_FROM : pyval
}.

(** ** The outside world *)

(** The text of an exception, [str(e)]. *)
Definition exn := string.

Inductive res (A : Type) :=
  | Ok (a : A)
  | Raise (e : exn).
Arguments Ok {A} a.
Arguments Raise {A} e.

(** A request to [client.chat.completions.create]; the model name and the
    temperature are the same at every call site and are left out. *)
Record ChatRequest := {
  chat_system : string;
  chat_user : string;
  chat_max_tokens : N
}.

Inductive SmtpCall :=
  | SMTP (host : pyval) (port : Z)
  | Starttls
  | Login (user password : pyval)
  | SendMessage (m : Message)
  | Quit.

(** The outbound calls, in the order they are made. *)
Inductive Event :=
  | EvChat (r : ChatRequest)
  | EvSearch (q language sort_by : string) (page_size : N)
  | EvNow
  | EvGetTemplate (name : string)
  | EvRender (name : string) (data : TemplateData)
  | EvSmtp (c : SmtpCall).

Abbreviation Trace := (list Event).

(** Each oracle answers from the history of calls made before this one.
    - [chat_create]: the text [response.choices[0].message.content], or the
      exception raised on the way to it.
    - [get_everything]: [newsapi.get_everything].
    - [strftime_now]: [datetime.now().strftime("%d de %B de %Y")].
    - [get_template], [render]: the template engine.
    - [smtp]: the mail server.
    - [upper]: [str.upper].  The theorems hold for every such function;
      the worlds of the examples take [PyStr.str_upper], which is [str.upper] on
      the Latin-1 range, where all their texts lie. *)
Record World := {
  chat_create : Trace → ChatRequest → res string;
  get_everything : Trace → string → string → string → N → res ApiResponse;
  strftime_now : Trace → string;
  get_template : Trace → string → res unit;
  render : Trace → string → TemplateData → res string;
  smtp : Trace → SmtpCall → res unit;
  upper : string → string
}.

(** ** The monad of agent code: call history and exceptions *)

Definition M (A : Type) : Type := Trace → res A * Trace.

Global Instance M_ret : MRet M := λ A a tr, (Ok a, tr).

Global Instance M_bind : MBind M := λ A B f m tr,
  match m tr with
  | (Ok a, tr') => f a tr'
  | (Raise e, tr') => (Raise e, tr')
  end.

Definition raise {A} (e : exn) : M A := λ tr, (Raise e, tr).

(** [try: body  except Exception as e: handler e] *)
Definition try_except {A} (body : M A) (handler : exn → M A) : M A := λ tr,
  match body tr with
  | (Ok a, tr') => (Ok a, tr')
  | (Raise e, tr') => handler e tr'
  end.

(** An outbound call: the oracle answers from the history, and the call joins
    the history. *)
Definition call {A} (ev : Event) (oracle : Trace → res A) : M A := λ tr,
  (oracle tr, tr ++ [ev]).

Section primitives.
Context (w : World).

Definition chat (r : ChatRequest) : M string :=
  call (EvChat r) (λ tr, chat_create w tr r).

Definition search (q language sort_by : string) (page_size : N) : M ApiResponse :=
  call (EvSearch q language sort_by page_size)
       (λ tr, get_everything w tr q language sort_by page_size).

Definition now : M string :=
  call EvNow (λ tr, Ok (strftime_now w tr)).

Definition env_get_template (name : string) : M unit :=
  call (EvGetTemplate name) (λ tr, get_template w tr name).

Definition template_render (name : string) (data : TemplateData) : M string :=
  call (EvRender name data) (λ tr, render w tr name data).

Definition smtp_call (c : SmtpCall) : M unit :=
  call (EvSmtp c) (λ tr, smtp w tr c).
End primitives.

(** ** NewsFetcherAgent ([app/agents/news_fetcher.py]) *)

Module NewsFetcherAgent.
Import PyStr.

Section agent.
Context (w : World).
(** [self.max_articles_per_topic] *)
Context (max_articles_per_topic : Z).

Definition search_terms_prompt (topic_name : string) (topic_description : pyval) : string :=
  "
        Necesito buscar noticias relevantes sobre el tópico: " +:+ dquote +:+ topic_name +:+ dquote +:+ ".
        " +:+ (if truthy topic_description
           then "Descripción adicional: " +:+ py_format topic_description
           else EmptyString) +:+ "
        
        Por favor, proporciona 3 términos o frases de búsqueda que puedan usarse con NewsAPI
        para encontrar artículos recientes y relevantes sobre este tema.
        
        Responde solo con los términos separados por comas, sin numeración ni texto adicional.
        ".

Definition _get_search_terms (topic_name : string) (topic_description : pyval)
  : M (list string) :=
  let prompt := search_terms_prompt topic_name topic_description in
  try_except
    (content ← chat w {| chat_system := "Eres un asistente experto en encontrar noticias relevantes.";
                         chat_user := prompt;
                         chat_max_tokens := 100 |};
     let search_terms_text := strip content in
     let search_terms := strip <$> split_char "," search_terms_text in
     mret search_terms)
    (λ e, mret [topic_name]).

(** The body of the loop over [response.get("articles", [])]. *)
Definition process_article (query : string) (article : ApiArticle) : M pydict :=
  let f := api_fields article in
  source ← match api_source article with
           | None => mret (PyStr EmptyString)
           | Some (Some d) => mret (dict_get d "name" (PyStr EmptyString))
           | Some None => raise "'NoneType' object has no attribute 'get'"
           end;
  mret (<["title" := dict_get f "title" (PyStr EmptyString)]>
       (<["description" := dict_get f "description" (PyStr EmptyString)]>
       (<["content" := dict_get f "content" (PyStr EmptyString)]>
       (<["url" := dict_get f "url" (PyStr EmptyString)]>
       (<["source" := source]>
       (<["published_at" := dict_get f "publishedAt" (PyStr EmptyString)]>
       (<["search_term" := PyStr query]> (∅ : pydict)))))))).

Fixpoint process_articles (query : string) (l : list ApiArticle) : M (list pydict) :=
  match l with
  | [] => mret []
  | article :: l' =>
      processed_article ← process_article query article;
      articles ← process_articles query l';
      mret (processed_article :: articles)
  end.

Definition _fetch_from_news_api (query language : string) : M (list pydict) :=
  try_except
    (response ← search w query language "relevancy" 5;
     process_articles query (from_option id [] response))
    (λ e, mret []).

(** The loop [for term in search_terms] with its [break]: [inr] carries
    the list on which the loop broke off. *)
Definition fetch_term (language term : string) (news_items : list pydict)
  : M (list pydict + list pydict) :=
  try_except
    (articles ← _fetch_from_news_api term language;
     let news_items := news_items ++ articles in
     if decide (max_articles_per_topic ≤ Z.of_nat (length news_items))
     then mret (inr (slice_to max_articles_per_topic news_items))
     else mret (inl news_items))
    (λ e, mret (inl news_items)).

Fixpoint fetch_terms (language : string) (search_terms : list string)
    (news_items : list pydict) : M (list pydict) :=
  match search_terms with
  | [] => mret news_items
  | term :: rest =>
      r ← fetch_term language term news_items;
      match r with
      | inl news_items => fetch_terms language rest news_items
      | inr news_items => mret news_items
      end
  end.

(** The body of the loop [for topic in topics]. *)
Definition fetch_topic (language : string) (topic : Topic) : M (list pydict) :=
  let topic_name := topic_name topic in
  let topic_desc := from_option id (PyStr EmptyString) (topic_description topic) in
  search_terms ← _get_search_terms topic_name topic_desc;
  fetch_terms language search_terms [].

Fixpoint fetch_topics (language : string) (topics : list Topic)
    (results : list (string * list pydict)) : M (list (string * list pydict)) :=
  match topics with
  | [] => mret results
  | topic :: rest =>
      news_items ← fetch_topic language topic;
      fetch_topics language rest (ODict.set (topic_name topic) news_items results)
  end.

Definition get_news_for_topics (topics : list Topic) (language : string)
  : M (list (string * list pydict)) :=
  fetch_topics language topics [].
End agent.
End NewsFetcherAgent.

(** ** SummarizerAgent ([app/agents/summarizer.py]) *)

(** [sep.join(l)] for a list of arbitrary values: a [TypeError] at the first
    item that is not a [str]. *)
Fixpoint str_items (i : nat) (l : list pyval) : M (list string) :=
  match l with
  | [] => mret []
  | PyStr s :: l' => ss ← str_items (S i) l'; mret (s :: ss)
  | PyNone :: _ =>
      raise ("sequence item " +:+ pretty i +:+ ": expected str instance, NoneType found")
  end.

Definition join_any (sep : string) (l : list pyval) : M string :=
  ss ← str_items 0 l; mret (PyStr.join sep ss).

Module SummarizerAgent.
Import PyStr.

Definition nl : string := utf8 [10%nat].

Section agent.
Context (w : World).
(** [self.max_summary_length], [self.include_relevance] *)
Context (max_summary_length : Z) (self_include_relevance : bool).

Definition topic_summary_prompt (topic context : string) : string :=
  "
        Basándote en las siguientes noticias sobre " +:+ dquote +:+ topic +:+ dquote +:+ ", genera un resumen general 
        que capture las tendencias o temas principales en no más de 3 oraciones.
        
        " +:+ context +:+ "
        
        Resumen:
        ".

Definition _generate_topic_summary (topic : string) (news_items : list pydict)
  : M string :=
  let titles := (λ item, dict_get item "title" (PyStr EmptyString)) <$> news_items in
  let descriptions :=
    (λ item, dict_get item "description" (PyStr EmptyString))
      <$> filter (λ item, truthy (dict_get item "description" PyNone) = true) news_items in
  joined_titles ← join_any nl (take 3 titles);
  joined_descriptions ← join_any nl (take 3 descriptions);
  let context := join (nl +:+ nl)
                   ["Títulos:"; joined_titles; nl +:+ "Descripciones:"; joined_descriptions] in
  let prompt := topic_summary_prompt topic context in
  try_except
    (content ← chat w {| chat_system := "Eres un experto en sintetizar información de noticias de manera clara y objetiva.";
                         chat_user := prompt;
                         chat_max_tokens := 150 |};
     mret (strip content))
    (λ e, mret ("Resumen no disponible para '" +:+ topic +:+ "'.")).

Definition article_context (title description content : pyval) : string :=
  let context := "Título: " +:+ py_format title +:+ nl in
  let context := if truthy description
                 then context +:+ "Descripción: " +:+ py_format description +:+ nl
                 else context in
  let context := if truthy content
                 then context +:+ "Contenido: " +:+ py_format content +:+ nl
                 else context in
  context.

Definition article_prompt (topic context : string) (include_relevance : bool) : string :=
  if include_relevance then
    "
            Resume el siguiente artículo sobre " +:+ dquote +:+ topic +:+ dquote +:+ " en no más de " +:+ pretty max_summary_length +:+ " palabras.
            
            " +:+ context +:+ "
            
            Proporciona:
            1. Un resumen conciso
            2. Una breve explicación de por qué este artículo es relevante para las personas interesadas en " +:+ topic +:+ "
            
            Formato:
            Resumen: [resumen conciso]
            Relevancia: [explicación breve]
            "
  else
    "
            Resume el siguiente artículo sobre " +:+ dquote +:+ topic +:+ dquote +:+ " en no más de " +:+ pretty max_summary_length +:+ " palabras.
            
            " +:+ context +:+ "
            
            Resumen:
            ".

(** The interpretation of the response text: the pair [(summary, relevance)]
    that the [try] block computes. *)
Definition parse_response (include_relevance : bool) (response_text : string)
  : string * string :=
  if include_relevance then
    match split_once "Relevancia:" response_text with
    | Some (summary_part, after) =>
        let relevance := strip after in
        let summary :=
          if contains "Resumen:" summary_part then
            match split_once "Resumen:" summary_part with
            | Some (_, rest) => strip rest
            | None => strip summary_part
            end
          else strip summary_part in
        (summary, relevance)
    | None => (response_text, EmptyString)
    end
  else (response_text, EmptyString).

Definition _summarize_article (article : pydict) (topic : string)
    (include_relevance : bool) : M pydict :=
  let title := dict_get article "title" (PyStr EmptyString) in
  let description := dict_get article "description" (PyStr EmptyString) in
  let content := dict_get article "content" (PyStr EmptyString) in
  let context := article_context title description content in
  let prompt := article_prompt topic context include_relevance in
  try_except
    (response ← chat w {| chat_system := "Eres un experto en resumir noticias de manera concisa y precisa.";
                          chat_user := prompt;
                          chat_max_tokens := 250 |};
     let response_text := strip response in
     let '(summary, relevance) := parse_response include_relevance response_text in
     let summarized_article := article in
     let summarized_article := <["summary" := PyStr summary]> summarized_article in
     let summarized_article :=
       if truthy (PyStr relevance)
       then <["relevance" := PyStr relevance]> summarized_article
       else summarized_article in
     mret summarized_article)
    (λ e,
     let summarized_article := article in
     let summarized_article :=
       <["summary" := py_or description (PyStr "Resumen no disponible.")]> summarized_article in
     let summarized_article :=
       if include_relevance
       then <["relevance" := PyStr "Información no disponible."]> summarized_article
       else summarized_article in
     mret summarized_article).

(** The loop [for article in news_items]. *)
Fixpoint summarize_articles (topic : string) (news_items : list pydict)
  : M (list pydict) :=
  match news_items with
  | [] => mret []
  | article :: rest =>
      article_summary ← _summarize_article article topic self_include_relevance;
      summarized_articles ← summarize_articles topic rest;
      mret (article_summary :: summarized_articles)
  end.

(** The body of the loop [for topic, news_items in news_by_topic.items()]:
    the value stored under [summarized_results[topic]]. *)
Definition summarize_topic (topic : string) (news_items : list pydict)
  : M TopicSummary :=
  match news_items with
  | [] =>
      mret {| ts_summary := Some (PyStr ("No se encontraron noticias para el tópico '" +:+ topic +:+ "'."));
              ts_articles := Some [] |}
  | _ :: _ =>
      topic_summary ← _generate_topic_summary topic news_items;
      summarized_articles ← summarize_articles topic news_items;
      mret {| ts_summary := Some (PyStr topic_summary);
              ts_articles := Some summarized_articles |}
  end.

Fixpoint summarize_topics (news_by_topic : list (string * list pydict))
    (summarized_results : list (string * TopicSummary))
  : M (list (string * TopicSummary)) :=
  match news_by_topic with
  | [] => mret summarized_results
  | (topic, news_items) :: rest =>
      entry ← summarize_topic topic news_items;
      summarize_topics rest (ODict.set topic entry summarized_results)
  end.

Definition summarize_news_by_topic (news_by_topic : list (string * list pydict))
  : M (list (string * TopicSummary)) :=
  summarize_topics news_by_topic [].
End agent.
End SummarizerAgent.

(** ** FormatterAgent ([app/agents/formatter.py]) *)

Module FormatterAgent.
Import PyStr.

Definition nl : string := utf8 [10%nat].

Section agent.
Context (w : World).
(** [self.template_name] *)
Context (template_name : string).

Definition title_prompt (user_name : pyval) (topics_text : string) : string :=
  "
        Genera un título atractivo y personal para un newsletter que va dirigido a " +:+ py_format user_name +:+ ",
        y que contiene noticias sobre los siguientes temas: " +:+ topics_text +:+ ".
        
        El título debe ser conciso (máximo 8 palabras) y captar la atención.
        No uses comillas ni signos de exclamación excesivos.
        ".

Definition _generate_title (user_name : pyval) (topics : list string) : M string :=
  let topics_text := join ", " (take 3 topics) in
  let topics_text := if decide (3 < length topics)%nat
                     then topics_text +:+ " y más" else topics_text in
  let prompt := title_prompt user_name topics_text in
  try_except
    (content ← chat w {| chat_system := "Eres un experto en marketing y titulares atractivos.";
                         chat_user := prompt;
                         chat_max_tokens := 30 |};
     let title := strip content in
     let title := strip_set [dquote; squote] title in
     mret title)
    (λ e, mret ("Tu Resumen de Noticias: " +:+ topics_text)).

Definition introduction_prompt (user_name : pyval) (topics_text : string) : string :=
  "
        Escribe un párrafo introductorio personal y amigable para un newsletter 
        que va dirigido a " +:+ py_format user_name +:+ ", y que contiene un resumen de noticias sobre: " +:+ topics_text +:+ ".
        
        La introducción debe ser cálida, directa y no exceder de 3 frases.
        Menciona que estas son las noticias más relevantes seleccionadas especialmente según sus intereses.
        ".

Definition _generate_introduction (user_name : pyval) (topics : list string) : M string :=
  let topics_text := join ", " (take 3 topics) in
  let topics_text := if decide (3 < length topics)%nat
                     then topics_text +:+ " y otros temas" else topics_text in
  let prompt := introduction_prompt user_name topics_text in
  try_except
    (content ← chat w {| chat_system := "Eres un redactor amigable y persuasivo que conecta con los lectores.";
                         chat_user := prompt;
                         chat_max_tokens := 150 |};
     mret (strip content))
    (λ e, mret ("Hola " +:+ py_format user_name +:+ ", aquí tienes tu resumen de noticias sobre "
                +:+ topics_text +:+ " para hoy.")).

Definition _get_formatted_date : M string := now w.

(** The text of one article, numbered [i]. *)
Definition text_article (i : nat) (article : pydict) : string :=
  pretty i +:+ ". " +:+ py_format (dict_get article "title" (PyStr "Sin título")) +:+ nl
  +:+ "   " +:+ py_format (dict_get article "summary" (PyStr "Sin resumen")) +:+ nl
  +:+ (match article !! "relevance" with
       | Some relevance => "   Relevancia: " +:+ py_format relevance +:+ nl
       | None => EmptyString
       end)
  +:+ "   Fuente: " +:+ py_format (dict_get article "source" (PyStr "Desconocida"))
  +:+ " - " +:+ py_format (dict_get article "url" (PyStr EmptyString)) +:+ nl +:+ nl.

(** [for i, article in enumerate(articles, i)] *)
Fixpoint text_articles (i : nat) (articles : list pydict) : string :=
  match articles with
  | [] => EmptyString
  | article :: rest => text_article i article +:+ text_articles (S i) rest
  end.

Definition text_topic (topic : TopicData) : string :=
  "🔷 " +:+ upper w (td_name topic) +:+ nl
  +:+ py_format (td_summary topic) +:+ nl +:+ nl
  +:+ text_articles 1 (td_articles topic)
  +:+ nl.

Fixpoint text_topics (l : list TopicData) : string :=
  match l with
  | [] => EmptyString
  | topic :: rest => text_topic topic +:+ text_topics rest
  end.

Definition _generate_text_version (template_data : TemplateData) : string :=
  "📰 " +:+ newsletter_title template_data +:+ nl
  +:+ "📅 " +:+ date template_data +:+ nl +:+ nl
  +:+ "Hola " +:+ py_format (user_name template_data) +:+ "," +:+ nl +:+ nl
  +:+ introduction template_data +:+ nl +:+ nl
  +:+ text_topics (topics template_data)
  +:+ "¡Gracias por leer tu newsletter personalizado!" +:+ nl
  +:+ "Recibe este resumen diariamente según tus intereses." +:+ nl.

Definition html_article (article : pydict) : string :=
  "
                <div style=" +:+ dquote +:+ "margin-bottom: 20px; padding-bottom: 10px; border-bottom: 1px solid #eee;" +:+ dquote +:+ ">
                    <h3>" +:+ py_format (dict_get article "title" (PyStr "Sin título")) +:+ "</h3>
                    <p>" +:+ py_format (dict_get article "summary" (PyStr "Sin resumen")) +:+ "</p>
                "
  +:+ (match article !! "relevance" with
       | Some relevance => "<p><strong>Relevancia:</strong> " +:+ py_format relevance +:+ "</p>"
       | None => EmptyString
       end)
  +:+ "
                    <p>Fuente: " +:+ py_format (dict_get article "source" (PyStr "Desconocida")) +:+ " - 
                    <a href=" +:+ dquote +:+ py_format (dict_get article "url" (PyStr "#")) +:+ dquote +:+ " target=" +:+ dquote +:+ "_blank" +:+ dquote +:+ ">Leer más</a></p>
                </div>
                ".

Fixpoint html_articles (articles : list pydict) : string :=
  match articles with
  | [] => EmptyString
  | article :: rest => html_article article +:+ html_articles rest
  end.

Definition html_topic (topic : TopicData) : string :=
  "
            <h2>" +:+ td_name topic +:+ "</h2>
            <p><em>" +:+ py_format (td_summary topic) +:+ "</em></p>
            "
  +:+ html_articles (td_articles topic).

Fixpoint html_topics (l : list TopicData) : string :=
  match l with
  | [] => EmptyString
  | topic :: rest => html_topic topic +:+ html_topics rest
  end.

Definition _generate_simple_html (data : TemplateData) : string :=
  "
        <!DOCTYPE html>
        <html>
        <head>
            <title>" +:+ newsletter_title data +:+ "</title>
        </head>
        <body style=" +:+ dquote +:+ "font-family: Arial, sans-serif; max-width: 800px; margin: 0 auto; padding: 20px;" +:+ dquote +:+ ">
            <h1>" +:+ newsletter_title data +:+ "</h1>
            <p>" +:+ date data +:+ "</p>
            <p>Hola " +:+ py_format (user_name data) +:+ ",</p>
            <p>" +:+ introduction data +:+ "</p>
        "
  +:+ html_topics (topics data)
  +:+ "
            <p style=" +:+ dquote +:+ "margin-top: 30px; padding-top: 10px; border-top: 1px solid #eee;" +:+ dquote +:+ ">
                ¡Gracias por leer tu newsletter personalizado!<br>
                Recibe este resumen diariamente según tus intereses.
            </p>
        </body>
        </html>
        ".

(** The loop [for topic, data in summarized_news.items()]. *)
Definition topic_data (entry : string * TopicSummary) : TopicData :=
  let '(topic, data) := entry in
  {| td_name := topic;
     td_summary := from_option id (PyStr EmptyString) (ts_summary data);
     td_articles := from_option id [] (ts_articles data) |}.

Definition format_newsletter (user_data : pydict)
    (summarized_news : list (string * TopicSummary)) : M pydoc :=
  let user_name := dict_get user_data "name" (PyStr "Usuario") in
  newsletter_title ← _generate_title user_name (ODict.keys summarized_news);
  introduction ← _generate_introduction user_name (ODict.keys summarized_news);
  date ← _get_formatted_date;
  let template_data :=
    {| user_name := user_name;
       newsletter_title := newsletter_title;
       introduction := introduction;
       topics := topic_data <$> summarized_news;
       date := date |} in
  html_content ←
    try_except
      (_ ← env_get_template w template_name;
       template_render w template_name template_data)
      (λ e, mret (_generate_simple_html template_data));
  let text_content := _generate_text_version template_data in
  date' ← _get_formatted_date;
  mret (<["html" := html_content]>
       (<["text" := text_content]>
       (<["title" := newsletter_title]>
       (<["subject" := newsletter_title +:+ " - " +:+ date']> (∅ : pydoc))))).
End agent.
End FormatterAgent.

(** ** SenderAgent ([app/agents/sender.py]) *)

Module SenderAgent.

(** A channel implementation, an entry of [self.channels]. *)
Definition Impl : Type := pydict → pydoc → M Outcome.

Section agent.
Context (w : World) (cfg : Config).

(** [all([EMAIL_HOST, EMAIL_PORT, EMAIL_USERNAME, EMAIL_PASSWORD])] *)
Definition credentials_configured : bool :=
  truthy (EMAIL_HOST cfg) && bool_decide (EMAIL_PORT cfg ≠ 0)
  && truthy (EMAIL_USERNAME cfg) && truthy (EMAIL_PASSWORD cfg).

Definition _send_by_email (user_data : pydict) (newsletter_data : pydoc) : M Outcome :=
  let email := dict_get user_data "email" PyNone in
  if negb (truthy email) then
    mret {| success := false;
            message := "No se proporcionó dirección de correo electrónico";
            channel := "email"; recipient := None; subject := None |}
  else
    let msg_Subject :=
      from_option id "Tu Newsletter Personalizado" (newsletter_data !! "subject") in
    let text_content := from_option id EmptyString (newsletter_data !! "text") in
    let html_content := from_option id EmptyString (newsletter_data !! "html") in
    let msg :=
      {| msg_subject := msg_Subject;
         msg_from := EMAIL_FROM cfg;
         msg_to := email;
         msg_parts :=
           (if decide (text_content = EmptyString) then [] else [("plain", text_content)])
           ++ (if decide (html_content = EmptyString) then [] else [("html", html_content)]) |} in
    try_except
      (if negb credentials_configured then
         mret {| success := true;
                 message := "Simulación de envío exitosa (modo desarrollo)";
                 channel := "email"; recipient := Some email;
                 subject := Some msg_Subject |}
       else
         _ ← smtp_call w (SMTP (EMAIL_HOST cfg) (EMAIL_PORT cfg));
         _ ← smtp_call w Starttls;
         _ ← smtp_call w (Login (EMAIL_USERNAME cfg) (EMAIL_PASSWORD cfg));
         _ ← smtp_call w (SendMessage msg);
         _ ← smtp_call w Quit;
         mret {| success := true;
                 message := "Newsletter enviado exitosamente";
                 channel := "email"; recipient := Some email;
                 subject := Some msg_Subject |})
      (λ e, raise e).

Definition _send_by_whatsapp_dummy (user_data : pydict) (newsletter_data : pydoc)
  : M Outcome :=
  let phone := dict_get user_data "phone" PyNone in
  if negb (truthy phone) then
    mret {| success := false;
            message := "No se proporcionó número de teléfono";
            channel := "whatsapp"; recipient := None; subject := None |}
  else
    mret {| success := true;
            message := "Simulación de envío por WhatsApp exitosa";
            channel := "whatsapp"; recipient := Some phone; subject := None |}.

Definition _send_by_telegram_dummy (user_data : pydict) (newsletter_data : pydoc)
  : M Outcome :=
  let telegram_id := dict_get user_data "telegram_id" PyNone in
  if negb (truthy telegram_id) then
    mret {| success := false;
            message := "No se proporcionó ID de Telegram";
            channel := "telegram"; recipient := None; subject := None |}
  else
    mret {| success := true;
            message := "Simulación de envío por Telegram exitosa";
            channel := "telegram"; recipient := Some telegram_id; subject := None |}.

(** [self.channels] as [__init__] builds it. *)
Definition channels : gmap string Impl :=
  <["email" := _send_by_email]>
  (<["whatsapp" := _send_by_whatsapp_dummy]>
  (<["telegram" := _send_by_telegram_dummy]> ∅)).
End agent.

(** [send_newsletter] over the registry [self_channels]. *)
Definition send_newsletter (self_channels : gmap string Impl)
    (user_data : pydict) (newsletter_data : pydoc) (channel_name : string) : M Outcome :=
  match self_channels !! channel_name with
  | None =>
      mret {| success := false;
              message := "Canal no soportado: " +:+ channel_name;
              channel := channel_name; recipient := None; subject := None |}
  | Some send =>
      try_except
        (send user_data newsletter_data)
        (λ e, mret {| success := false;
                      message := "Error al enviar: " +:+ e;
                      channel := channel_name; recipient := None; subject := None |})
  end.
End SenderAgent.

(** ** The orchestration script ([app/scripts/generate_newsletter.py]),
       run with [mock_data=True] *)

Module generate_newsletter.

Record RunResult := {
  run_success : bool;
  run_message : string;
  run_user_id : string;
  run_channel : string;
  run_topics : list string;
  run_newsletter_title : string
}.

Definition mock_user_data (user_id : string) : pydict :=
  <["id" := PyStr user_id]>
  (<["name" := PyStr "Usuario de Prueba"]>
  (<["email" := PyStr "test@example.com"]>
  (<["phone" := PyStr "+1234567890"]>
  (<["telegram_id" := PyStr "12345678"]> ∅)))).

Definition mock_topics : list Topic :=
  [ {| topic_name := "Inteligencia Artificial";
       topic_description := Some (PyStr "Avances en IA y machine learning") |};
    {| topic_name := "Cambio Climático";
       topic_description :=
         Some (PyStr "Noticias sobre el medio ambiente y cambio climático") |} ].

Section script.
Context (w : World) (cfg : Config).

(** Steps 1 to 3: fetch, summarize, format, with the agents' default
    settings. *)
Definition format_stage (user_id language : string) : M pydoc :=
  let user_data := mock_user_data user_id in
  let topics := mock_topics in
  news_results ← NewsFetcherAgent.get_news_for_topics w 3 topics language;
  summarized_news ← SummarizerAgent.summarize_news_by_topic w 150 true news_results;
  FormatterAgent.format_newsletter w "default_email.html" user_data summarized_news.

Definition generate_and_send_newsletter (user_id channel_name language : string)
  : M RunResult :=
  formatted_newsletter ← format_stage user_id language;
  send_result ← SenderAgent.send_newsletter (SenderAgent.channels w cfg)
                  (mock_user_data user_id) formatted_newsletter channel_name;
  mret {| run_success := success send_result;
          run_message := message send_result;
          run_user_id := user_id;
          run_channel := channel_name;
          run_topics := topic_name <$> mock_topics;
          run_newsletter_title :=
            from_option id EmptyString (formatted_newsletter !! "title") |}.
End script.
End generate_newsletter.

(** ** Storage ([app/db/database.py]) *)

(** A row of [user_topics] with its joined topic, as the query
    [select("topic_id, topics(name, description)")] answers it.
    [row_topics] is the entry under ["topics"], [None] when the join is
    null; by the schema a topic's name is a text that is not null and its
    description a text that may be null. *)
Record TopicRow := {
  row_topic_id : string;
  row_topics : option (string * pyval)
}.

(** The row that [save_newsletter] inserts. *)
Record NewsletterRow := {
  nl_user_id : string;
  nl_content : string;
  nl_topics : list string;
  nl_channel : string;
  nl_sent_at : string
}.

(** The requests to the storage service, in the order they are made. *)
Inductive DbCall :=
  | SelectUser (user_id : string)
  | SelectUserTopics (user_id : string)
  | InsertNewsletter (row : NewsletterRow).

Abbreviation Journal := (list DbCall).

(** The storage service answers with [response.data] or raises; like the
    other services it answers from the history, here the requests made to
    it and the outbound calls of the agents.  A row of [users] is the
    dictionary of its text columns; the pipeline reads no other column. *)
Record Storage := {
  select_user : Journal → Trace → string → res (list pydict);
  select_user_topics : Journal → Trace → string → res (list TopicRow);
  insert_newsletter : Journal → Trace → NewsletterRow → res (list pydict)
}.

(** Code that talks to the storage service and runs agents. *)
Definition Script (A : Type) : Type := Journal → Trace → res A * Journal * Trace.

Global Instance Script_ret : MRet Script := λ A a j tr, (Ok a, j, tr).

Global Instance Script_bind : MBind Script := λ A B f m j tr,
  match m j tr with
  | (Ok a, j', tr') => f a j' tr'
  | (Raise e, j', tr') => (Raise e, j', tr')
  end.

Definition script_try {A} (body : Script A) (handler : exn → Script A) : Script A :=
  λ j tr,
  match body j tr with
  | (Ok a, j', tr') => (Ok a, j', tr')
  | (Raise e, j', tr') => handler e j' tr'
  end.

Definition script_raise {A} (e : exn) : Script A := λ j tr, (Raise e, j, tr).

(** A request to the storage service. *)
Definition db_call {A} (c : DbCall) (oracle : Journal → Trace → res A) : Script A :=
  λ j tr, (oracle j tr, j ++ [c], tr).

(** Agent code run from a script. *)
Definition run_agent {A} (m : M A) : Script A := λ j tr,
  match m tr with
  | (r, tr') => (r, j, tr')
  end.

Module database.
Section storage.
Context (db : Storage).

Definition get_user_by_id (user_id : string) : Script (option pydict) :=
  script_try
    (data ← db_call (SelectUser user_id) (λ j tr, select_user db j tr user_id);
     match data with
     | row :: _ => mret (Some row)
     | [] => mret None
     end)
    (λ e, mret None).

(** One element of the comprehension over [response.data]. *)
Definition topic_of_row (item : TopicRow) : Script Topic :=
  match row_topics item with
  | Some (name, description) =>
      mret {| topic_name := name; topic_description := Some description |}
  | None => script_raise "'NoneType' object is not subscriptable"
  end.

Fixpoint topics_of_rows (data : list TopicRow) : Script (list Topic) :=
  match data with
  | [] => mret []
  | item :: rest =>
      topic ← topic_of_row item;
      topics ← topics_of_rows rest;
      mret (topic :: topics)
  end.

Definition get_user_topics (user_id : string) : Script (list Topic) :=
  script_try
    (data ← db_call (SelectUserTopics user_id)
              (λ j tr, select_user_topics db j tr user_id);
     match data with
     | _ :: _ => topics_of_rows data
     | [] => mret []
     end)
    (λ e, mret []).

Definition save_newsletter (user_id content : string) (topics : list string)
    (channel : string) : Script pydict :=
  script_try
    (let newsletter_data :=
       {| nl_user_id := user_id;
          nl_content := content;
          nl_topics := topics;
          nl_channel := channel;
          nl_sent_at := "now()" |} in
     data ← db_call (InsertNewsletter newsletter_data)
              (λ j tr, insert_newsletter db j tr newsletter_data);
     match data with
     | row :: _ => mret row
     | [] => mret ∅
     end)
    (λ e, mret ∅).
End storage.
End database.

(** ** The orchestration script in both modes
       ([app/scripts/generate_newsletter.py]) *)

Module script.
Import generate_newsletter.

(** What [generate_and_send_newsletter] returns: the two-entry dictionary
    of a run that ends before the first stage, or the full report. *)
Inductive Report :=
  | Rejected (message : string)
  | Completed (result : RunResult).

Section script.
Context (db : Storage) (w : World) (cfg : Config).

(** The recipient and the topics of a run, or the message of the early
    [return]. *)
Definition inputs (user_id : string) (mock_data : bool)
  : Script (string + pydict * list Topic) :=
  if mock_data then mret (inr (mock_user_data user_id, mock_topics))
  else
    user_data ← database.get_user_by_id db user_id;
    match user_data with
    | None => mret (inl ("Usuario no encontrado: " +:+ user_id))
    | Some user_data =>
        if decide (user_data = ∅)
        then mret (inl ("Usuario no encontrado: " +:+ user_id))
        else
          topics ← database.get_user_topics db user_id;
          match topics with
          | [] => mret (inl "El usuario no tiene tópicos configurados")
          | _ :: _ => mret (inr (user_data, topics))
          end
    end.

Definition generate_and_send_newsletter (user_id channel_name language : string)
    (mock_data : bool) : Script Report :=
  i ← inputs user_id mock_data;
  match i with
  | inl message => mret (Rejected message)
  | inr (user_data, topics) =>
      news_results ←
        run_agent (NewsFetcherAgent.get_news_for_topics w 3 topics language);
      summarized_news ←
        run_agent (SummarizerAgent.summarize_news_by_topic w 150 true news_results);
      formatted_newsletter ←
        run_agent (FormatterAgent.format_newsletter w "default_email.html"
                     user_data summarized_news);
      send_result ←
        run_agent (SenderAgent.send_newsletter (SenderAgent.channels w cfg)
                     user_data formatted_newsletter channel_name);
      _ ← (if negb mock_data && success send_result then
             let topics_names := ODict.keys summarized_news in
             _ ← database.save_newsletter db user_id
                   (from_option id "Newsletter" (formatted_newsletter !! "title"))
                   topics_names channel_name;
             mret ()
           else mret ());
      mret (Completed
              {| run_success := success send_result;
                 run_message := message send_result;
                 run_user_id := user_id;
                 run_channel := channel_name;
                 run_topics := topic_name <$> topics;
                 run_newsletter_title :=
                   from_option id EmptyString (formatted_newsletter !! "title") |})
  end.
End script.
End script.

(** * Vocabulary of the statements *)

(** [m] returns a value from every history: no exception leaves it. *)
Definition total {A} (m : M A) : Prop :=
  ∀ tr, ∃ a tr', m tr = (Ok a, tr').

(** A service call fails. *)
Definition fails {A} (r : res A) : Prop := ∃ e, r = Raise e.

(** The value a run returns, [default] when it raises. *)
Definition value {A} (default : A) (r : res A * Trace) : A :=
  match r.1 with
  | Ok a => a
  | Raise _ => default
  end.

(** [f] applied to the value of a result. *)
Definition res_map {A B} (f : A → B) (r : res A) : res B :=
  match r with
  | Ok a => Ok (f a)
  | Raise e => Raise e
  end.

(** [sep] occurs in [s]. *)
Definition occurs (sep s : string) : Prop :=
  ∃ x y, s = x +:+ sep +:+ y.


(** The shape shared by the two loops over topics: run [body] on every
    element in order and pair each result with the element's key. *)
Fixpoint collect {X V} (key : X → string) (body : X → M V) (xs : list X)
  : M (list (string * V)) :=
  match xs with
  | [] => mret []
  | x :: rest =>
      v ← body x;
      es ← collect key body rest;
      mret ((key x, v) :: es)
  end.

(** A dictionary without the entry of [topic]. *)
Definition without {V} (topic : string) (d : list (string * V)) : list (string * V) :=
  filter (λ kv, kv.1 ≠ topic) d.

(** The search request of [_fetch_from_news_api]. *)
Definition search_event (language query : string) : Event :=
  EvSearch query language "relevancy" 5.

(** The items that one query yields when issued from history [tr]. *)
Definition fetched (w : World) (query language : string) (tr : Trace) : list pydict :=
  value [] (NewsFetcherAgent._fetch_from_news_api w query language tr).

(** The items that the queries [terms] yield when all of them are issued, in
    this order, starting from history [tr]. *)
Fixpoint answers (w : World) (language : string) (terms : list string) (tr : Trace)
  : list (list pydict) :=
  match terms with
  | [] => []
  | term :: rest =>
      fetched w term language tr
      :: answers w language rest (tr ++ [search_event language term])
  end.

(** The request that [_summarize_article] sends for an article. *)
Definition summarize_request (max_summary_length : Z) (article : pydict)
    (topic : string) (include_relevance : bool) : ChatRequest :=
  {| chat_system := "Eres un experto en resumir noticias de manera concisa y precisa.";
     chat_user :=
       SummarizerAgent.article_prompt max_summary_length topic
         (SummarizerAgent.article_context
            (dict_get article "title" (PyStr EmptyString))
            (dict_get article "description" (PyStr EmptyString))
            (dict_get article "content" (PyStr EmptyString)))
         include_relevance;
     chat_max_tokens := 250 |}.

(** What the [try] block of [_summarize_article] returns for a response text. *)
Definition condensed (article : pydict) (include_relevance : bool)
    (response_text : string) : pydict :=
  let sr := SummarizerAgent.parse_response include_relevance response_text in
  let summarized := <["summary" := PyStr sr.1]> article in
  if truthy (PyStr sr.2) then <["relevance" := PyStr sr.2]> summarized else summarized.

(** What its [except] block returns. *)
Definition degraded (article : pydict) (include_relevance : bool) : pydict :=
  let summarized :=
    <["summary" := py_or (dict_get article "description" (PyStr EmptyString))
                         (PyStr "Resumen no disponible.")]> article in
  if include_relevance
  then <["relevance" := PyStr "Información no disponible."]> summarized
  else summarized.

(** The entry that the condenser stores for a topic without items. *)
Definition no_news (topic : string) : TopicSummary :=
  {| ts_summary :=
       Some (PyStr ("No se encontraron noticias para el tópico '" +:+ topic +:+ "'."));
     ts_articles := Some [] |}.

(** Every item of every topic has a title that is a string (or no title
    entry at all). *)
Definition titled (d : list (string * list pydict)) : Prop :=
  ∀ topic items item,
    (topic, items) ∈ d → item ∈ items →
    dict_get item "title" (PyStr EmptyString) ≠ PyNone.

(** The template context that [format_newsletter] assembles before it
    renders anything. *)
Definition template_data_of (w : World) (user_data : pydict)
    (summarized_news : list (string * TopicSummary)) : M TemplateData :=
  let name := dict_get user_data "name" (PyStr "Usuario") in
  title ← FormatterAgent._generate_title w name (ODict.keys summarized_news);
  intro ← FormatterAgent._generate_introduction w name (ODict.keys summarized_news);
  today ← FormatterAgent._get_formatted_date w;
  mret {| user_name := name;
          newsletter_title := title;
          introduction := intro;
          topics := FormatterAgent.topic_data <$> summarized_news;
          date := today |}.

(** The structured body: the template's rendering, or the simple HTML when
    the engine raises. *)
Definition html_of (w : World) (template_name : string) (data : TemplateData) : M string :=
  try_except
    (_ ← env_get_template w template_name;
     template_render w template_name data)
    (λ e, mret (FormatterAgent._generate_simple_html data)).

(** The outcome for a channel that is not registered. *)
Definition unsupported (channel_name : string) : Outcome :=
  {| success := false;
     message := "Canal no soportado: " +:+ channel_name;
     channel := channel_name; recipient := None; subject := None |}.

(** Two runs of the pipeline, one starting at history [tr1] and one at
    [tr2], get the same answers from the generation and search services:
    after the same calls [evs] of the run, a request is answered alike. *)
Definition same_answers (w : World) (tr1 tr2 : Trace) : Prop :=
  (∀ evs r, chat_create w (tr1 ++ evs) r = chat_create w (tr2 ++ evs) r) ∧
  (∀ evs q l s n,
     get_everything w (tr1 ++ evs) q l s n = get_everything w (tr2 ++ evs) q l s n).

(** The clock reads the same formatted date at the same point of both runs. *)
Definition same_dates (w : World) (tr1 tr2 : Trace) : Prop :=
  ∀ evs, strftime_now w (tr1 ++ evs) = strftime_now w (tr2 ++ evs).

(** [m] behaves alike in both runs: after the same calls [evs] it returns or
    raises the same and makes the same further calls. *)
Definition in_step {A} (tr1 tr2 : Trace) (m : M A) : Prop :=
  ∀ evs, ∃ r evs',
    m (tr1 ++ evs) = (r, tr1 ++ evs ++ evs') ∧
    m (tr2 ++ evs) = (r, tr2 ++ evs ++ evs').

(** The plain-text body that a run of the first three stages produces, or
    the exception that ends the run. *)
Definition text_body (r : res pydoc * Trace) : res (option string) :=
  res_map (λ doc : pydoc, doc !! "text") r.1.

(** ** Worlds and settings of the examples *)

(** The world in which every service is down: each call raises. *)
Definition unreachable : World :=
  {| chat_create := λ _ _, Raise "unavailable";
     get_everything := λ _ _ _ _ _, Raise "unavailable";
     strftime_now := λ _, "01 de January de 2025";
     get_template := λ _ _, Raise "template not found";
     render := λ _ _ _, Raise "template not found";
     smtp := λ _ _, Raise "connection refused";
     upper := PyStr.str_upper |}.

(** A generation service that always answers [text], in a world where every
    other service is down. *)
Definition answering (text : string) : World :=
  {| chat_create := λ _ _, Ok text;
     get_everything := λ _ _ _ _ _, Raise "unavailable";
     strftime_now := λ _, "01 de January de 2025";
     get_template := λ _ _, Raise "template not found";
     render := λ _ _ _, Raise "template not found";
     smtp := λ _ _, Raise "connection refused";
     upper := PyStr.str_upper |}.

(** A template engine that finds the template and renders nothing. *)
Definition blank_template : World :=
  {| chat_create := λ _ _, Raise "unavailable";
     get_everything := λ _ _ _ _ _, Raise "unavailable";
     strftime_now := λ _, "01 de January de 2025";
     get_template := λ _ _, Ok ();
     render := λ _ _ _, Ok EmptyString;
     smtp := λ _ _, Raise "connection refused";
     upper := PyStr.str_upper |}.

(** Both services are down, and the day changes once seven calls have been
    made. *)
Definition midnight : World :=
  {| chat_create := λ _ _, Raise "unavailable";
     get_everything := λ _ _ _ _ _, Raise "unavailable";
     strftime_now := λ tr, if decide (length tr < 7)%nat
                           then "31 de December de 2024"
                           else "01 de January de 2025";
     get_template := λ _ _, Raise "template not found";
     render := λ _ _ _, Raise "template not found";
     smtp := λ _ _, Raise "connection refused";
     upper := PyStr.str_upper |}.

(** The generation service is down and the search service answers every
    query with one article whose title is null. *)
Definition null_title_news : World :=
  {| chat_create := λ _ _, Raise "unavailable";
     get_everything := λ _ _ _ _ _,
       Ok (Some [ {| api_fields :=
                       <["title" := PyNone]> (<["description" := PyStr "Una nota"]> ∅);
                     api_source := None |} ]);
     strftime_now := λ _, "01 de January de 2025";
     get_template := λ _ _, Raise "template not found";
     render := λ _ _ _, Raise "template not found";
     smtp := λ _ _, Raise "connection refused";
     upper := PyStr.str_upper |}.

(** Mail settings with nothing configured but the default port. *)
Definition no_credentials : Config :=
  {| EMAIL_HOST := PyNone; EMAIL_PORT := 587; EMAIL_USERNAME := PyNone;
     EMAIL_PASSWORD := PyNone; EMAIL_FROM := PyNone |}.

(** ** Vocabulary of the further properties *)

(** The message that [_send_by_email] builds. *)
Definition mail_message (cfg : Config) (user_data : pydict) (newsletter_data : pydoc)
  : Message :=
  let text_content := from_option id EmptyString (newsletter_data !! "text") in
  let html_content := from_option id EmptyString (newsletter_data !! "html") in
  {| msg_subject :=
       from_option id "Tu Newsletter Personalizado" (newsletter_data !! "subject");
     msg_from := EMAIL_FROM cfg;
     msg_to := dict_get user_data "email" PyNone;
     msg_parts :=
       (if decide (text_content = EmptyString) then [] else [("plain", text_content)])
       ++ (if decide (html_content = EmptyString) then [] else [("html", html_content)]) |}.

(** The transport session of a real delivery, call by call. *)
Definition smtp_session (cfg : Config) (msg : Message) : list SmtpCall :=
  [ SMTP (EMAIL_HOST cfg) (EMAIL_PORT cfg);
    Starttls;
    Login (EMAIL_USERNAME cfg) (EMAIL_PASSWORD cfg);
    SendMessage msg;
    Quit ].

(** Making the calls [calls] in order from history [tr] until one raises:
    how many calls are made, and the exception that ends them, if any. *)
Fixpoint attempt (w : World) (tr : Trace) (calls : list SmtpCall) : nat * option exn :=
  match calls with
  | [] => (O, None)
  | c :: rest =>
      match smtp w tr c with
      | Raise e => (1%nat, Some e)
      | Ok _ =>
          let r := attempt w (tr ++ [EvSmtp c]) rest in
          (S r.1, r.2)
      end
  end.

(** The outcome of a real delivery that went through. *)
Definition delivered (cfg : Config) (user_data : pydict) (newsletter_data : pydoc)
  : Outcome :=
  {| success := true;
     message := "Newsletter enviado exitosamente";
     channel := "email";
     recipient := Some (dict_get user_data "email" PyNone);
     subject := Some (msg_subject (mail_message cfg user_data newsletter_data)) |}.

(** The outcome that [send_newsletter] makes of an exception. *)
Definition send_failed (channel_name : string) (e : exn) : Outcome :=
  {| success := false;
     message := "Error al enviar: " +:+ e;
     channel := channel_name; recipient := None; subject := None |}.

(** The outcome of a channel whose contact field the recipient lacks. *)
Definition no_contact (channel_name text : string) : Outcome :=
  {| success := false; message := text; channel := channel_name;
     recipient := None; subject := None |}.

(** All four mail credentials are set. *)
Definition configured (cfg : Config) : Prop :=
  truthy (EMAIL_HOST cfg) = true ∧ EMAIL_PORT cfg ≠ 0 ∧
  truthy (EMAIL_USERNAME cfg) = true ∧ truthy (EMAIL_PASSWORD cfg) = true.

(** Mail settings of a configured deployment. *)
Definition with_credentials : Config :=
  {| EMAIL_HOST := PyStr "smtp.example.com"; EMAIL_PORT := 587;
     EMAIL_USERNAME := PyStr "mailer"; EMAIL_PASSWORD := PyStr "secret";
     EMAIL_FROM := PyStr "news@example.com" |}.

(** A mail server that accepts the session up to the login and refuses the
    message; the other services are down. *)
Definition refusing_message : World :=
  {| chat_create := λ _ _, Raise "unavailable";
     get_everything := λ _ _ _ _ _, Raise "unavailable";
     strftime_now := λ _, "01 de January de 2025";
     get_template := λ _ _, Raise "template not found";
     render := λ _ _ _, Raise "template not found";
     smtp := λ _ c, match c with
                    | SendMessage _ => Raise "552 message refused"
                    | _ => Ok ()
                    end;
     upper := PyStr.str_upper |}.

(** Every call of [calls], made in order from history [tr], returns. *)
Fixpoint accepted (w : World) (tr : Trace) (calls : list SmtpCall) : Prop :=
  match calls with
  | [] => True
  | c :: rest => smtp w tr c = Ok () ∧ accepted w (tr ++ [EvSmtp c]) rest
  end.

(** The recipient has the contact field that the channel [channel_name]
    delivers to. *)
Definition reachable_by (channel_name : string) (user_data : pydict) : Prop :=
  (channel_name = "email" ∧ truthy (dict_get user_data "email" PyNone) = true) ∨
  (channel_name = "whatsapp" ∧ truthy (dict_get user_data "phone" PyNone) = true) ∨
  (channel_name = "telegram" ∧ truthy (dict_get user_data "telegram_id" PyNone) = true).

(** A channel implementation that always raises. *)
Definition broken_channel : SenderAgent.Impl := λ _ _, raise "gateway timeout".

(** The keys of the items that [_fetch_from_news_api] builds. *)
Definition item_keys : gset string :=
  list_to_set ["title"; "description"; "content"; "url"; "source"; "published_at";
               "search_term"].

(** A record of the search service whose ["source"] entry is not a
    dictionary. *)
Definition malformed (a : ApiArticle) : Prop := api_source a = Some None.

Global Instance malformed_dec a : Decision (malformed a).
Proof. unfold malformed. apply _. Defined.

(** [item] is the item made of the record [a] found by [query]: it has the
    seven keys, the record's entries under them (the empty string for an
    entry that the record lacks), and the query. *)
Definition copies (query : string) (a : ApiArticle) (item : pydict) : Prop :=
  dom item = item_keys ∧
  item !! "title" = Some (dict_get (api_fields a) "title" (PyStr EmptyString)) ∧
  item !! "description" = Some (dict_get (api_fields a) "description" (PyStr EmptyString)) ∧
  item !! "content" = Some (dict_get (api_fields a) "content" (PyStr EmptyString)) ∧
  item !! "url" = Some (dict_get (api_fields a) "url" (PyStr EmptyString)) ∧
  item !! "published_at" = Some (dict_get (api_fields a) "publishedAt" (PyStr EmptyString)) ∧
  item !! "source"
  = Some (match api_source a with
          | Some (Some d) => dict_get d "name" (PyStr EmptyString)
          | _ => PyStr EmptyString
          end) ∧
  item !! "search_term" = Some (PyStr query).

(** The request by which [_get_search_terms] asks for the queries of a
    topic. *)
Definition terms_request (topic : Topic) : ChatRequest :=
  {| chat_system := "Eres un asistente experto en encontrar noticias relevantes.";
     chat_user :=
       NewsFetcherAgent.search_terms_prompt (topic_name topic)
         (from_option id (PyStr EmptyString) (topic_description topic));
     chat_max_tokens := 100 |}.

(** The queries of a topic when that request is made from history [tr]: the
    comma-separated parts of the response, each one stripped, or the topic's
    name when the call raises. *)
Definition queries_of (w : World) (topic : Topic) (tr : Trace) : list string :=
  match chat_create w tr (terms_request topic) with
  | Ok content => PyStr.strip <$> PyStr.split_char "," (PyStr.strip content)
  | Raise _ => [topic_name topic]
  end.

(** A search service that answers every query with the same page. *)
Definition serving (page : list ApiArticle) : World :=
  {| chat_create := λ _ _, Ok "ia, clima";
     get_everything := λ _ _ _ _ _, Ok (Some page);
     strftime_now := λ _, "01 de January de 2025";
     get_template := λ _ _, Raise "template not found";
     render := λ _ _ _, Raise "template not found";
     smtp := λ _ _, Raise "connection refused";
     upper := PyStr.str_upper |}.

(** The first three items have a title that is a string, or no title entry
    at all. *)
Definition headlined (news_items : list pydict) : Prop :=
  Forall (λ item, dict_get item "title" (PyStr EmptyString) ≠ PyNone) (take 3 news_items).

Global Instance headlined_dec news_items : Decision (headlined news_items).
Proof. unfold headlined. apply _. Defined.

(** The [TypeError] of [str.join] at item [i]. *)
Definition join_error (i : nat) : exn :=
  "sequence item " +:+ pretty i +:+ ": expected str instance, NoneType found".

(** The text that stands for a topic summary when the generation call
    raises. *)
Definition no_topic_summary (topic : string) : string :=
  "Resumen no disponible para '" +:+ topic +:+ "'.".

(** The topics named in the requests and canned texts of the formatter: the
    first three names, and [more] when there are others. *)
Definition listing (more : string) (topics : list string) : string :=
  let topics_text := PyStr.join ", " (take 3 topics) in
  if decide (3 < length topics)%nat then topics_text +:+ more else topics_text.

(** The requests of [_generate_title] and [_generate_introduction]. *)
Definition title_request (user_name : pyval) (topics : list string) : ChatRequest :=
  {| chat_system := "Eres un experto en marketing y titulares atractivos.";
     chat_user := FormatterAgent.title_prompt user_name (listing " y más" topics);
     chat_max_tokens := 30 |}.

Definition introduction_request (user_name : pyval) (topics : list string) : ChatRequest :=
  {| chat_system := "Eres un redactor amigable y persuasivo que conecta con los lectores.";
     chat_user := FormatterAgent.introduction_prompt user_name (listing " y otros temas" topics);
     chat_max_tokens := 150 |}.

(** The calls that [format_newsletter] makes before it looks the template
    up. *)
Definition preparation (user_data : pydict) (topics : list string) : Trace :=
  [ EvChat (title_request (dict_get user_data "name" (PyStr "Usuario")) topics);
    EvChat (introduction_request (dict_get user_data "name" (PyStr "Usuario")) topics);
    EvNow ].

(** The keys of a formatted newsletter. *)
Definition document_keys : gset string := list_to_set ["html"; "text"; "title"; "subject"].

(** A row of [user_topics] whose joined topic is null. *)
Definition dangling (row : TopicRow) : Prop := row_topics row = None.

Global Instance dangling_dec row : Decision (dangling row).
Proof. unfold dangling. apply _. Defined.

(** [topic] is the topic of the row [row]: it has the name and the
    description of the joined topic. *)
Definition topic_of (row : TopicRow) (topic : Topic) : Prop :=
  ∃ description,
    row_topics row = Some (topic_name topic, description) ∧
    topic_description topic = Some description.

(** The recipient that a run finds in the storage when it looks
    [user_id] up from the histories [j] and [tr]: the first row of the
    answer, unless the request raises, answers no row, or answers an empty
    row. *)
Definition user_of (db : Storage) (user_id : string) (j : Journal) (tr : Trace)
  : option pydict :=
  match select_user db j tr user_id with
  | Ok (row :: _) => if decide (row = ∅) then None else Some row
  | Ok [] | Raise _ => None
  end.

(** The topics that [get_user_topics] returns from the histories [j] and
    [tr]. *)
Definition topics_of (db : Storage) (user_id : string) (j : Journal) (tr : Trace)
  : list Topic :=
  match (database.get_user_topics db user_id j tr).1.1 with
  | Ok topics => topics
  | Raise _ => []
  end.

(** A storage service that is down. *)
Definition storage_down : Storage :=
  {| select_user := λ _ _ _, Raise "connection refused";
     select_user_topics := λ _ _ _, Raise "connection refused";
     insert_newsletter := λ _ _ _, Raise "connection refused" |}.

(** A storage service that knows one recipient with one topic and refuses
    every insertion. *)
Definition read_only_storage : Storage :=
  {| select_user := λ _ _ user_id,
       Ok [ <["id" := PyStr user_id]>
            (<["name" := PyStr "Ana"]> (<["email" := PyStr "ana@example.com"]> ∅)) ];
     select_user_topics := λ _ _ _,
       Ok [ {| row_topic_id := "t1"; row_topics := Some ("Ciencia", PyNone) |} ];
     insert_newsletter := λ _ _ _, Raise "permission denied" |}.

(** The same recipient and topic in a storage service that stores every
    record. *)
Definition accepting_storage : Storage :=
  {| select_user := select_user read_only_storage;
     select_user_topics := select_user_topics read_only_storage;
     insert_newsletter := λ _ _ row,
       Ok [ <["user_id" := PyStr (nl_user_id row)]>
            (<["content" := PyStr (nl_content row)]> ∅) ] |}.

(** Sample values of the formatter's context. *)
Definition sample_article : pydict :=
  <["title" := PyStr "Sube el mar"]> (<["summary" := PyStr "El nivel sube."]> ∅).

Definition sample_topic : TopicData :=
  {| td_name := "Clima"; td_summary := PyStr "Semana movida."; td_articles := [sample_article] |}.

Definition sample_data : TemplateData :=
  {| user_name := PyStr "Ana"; newsletter_title := "Tu semana";
     introduction := "Hola."; topics := [sample_topic]; date := "01 de January de 2025" |}.

(** The search service never answers a record whose title is null: every
    record has a title that is a string, or no title entry. *)
Definition string_titles (w : World) : Prop :=
  ∀ tr q language sort_by page_size page a,
    get_everything w tr q language sort_by page_size = Ok (Some page) →
    a ∈ page →
    dict_get (api_fields a) "title" (PyStr EmptyString) ≠ PyNone.

(** The dictionary after the assignments [d[k] = v] of [entries], made in
    order to the empty dictionary. *)
Definition assigned {V} (entries : list (string * V)) : list (string * V) :=
  foldl (λ d kv, ODict.set kv.1 kv.2 d) [] entries.

(** The fetch of one topic from history [tr], as the cap shapes it.  The
    topic's queries are asked for first; the answers are accumulated query
    by query, in query order; [k] queries are issued, at least one; [items]
    are the first [cap] items of the [k] accumulated answers; the loop stops
    before the last query only when the accumulated list has reached the cap,
    and after none of the earlier queries had the list reached it. *)
Definition capped_fetch (w : World) (cap : Z) (language : string) (topic : Topic)
    (tr : Trace) (k : nat) (items : list pydict) : Prop :=
  let terms := queries_of w topic tr in
  let accumulated j :=
    concat (take j (answers w language terms (tr ++ [EvChat (terms_request topic)]))) in
  (1 ≤ k ≤ length terms)%nat ∧
  items = take (Z.to_nat cap) (accumulated k) ∧
  ((k < length terms)%nat → cap ≤ Z.of_nat (length (accumulated k))) ∧
  (∀ j, (0 < j < k)%nat → Z.of_nat (length (accumulated j)) < cap).

(** The history after that fetch: the request for the queries and the [k]
    search requests. *)
Definition after_fetch (w : World) (language : string) (topic : Topic) (tr : Trace)
    (k : nat) : Trace :=
  tr ++ EvChat (terms_request topic)
     :: (search_event language <$> take k (queries_of w topic tr)).

(** The topics are fetched in turn, each from the history that the fetch of
    the one before it has left; [entries] are the item lists by topic name,
    in the order of the topics. *)
Inductive fetched_in_turn (w : World) (cap : Z) (language : string)
  : list Topic → Trace → list (string * list pydict) → Trace → Prop :=
  | in_turn_nil tr : fetched_in_turn w cap language [] tr [] tr
  | in_turn_cons topic topics tr k items entries tr' :
      capped_fetch w cap language topic tr k items →
      fetched_in_turn w cap language topics (after_fetch w language topic tr k) entries tr' →
      fetched_in_turn w cap language (topic :: topics) tr
        ((topic_name topic, items) :: entries) tr'.

(** A record of the search service with a title, a description and a
    source. *)
Definition headline (title : string) : ApiArticle :=
  {| api_fields :=
       <["title" := PyStr title]> (<["description" := PyStr "Una nota"]> ∅);
     api_source := Some (Some (<["name" := PyStr "Agencia"]> ∅)) |}.

Definition two_articles : list ApiArticle := [headline "Uno"; headline "Dos"].

Definition five_articles : list ApiArticle :=
  [headline "Uno"; headline "Dos"; headline "Tres"; headline "Cuatro"; headline "Cinco"].

(** The request of [_generate_topic_summary]: its prompt holds the topic,
    the first three titles and the first three descriptions that are not
    empty. *)
Definition topic_summary_request (topic : string) (news_items : list pydict)
  : ChatRequest :=
  let titles := (λ item, dict_get item "title" (PyStr EmptyString)) <$> news_items in
  let descriptions :=
    (λ item, dict_get item "description" (PyStr EmptyString))
      <$> filter (λ item, truthy (dict_get item "description" PyNone) = true) news_items in
  {| chat_system := "Eres un experto en sintetizar información de noticias de manera clara y objetiva.";
     chat_user :=
       SummarizerAgent.topic_summary_prompt topic
         (PyStr.join (SummarizerAgent.nl +:+ SummarizerAgent.nl)
            [ "Títulos:";
              PyStr.join SummarizerAgent.nl (py_format <$> take 3 titles);
              SummarizerAgent.nl +:+ "Descripciones:";
              PyStr.join SummarizerAgent.nl (py_format <$> take 3 descriptions) ]);
     chat_max_tokens := 150 |}.

(** The queries put to the search service in a history, and the records
    handed to the storage service for insertion. *)
Definition searched (tr : Trace) : list string :=
  omap (λ ev, match ev with EvSearch q _ _ _ => Some q | _ => None end) tr.

Definition inserted (j : Journal) : list NewsletterRow :=
  omap (λ c, match c with InsertNewsletter row => Some row | _ => None end) j.

(** * Properties *)

(** ** Running monadic code *)

Lemma bind_run {A B} (m : M A) (f : A → M B) (tr : Trace) :
  (m ≫= f) tr =
  match m tr with
  | (Ok a, tr') => f a tr'
  | (Raise e, tr') => (Raise e, tr')
  end.
Proof. reflexivity. Qed.

Lemma bind_ok {A B} (m : M A) (f : A → M B) tr a tr' :
  m tr = (Ok a, tr') → (m ≫= f) tr = f a tr'.
Proof. intros H. rewrite bind_run, H. reflexivity. Qed.

Lemma bind_raise {A B} (m : M A) (f : A → M B) tr e tr' :
  m tr = (Raise e, tr') → (m ≫= f) tr = (Raise e, tr').
Proof. intros H. rewrite bind_run, H. reflexivity. Qed.

Lemma try_ok {A} (m : M A) h tr a tr' :
  m tr = (Ok a, tr') → try_except m h tr = (Ok a, tr').
Proof. intros H. unfold try_except. rewrite H. reflexivity. Qed.

Lemma try_raise {A} (m : M A) h tr e tr' :
  m tr = (Raise e, tr') → try_except m h tr = h e tr'.
Proof. intros H. unfold try_except. rewrite H. reflexivity. Qed.

Lemma total_ret {A} (a : A) : total (mret a).
Proof. intros tr. by exists a, tr. Qed.

Lemma total_bind {A B} (m : M A) (f : A → M B) :
  total m → (∀ a, total (f a)) → total (m ≫= f).
Proof.
  intros Hm Hf tr. destruct (Hm tr) as (a & tr1 & E).
  destruct (Hf a tr1) as (b & tr2 & E2).
  exists b, tr2. by rewrite (bind_ok _ _ _ _ _ E).
Qed.

Lemma total_try {A} (m : M A) (h : exn → M A) :
  (∀ e, total (h e)) → total (try_except m h).
Proof.
  intros Hh tr. unfold try_except.
  destruct (m tr) as [[a|e] tr1]; [by exists a, tr1 | apply Hh].
Qed.

(** Totality of straight-line code: returns, binds and guarded blocks. *)
Ltac solve_total :=
  repeat first
    [ apply total_ret
    | apply total_try; intros ?
    | apply total_bind; [|intros ?] ].

(** ** Strings *)

Section strings.
Import PyStr.

Lemma app_cons (c : ascii) (s t : string) : String c s +:+ t = String c (s +:+ t).
Proof. reflexivity. Qed.

Lemma app_nil_l (t : string) : EmptyString +:+ t = t.
Proof. reflexivity. Qed.

Lemma app_empty_r (s : string) : s +:+ EmptyString = s.
Proof. induction s as [|c s IH]; [done | by rewrite app_cons, IH]. Qed.

Lemma app_assoc' (s t u : string) : (s +:+ t) +:+ u = s +:+ t +:+ u.
Proof. induction s as [|c s IH]; [done | by rewrite !app_cons, IH]. Qed.

Lemma app_nonempty_l (s t : string) : s ≠ EmptyString → s +:+ t ≠ EmptyString.
Proof. by destruct s. Qed.

Lemma app_length' (s t : string) :
  String.length (s +:+ t) = (String.length s + String.length t)%nat.
Proof. induction s as [|c s IH]; [done | by rewrite app_cons; simpl; rewrite IH]. Qed.


Lemma strip_prefix_Some (p s r : string) :
  strip_prefix p s = Some r ↔ s = p +:+ r.
Proof.
  revert s. induction p as [|a p IH]; intros s; simpl.
  - rewrite app_nil_l. split; [by intros [= ->] | by intros ->].
  - rewrite app_cons. destruct s as [|b s]; [split; [done | by intros [=]] |].
    case_decide as Hab.
    + subst b. rewrite IH. split; [by intros -> | by intros [= ->]].
    + split; [done | intros [= ? _]; congruence].
Qed.






End strings.

(** ** The model of [str.strip] stops only at a character outside the set *)

Section strip_fuel.
Import PyStr.

Lemma lstrip1_shorter cs s r :
  Forall (λ c, c ≠ EmptyString) cs → lstrip1 cs s = Some r →
  (String.length r < String.length s)%nat.
Proof.
  induction 1 as [|c cs Hc _ IH]; simpl; [done|].
  destruct (strip_prefix c s) as [r'|] eqn:E; [|exact IH].
  intros [= ->]. apply strip_prefix_Some in E as ->. rewrite app_length'.
  destruct c; [done | simpl; lia].
Qed.

Lemma lstrip_fuel_done n cs s :
  Forall (λ c, c ≠ EmptyString) cs → (String.length s ≤ n)%nat →
  lstrip1 cs (lstrip_fuel n cs s) = None.
Proof.
  intros Hcs. revert s. induction n as [|n IH]; intros s Hn; simpl.
  - destruct (lstrip1 cs s) as [r|] eqn:E; [|done].
    apply lstrip1_shorter in E; [lia | done].
  - destruct (lstrip1 cs s) as [r|] eqn:E; [|done].
    apply IH. apply lstrip1_shorter in E; [lia | done].
Qed.

Lemma lstrip_set_done cs s :
  Forall (λ c, c ≠ EmptyString) cs → lstrip1 cs (lstrip_set cs s) = None.
Proof. intros Hcs. by apply lstrip_fuel_done. Qed.

Lemma whitespace_nonempty : Forall (λ c, c ≠ EmptyString) whitespace.
Proof. apply (bool_decide_unpack _). by vm_compute. Qed.
End strip_fuel.

(** ** The condenser: one article *)

Section summarize_article.
Import PyStr SummarizerAgent.
Context (w : World) (max_summary_length : Z).

Lemma summarize_article_run article topic incl tr :
  _summarize_article w max_summary_length article topic incl tr =
  (Ok match chat_create w tr (summarize_request max_summary_length article topic incl) with
      | Ok response => condensed article incl (strip response)
      | Raise _ => degraded article incl
      end,
   tr ++ [EvChat (summarize_request max_summary_length article topic incl)]).
Proof.
  unfold _summarize_article, try_except, chat, call, mbind, M_bind, mret, M_ret.
  fold (summarize_request max_summary_length article topic incl).
  destruct (chat_create w tr _) as [response|e]; [|done].
  unfold condensed. by destruct (parse_response incl (strip response)).
Qed.

Lemma summarize_article_total article topic incl :
  total (_summarize_article w max_summary_length article topic incl).
Proof. intros tr. rewrite summarize_article_run. eauto. Qed.

Lemma condensed_frame article incl text k :
  k ≠ "summary" → k ≠ "relevance" → condensed article incl text !! k = article !! k.
Proof.
  intros Hs Hr. unfold condensed.
  destruct (truthy _); by rewrite ?lookup_insert_ne.
Qed.

Lemma degraded_frame article incl k :
  k ≠ "summary" → k ≠ "relevance" → degraded article incl !! k = article !! k.
Proof.
  intros Hs Hr. unfold degraded.
  destruct incl; by rewrite ?lookup_insert_ne.
Qed.


Lemma condensed_summary article incl text :
  condensed article incl text !! "summary"
  = Some (PyStr (parse_response incl text).1).
Proof.
  unfold condensed. destruct (truthy _).
  - by rewrite lookup_insert_ne, lookup_insert_eq.
  - by rewrite lookup_insert_eq.
Qed.




Lemma parse_response_plain text : parse_response false text = (text, EmptyString).
Proof. reflexivity. Qed.
End summarize_article.




(** C4.  When the generation call for an item raises, the condensed item's
    synopsis is the item's own description, or the canned text when the
    description is absent, null or empty; with relevance annotation enabled
    its relevance note is the canned "not available" text. *)
Theorem summarize_article_falls_back
    (w : World) (max_summary_length : Z) (article : pydict) (topic : string)
    (include_relevance : bool) (tr : Trace) (e : exn) :
  chat_create w tr (summarize_request max_summary_length article topic include_relevance)
  = Raise e →
  ∃ result,
    SummarizerAgent._summarize_article w max_summary_length article topic include_relevance tr
    = (Ok result,
       tr ++ [EvChat (summarize_request max_summary_length article topic include_relevance)]) ∧
    (∀ s, article !! "description" = Some (PyStr s) → s ≠ EmptyString →
       result !! "summary" = Some (PyStr s)) ∧
    (article !! "description" = None ∨ article !! "description" = Some PyNone ∨
     article !! "description" = Some (PyStr EmptyString) →
       result !! "summary" = Some (PyStr "Resumen no disponible.")) ∧
    (include_relevance = true →
       result !! "relevance" = Some (PyStr "Información no disponible.")) ∧
    (include_relevance = false → result !! "relevance" = article !! "relevance").
Proof.
  intros Hreply. eexists. split.
  { rewrite summarize_article_run, Hreply. reflexivity. }
  assert (degraded article include_relevance !! "summary"
          = Some (py_or (dict_get article "description" (PyStr EmptyString))
                        (PyStr "Resumen no disponible."))) as Hsum.
  { unfold degraded. destruct include_relevance.
    - by rewrite lookup_insert_ne, lookup_insert_eq.
    - by rewrite lookup_insert_eq. }
  rewrite Hsum. unfold dict_get, py_or. repeat split.
  - intros s -> Hs. simpl. by rewrite bool_decide_true.
  - by intros [-> | [-> | ->]].
  - intros ->. unfold degraded. by rewrite lookup_insert_eq.
  - intros ->. unfold degraded. by rewrite lookup_insert_ne.
Qed.

Lemma summarize_article_falls_back_witness :
  chat_create unreachable [EvNow]
    (summarize_request 150 (<["description" := PyStr "Una nota"]> ∅) "IA" true)
  = Raise "unavailable" ∧
  ∃ result,
    SummarizerAgent._summarize_article unreachable 150
      (<["description" := PyStr "Una nota"]> ∅) "IA" true [EvNow]
    = (Ok result,
       [EvNow] ++ [EvChat (summarize_request 150 (<["description" := PyStr "Una nota"]> ∅) "IA" true)]) ∧
    (∀ s, (<["description" := PyStr "Una nota"]> ∅ : pydict) !! "description" = Some (PyStr s) →
       s ≠ EmptyString → result !! "summary" = Some (PyStr s)) ∧
    ((<["description" := PyStr "Una nota"]> ∅ : pydict) !! "description" = None ∨
     (<["description" := PyStr "Una nota"]> ∅ : pydict) !! "description" = Some PyNone ∨
     (<["description" := PyStr "Una nota"]> ∅ : pydict) !! "description" = Some (PyStr EmptyString) →
       result !! "summary" = Some (PyStr "Resumen no disponible.")) ∧
    (true = true → result !! "relevance" = Some (PyStr "Información no disponible.")) ∧
    (true = false →
       result !! "relevance" = (<["description" := PyStr "Una nota"]> ∅ : pydict) !! "relevance").
Proof.
  split; [reflexivity|].
  apply (summarize_article_falls_back unreachable 150
           (<["description" := PyStr "Una nota"]> ∅) "IA" true [EvNow] "unavailable").
  reflexivity.
Defined.

(** C9.  Whatever the generation capability does, the condensed article
    agrees with the original on every key other than "summary" and
    "relevance". *)
Theorem summarize_article_frame
    (w : World) (max_summary_length : Z) (article : pydict) (topic : string)
    (include_relevance : bool) (tr : Trace) (k : string) :
  k ≠ "summary" → k ≠ "relevance" →
  ∃ result tr',
    SummarizerAgent._summarize_article w max_summary_length article topic include_relevance tr
    = (Ok result, tr') ∧
    result !! k = article !! k.
Proof.
  intros Hs Hr. eexists _, _. split; [apply summarize_article_run|].
  destruct (chat_create w tr _); [by apply condensed_frame | by apply degraded_frame].
Qed.

Lemma summarize_article_frame_witness :
  "title" ≠ "summary" ∧ "title" ≠ "relevance" ∧
  ∃ result tr',
    SummarizerAgent._summarize_article (answering "Resumen: A Relevancia: B") 150
      (<["title" := PyStr "Un titular"]> ∅) "IA" true []
    = (Ok result, tr') ∧
    result !! "title" = (<["title" := PyStr "Un titular"]> ∅ : pydict) !! "title".
Proof.
  split; [done|]. split; [done|].
  apply (summarize_article_frame (answering "Resumen: A Relevancia: B") 150
           (<["title" := PyStr "Un titular"]> ∅) "IA" true [] "title"); done.
Defined.

(** ** Ordered dictionaries and the loops that fill them *)

Section odict_facts.
Context {V : Type}.
Implicit Types (d acc es : list (string * V)).

Lemma set_fresh k (v : V) d :
  k ∉ ODict.keys d → ODict.set k v d = d ++ [(k, v)].
Proof.
  unfold ODict.keys. induction d as [|[k' v'] d IH]; simpl; [done|].
  intros Hk. apply not_elem_of_cons in Hk as [Hne Hk].
  rewrite decide_False by done. by rewrite IH.
Qed.

Lemma fill_fresh acc es :
  NoDup (ODict.keys (acc ++ es)) →
  foldl (λ a kv, ODict.set kv.1 kv.2 a) acc es = acc ++ es.
Proof.
  revert acc. induction es as [|[k v] es IH]; intros acc Hnd; simpl.
  - by rewrite app_nil_r.
  - assert (k ∉ ODict.keys acc) as Hk.
    { unfold ODict.keys in *. rewrite fmap_app in Hnd.
      apply NoDup_app in Hnd as (_ & Hd & _). intros Hin.
      apply (Hd _ Hin). simpl. left. }
    rewrite set_fresh by done. rewrite IH; rewrite <- app_assoc; done.
Qed.

Lemma get_elem k (v : V) d :
  NoDup (ODict.keys d) → (k, v) ∈ d → ODict.get k d = Some v.
Proof.
  unfold ODict.keys. induction d as [|[k' v'] d IH]; simpl; [by intros _ ?%elem_of_nil|].
  intros [Hk Hnd]%NoDup_cons [E|Hin]%elem_of_cons.
  - injection E as <- <-. by rewrite decide_True.
  - case_decide as Hkk; [|by apply IH]. subst k'.
    destruct Hk. apply (list_elem_of_fmap_2 fst) in Hin. done.
Qed.

Lemma elem_get k (v : V) d : ODict.get k d = Some v → (k, v) ∈ d.
Proof.
  induction d as [|[k' v'] d IH]; simpl; [done|].
  case_decide as Hkk.
  - intros [= <-]. subst. left.
  - intros H. right. by apply IH.
Qed.

Lemma set_elem k (v : V) k0 v0 d :
  (k, v) ∈ ODict.set k0 v0 d → (k, v) = (k0, v0) ∨ (k, v) ∈ d.
Proof.
  induction d as [|[k' v'] d IH]; simpl.
  - intros ?%list_elem_of_singleton. by left.
  - case_decide.
    + intros [?|?]%elem_of_cons; [by left | right; by right].
    + intros [->|Hin]%elem_of_cons; [right; left|].
      destruct (IH Hin) as [?|?]; [by left | right; by right].
Qed.

Lemma fill_elem k (v : V) acc es :
  (k, v) ∈ foldl (λ a kv, ODict.set kv.1 kv.2 a) acc es → (k, v) ∈ acc ∨ (k, v) ∈ es.
Proof.
  revert acc. induction es as [|[k0 v0] es IH]; intros acc; simpl; [by left|].
  intros Hin. destruct (IH _ Hin) as [Hs|?]; [|right; by right].
  destruct (set_elem _ _ _ _ _ Hs) as [->|?]; [right; left | by left].
Qed.
End odict_facts.

Section collect_facts.
Context {X V : Type} (key : X → string) (body : X → M V).

Lemma collect_total xs : (∀ x, x ∈ xs → total (body x)) → total (collect key body xs).
Proof.
  induction xs as [|x xs IH]; intros Hb; simpl; [apply total_ret|].
  apply total_bind; [apply Hb; left|]. intros v.
  apply total_bind; [apply IH; intros; apply Hb; by right|].
  intros; apply total_ret.
Qed.

Lemma collect_keys xs tr es tr' :
  collect key body xs tr = (Ok es, tr') → ODict.keys es = key <$> xs.
Proof.
  revert tr es tr'. induction xs as [|x xs IH]; intros tr es tr'; simpl.
  - by intros [= <- _].
  - rewrite bind_run. destruct (body x tr) as [[v|e] tr1]; [|done].
    rewrite bind_run. destruct (collect key body xs tr1) as [[es'|e] tr2] eqn:E; [|done].
    intros [= <- _]. specialize (IH _ _ _ E). unfold ODict.keys in *.
    rewrite !fmap_cons. simpl. by rewrite IH.
Qed.

(** An element whose body neither calls out nor fails can be left out:
    the remaining calls and results are unchanged. *)
Lemma collect_skip k xs tr :
  (∀ x, x ∈ xs → key x = k → ∀ tr0, ∃ v, body x tr0 = (Ok v, tr0)) →
  collect key body (filter (λ x, key x ≠ k) xs) tr
  = (res_map (without k) (collect key body xs tr).1, (collect key body xs tr).2).
Proof.
  revert tr. induction xs as [|x xs IH]; intros tr Hk; [done|].
  assert (∀ tr1, collect key body (filter (λ x, key x ≠ k) xs) tr1
            = (res_map (without k) (collect key body xs tr1).1,
               (collect key body xs tr1).2)) as IH'.
  { intros tr1. apply IH. intros x' Hx'. apply Hk. by right. }
  rewrite filter_cons. case_decide as Hx.
  - simpl. rewrite !bind_run. destruct (body x tr) as [[v|e] tr1]; [|done].
    rewrite !bind_run, IH'.
    destruct (collect key body xs tr1) as [[es|e] tr2]; simpl; [|done].
    unfold without. rewrite filter_cons. simpl. by rewrite decide_True.
  - destruct (Hk x (list_elem_of_here _ _) Hx tr) as [v Hv].
    simpl. rewrite IH', !bind_run, Hv, !bind_run.
    destruct (collect key body xs tr) as [[es|e] tr2]; simpl; [|done].
    unfold without. rewrite filter_cons. simpl. rewrite decide_False; [done|]. by intros ?.
Qed.

Lemma collect_elem xs tr es tr' x :
  collect key body xs tr = (Ok es, tr') → x ∈ xs →
  ∃ v tr0 tr1, body x tr0 = (Ok v, tr1) ∧ (key x, v) ∈ es.
Proof.
  revert tr es tr'. induction xs as [|y xs IH]; intros tr es tr'; simpl;
    [by intros _ ?%elem_of_nil|].
  rewrite bind_run. destruct (body y tr) as [[v|e] tr1] eqn:Ey; [|done].
  rewrite bind_run. destruct (collect key body xs tr1) as [[es'|e] tr2] eqn:E; [|done].
  intros [= <- _] [->|Hin]%elem_of_cons.
  - exists v, tr, tr1. split; [done | left].
  - destruct (IH _ _ _ E Hin) as (v' & t0 & t1 & Hb & Hin').
    exists v', t0, t1. split; [done | by right].
Qed.

Lemma collect_origin xs tr es tr' k v :
  collect key body xs tr = (Ok es, tr') → (k, v) ∈ es →
  ∃ x tr0 tr1, x ∈ xs ∧ key x = k ∧ body x tr0 = (Ok v, tr1).
Proof.
  revert tr es tr'. induction xs as [|y xs IH]; intros tr es tr'; simpl.
  - intros [= <- _] ?%elem_of_nil. done.
  - rewrite bind_run. destruct (body y tr) as [[v'|e] tr1] eqn:Ey; [|done].
    rewrite bind_run. destruct (collect key body xs tr1) as [[es'|e] tr2] eqn:E; [|done].
    intros [= <- _] [[= -> ->]|Hin]%elem_of_cons.
    + exists y, tr, tr1. split; [left | done].
    + destruct (IH _ _ _ E Hin) as (x & t0 & t1 & Hx & Hk & Hb).
      exists x, t0, t1. split; [by right | done].
Qed.

Lemma collect_const (g : X → V) xs tr :
  (∀ x tr0, ∃ tr1, body x tr0 = (Ok (g x), tr1)) →
  ∃ tr', collect key body xs tr = (Ok ((λ x, (key x, g x)) <$> xs), tr').
Proof.
  intros Hb. revert tr. induction xs as [|x xs IH]; intros tr; simpl; [by eexists|].
  destruct (Hb x tr) as [tr1 E]. rewrite (bind_ok _ _ _ _ _ E).
  destruct (IH tr1) as [tr2 E2]. rewrite (bind_ok _ _ _ _ _ E2). by eexists.
Qed.
End collect_facts.

(** ** The condenser: the loops over topics and items *)

Section summarize_topics.
Import PyStr SummarizerAgent.
Context (w : World) (max_summary_length : Z) (include_relevance : bool).

Local Abbreviation body :=
  (λ kv : string * list pydict,
     summarize_topic w max_summary_length include_relevance kv.1 kv.2).
Local Abbreviation run := (summarize_news_by_topic w max_summary_length include_relevance).

Lemma summarize_topics_collect d acc tr :
  summarize_topics w max_summary_length include_relevance d acc tr
  = (res_map (foldl (λ a kv, ODict.set kv.1 kv.2 a) acc) (collect fst body d tr).1,
     (collect fst body d tr).2).
Proof.
  revert acc tr. induction d as [|[topic items] d IH]; intros acc tr; [done|].
  simpl. rewrite !bind_run.
  destruct (summarize_topic w _ _ topic items tr) as [[v|e] tr1]; [|done].
  rewrite IH, bind_run. by destruct (collect fst body d tr1) as [[es|e] tr2].
Qed.

(** On a dictionary the run yields the entries in input order. *)
Lemma summarize_news_collect d tr :
  ODict.wf d → run d tr = collect fst body d tr.
Proof.
  intros Hwf. unfold summarize_news_by_topic. rewrite summarize_topics_collect.
  destruct (collect fst body d tr) as [[es|e] tr'] eqn:E; [|done]. simpl.
  rewrite fill_fresh; [done|]. simpl. by rewrite (collect_keys _ _ _ _ _ _ E).
Qed.


Lemma str_items_total i l : Forall (λ v, v ≠ PyNone) l → total (str_items i l).
Proof.
  intros Hl. revert i. induction Hl as [|[|s] l Hv Hl IH]; intros i; simpl.
  - apply total_ret.
  - done.
  - apply total_bind; [apply IH|]. intros; apply total_ret.
Qed.

Lemma join_any_total sep l : Forall (λ v, v ≠ PyNone) l → total (join_any sep l).
Proof. intros Hl. unfold join_any. solve_total. by apply str_items_total. Qed.

Lemma generate_topic_summary_total topic news_items :
  (∀ item, item ∈ news_items → dict_get item "title" (PyStr EmptyString) ≠ PyNone) →
  total (_generate_topic_summary w topic news_items).
Proof.
  intros Ht. unfold _generate_topic_summary.
  apply total_bind.
  { apply join_any_total, Forall_take, Forall_fmap, Forall_forall. intros; by apply Ht. }
  intros ?. apply total_bind.
  { apply join_any_total, Forall_take, Forall_fmap, Forall_forall.
    intros item [Hd _]%list_elem_of_filter Hnone. simpl in Hnone.
    unfold dict_get in *. by destruct (item !! "description") as [[]|]. }
  intros ?. apply total_try. intros; apply total_ret.
Qed.

Lemma summarize_articles_total topic news_items :
  total (summarize_articles w max_summary_length include_relevance topic news_items).
Proof.
  induction news_items as [|a l IH]; simpl; solve_total. apply IH.
Qed.

Lemma summarize_topic_total topic news_items :
  (∀ item, item ∈ news_items → dict_get item "title" (PyStr EmptyString) ≠ PyNone) →
  total (summarize_topic w max_summary_length include_relevance topic news_items).
Proof.
  intros Ht. destruct news_items as [|a l]; [apply total_ret|].
  unfold summarize_topic. apply total_bind; [by apply generate_topic_summary_total|].
  intros ?. apply total_bind; [apply summarize_articles_total|]. intros; apply total_ret.
Qed.

(** With string titles the whole run returns. *)
Lemma summarize_news_total d tr :
  ODict.wf d → titled d → ∃ out tr', run d tr = (Ok out, tr').
Proof.
  intros Hwf Ht.
  destruct (collect_total fst body d) with (tr := tr) as (out & tr' & E).
  { intros [topic items] Hin. apply summarize_topic_total. intros; by eapply Ht. }
  exists out, tr'. by rewrite summarize_news_collect.
Qed.

Lemma without_wf {V} topic (d : list (string * V)) : ODict.wf d → ODict.wf (without topic d).
Proof.
  unfold ODict.wf, ODict.keys, without. induction d as [|[k v] d IH]; [done|].
  rewrite fmap_cons. intros [Hk Hd]%NoDup_cons. rewrite filter_cons. simpl.
  case_decide; [|by apply IH]. rewrite fmap_cons. apply NoDup_cons. split; [|by apply IH].
  intros Hin. apply Hk. apply list_elem_of_fmap in Hin as ([k' v'] & -> & Hin).
  apply list_elem_of_filter in Hin as [_ Hin]. by apply (list_elem_of_fmap_2 fst) in Hin.
Qed.
End summarize_topics.

(** C3.  A topic without items gets no result when a later topic has a null
    title.  On the mapping of "A" to no items and of "B" to one item whose
    title is null, the run raises the [TypeError] of the join of the titles,
    whatever the generation service does and before any call is made: the
    canned entry of "A" is computed and lost with the mapping.  This is the
    defect of C10, met by an input of this claim. *)
Lemma summarize_empty_topic_lost :
  ODict.wf [("A", []); ("B", [<["title" := PyNone]> (∅ : pydict)])] ∧
  ODict.get "A" [("A", []); ("B", [<["title" := PyNone]> (∅ : pydict)])] = Some [] ∧
  ∀ (w : World) (tr : Trace),
    SummarizerAgent.summarize_news_by_topic w 150 true
      [("A", []); ("B", [<["title" := PyNone]> (∅ : pydict)])] tr
    = (Raise "sequence item 0: expected str instance, NoneType found", tr).
Proof.
  split; [|split].
  - apply (bool_decide_unpack _). by vm_compute.
  - reflexivity.
  - intros w tr. by vm_compute.
Qed.

(** X21.  The empty topic within a run.  On a mapping without a repeated
    key, a topic whose item list is empty has the canned entry, a non-empty
    "no items found" synopsis and no articles: its iteration returns that
    entry from every history without any outbound call, and it is the
    topic's entry in every mapping that the run returns.  The run makes
    exactly the calls of the run on the mapping without that topic and ends
    as it does: with the same exception, or with the same mapping but for
    that topic's entry.  When every item's title is a string the run
    returns. *)
Theorem summarize_empty_topic
    (w : World) (max_summary_length : Z) (include_relevance : bool)
    (news_by_topic : list (string * list pydict)) (topic : string) (tr : Trace) :
  ODict.wf news_by_topic →
  ODict.get topic news_by_topic = Some [] →
  (∃ synopsis, ts_summary (no_news topic) = Some (PyStr synopsis) ∧ synopsis ≠ EmptyString) ∧
  ts_articles (no_news topic) = Some [] ∧
  (∀ tr0, SummarizerAgent.summarize_topic w max_summary_length include_relevance topic [] tr0
          = (Ok (no_news topic), tr0)) ∧
  (∀ out tr',
     SummarizerAgent.summarize_news_by_topic w max_summary_length include_relevance
       news_by_topic tr = (Ok out, tr') →
     ODict.get topic out = Some (no_news topic)) ∧
  SummarizerAgent.summarize_news_by_topic w max_summary_length include_relevance
    (without topic news_by_topic) tr
  = (res_map (without topic)
       (SummarizerAgent.summarize_news_by_topic w max_summary_length include_relevance
          news_by_topic tr).1,
     (SummarizerAgent.summarize_news_by_topic w max_summary_length include_relevance
        news_by_topic tr).2) ∧
  (titled news_by_topic →
   ∃ out tr',
     SummarizerAgent.summarize_news_by_topic w max_summary_length include_relevance
       news_by_topic tr = (Ok out, tr')).
Proof.
  intros Hwf Hget.
  split; [eexists; split; [reflexivity | by apply app_nonempty_l]|].
  split; [done|]. split; [done|]. split; [|split].
  - intros out tr'. rewrite summarize_news_collect by done. intros E.
    apply elem_get in Hget.
    destruct (collect_elem _ _ _ _ _ _ _ E Hget) as (v & t0 & t1 & Hb & Hin).
    simpl in Hb. injection Hb as <- _. apply get_elem; [|done].
    by rewrite (collect_keys _ _ _ _ _ _ E).
  - rewrite !summarize_news_collect by auto using without_wf.
    apply collect_skip. intros [k items] Hin Hk tr0. simpl in Hk. subst k.
    rewrite (get_elem _ _ _ Hwf Hin) in Hget. injection Hget as ->. by eexists.
  - intros Ht. destruct (summarize_news_total w max_summary_length include_relevance
                           news_by_topic tr Hwf Ht) as (out & tr' & E). eauto.
Qed.

Lemma summarize_empty_topic_witness :
  ODict.wf [("IA", []); ("Clima", [<["title" := PyStr "Sube el mar"]> (∅ : pydict)])] ∧
  ODict.get "IA" [("IA", []); ("Clima", [<["title" := PyStr "Sube el mar"]> (∅ : pydict)])]
  = Some [] ∧
  (∃ synopsis, ts_summary (no_news "IA") = Some (PyStr synopsis) ∧ synopsis ≠ EmptyString) ∧
  ts_articles (no_news "IA") = Some [] ∧
  (∀ tr0, SummarizerAgent.summarize_topic (answering "Resumen: A Relevancia: B") 150 true
            "IA" [] tr0
          = (Ok (no_news "IA"), tr0)) ∧
  (∀ out tr',
     SummarizerAgent.summarize_news_by_topic (answering "Resumen: A Relevancia: B") 150 true
       [("IA", []); ("Clima", [<["title" := PyStr "Sube el mar"]> (∅ : pydict)])] []
     = (Ok out, tr') →
     ODict.get "IA" out = Some (no_news "IA")) ∧
  SummarizerAgent.summarize_news_by_topic (answering "Resumen: A Relevancia: B") 150 true
    (without "IA" [("IA", []); ("Clima", [<["title" := PyStr "Sube el mar"]> (∅ : pydict)])]) []
  = (res_map (without "IA")
       (SummarizerAgent.summarize_news_by_topic (answering "Resumen: A Relevancia: B") 150 true
          [("IA", []); ("Clima", [<["title" := PyStr "Sube el mar"]> (∅ : pydict)])] []).1,
     (SummarizerAgent.summarize_news_by_topic (answering "Resumen: A Relevancia: B") 150 true
        [("IA", []); ("Clima", [<["title" := PyStr "Sube el mar"]> (∅ : pydict)])] []).2) ∧
  (titled [("IA", []); ("Clima", [<["title" := PyStr "Sube el mar"]> (∅ : pydict)])] →
   ∃ out tr',
     SummarizerAgent.summarize_news_by_topic (answering "Resumen: A Relevancia: B") 150 true
       [("IA", []); ("Clima", [<["title" := PyStr "Sube el mar"]> (∅ : pydict)])] []
     = (Ok out, tr')).
Proof.
  assert (ODict.wf [("IA", @nil pydict);
                    ("Clima", [<["title" := PyStr "Sube el mar"]> (∅ : pydict)])]) as Hwf.
  { apply (bool_decide_unpack _). by vm_compute. }
  split; [exact Hwf|]. split; [reflexivity|].
  exact (summarize_empty_topic (answering "Resumen: A Relevancia: B") 150 true
           [("IA", []); ("Clima", [<["title" := PyStr "Sube el mar"]> (∅ : pydict)])]
           "IA" [] Hwf eq_refl).
Defined.

(** X2.  The condenser keeps every topic of a well-typed input.  When the input
    is a dictionary and every item's title is a string,
    [summarize_news_by_topic] returns a mapping with the keys of its input,
    in the same order. *)
Theorem summarizer_keeps_every_topic
    (w : World) (max_summary_length : Z) (include_relevance : bool)
    (news_by_topic : list (string * list pydict)) (tr : Trace) :
  ODict.wf news_by_topic → titled news_by_topic →
  ∃ out tr',
    SummarizerAgent.summarize_news_by_topic w max_summary_length include_relevance
      news_by_topic tr = (Ok out, tr') ∧
    ODict.keys out = ODict.keys news_by_topic.
Proof.
  intros Hwf Ht.
  destruct (collect_total fst
              (λ kv, SummarizerAgent.summarize_topic w max_summary_length include_relevance
                       kv.1 kv.2) news_by_topic) with (tr := tr) as (out & tr' & E).
  { intros [topic items] Hin. apply summarize_topic_total. intros; by eapply Ht. }
  exists out, tr'. rewrite summarize_news_collect by done. split; [done|].
  by apply collect_keys in E.
Qed.

Lemma summarizer_keeps_every_topic_witness :
  ODict.wf [("IA", []); ("Clima", [<["title" := PyStr "Sube el mar"]> (∅ : pydict)])] ∧
  titled [("IA", []); ("Clima", [<["title" := PyStr "Sube el mar"]> (∅ : pydict)])] ∧
  ∃ out tr',
    SummarizerAgent.summarize_news_by_topic unreachable 150 true
      [("IA", []); ("Clima", [<["title" := PyStr "Sube el mar"]> (∅ : pydict)])] []
    = (Ok out, tr') ∧
    ODict.keys out
    = ODict.keys [("IA", @nil pydict);
                  ("Clima", [<["title" := PyStr "Sube el mar"]> (∅ : pydict)])].
Proof.
  assert (ODict.wf [("IA", @nil pydict);
                    ("Clima", [<["title" := PyStr "Sube el mar"]> (∅ : pydict)])]) as Hwf.
  { apply (bool_decide_unpack _). by vm_compute. }
  assert (titled [("IA", @nil pydict);
                  ("Clima", [<["title" := PyStr "Sube el mar"]> (∅ : pydict)])]) as Ht.
  { intros topic items item Hin Hitem.
    apply elem_of_cons in Hin as [[= -> ->]|Hin]; [by apply elem_of_nil in Hitem|].
    apply list_elem_of_singleton in Hin as [= -> ->].
    apply list_elem_of_singleton in Hitem as ->. done. }
  split; [exact Hwf|]. split; [exact Ht|].
  exact (summarizer_keeps_every_topic unreachable 150 true
           [("IA", []); ("Clima", [<["title" := PyStr "Sube el mar"]> (∅ : pydict)])]
           [] Hwf Ht).
Defined.

(** ** The fetcher *)

Section fetcher.
Import PyStr NewsFetcherAgent.
Context (w : World) (cap : Z).

Lemma process_article_pure query a tr :
  (process_article query a tr).2 = tr.
Proof. unfold process_article. by destruct (api_source a) as [[d|]|]. Qed.

Lemma process_articles_pure query l tr :
  (process_articles query l tr).2 = tr.
Proof.
  induction l as [|a l IH]; [done|]. simpl. rewrite bind_run.
  pose proof (process_article_pure query a tr) as Ha.
  destruct (process_article query a tr) as [[v|e] tr1]; simpl in Ha; subst tr1; [|done].
  rewrite bind_run. by destruct (process_articles query l tr) as [[r|e] tr'].
Qed.

Lemma fetch_from_news_api_run query language tr :
  _fetch_from_news_api w query language tr
  = (Ok (fetched w query language tr), tr ++ [search_event language query]).
Proof.
  unfold fetched, value. unfold _fetch_from_news_api, try_except.
  rewrite bind_run. unfold search at 1 2, call at 1 2.
  destruct (get_everything w tr query language "relevancy" 5) as [response|e]; [|done].
  pose proof (process_articles_pure query (from_option id [] response)
                (tr ++ [EvSearch query language "relevancy" 5])) as Hp.
  destruct (process_articles _ _ _) as [[r|e] tr']; simpl in *; by subst.
Qed.

Lemma fetch_term_run language term news_items tr :
  fetch_term w cap language term news_items tr
  = (Ok (if decide (cap ≤ Z.of_nat (length (news_items ++ fetched w term language tr)))
         then inr (slice_to cap (news_items ++ fetched w term language tr))
         else inl (news_items ++ fetched w term language tr)),
     tr ++ [search_event language term]).
Proof.
  unfold fetch_term, try_except. rewrite bind_run, fetch_from_news_api_run.
  by case_decide.
Qed.

Lemma slice_to_take {A} (l : list A) : 0 ≤ cap → slice_to cap l = take (Z.to_nat cap) l.
Proof. intros. unfold slice_to. by rewrite decide_True. Qed.

(** The loop over the queries of one topic, from an accumulator below the
    cap. *)
Lemma fetch_terms_run language terms acc tr :
  0 ≤ cap → Z.of_nat (length acc) ≤ cap →
  ∃ k, (k ≤ length terms)%nat ∧
    fetch_terms w cap language terms acc tr
    = (Ok (take (Z.to_nat cap) (acc ++ concat (take k (answers w language terms tr)))),
       tr ++ (search_event language <$> take k terms)) ∧
    ((k < length terms)%nat →
       cap ≤ Z.of_nat (length (acc ++ concat (take k (answers w language terms tr))))) ∧
    (∀ j, (0 < j < k)%nat →
       Z.of_nat (length (acc ++ concat (take j (answers w language terms tr)))) < cap) ∧
    (terms ≠ [] → (1 ≤ k)%nat).
Proof.
  intros Hcap. revert acc tr. induction terms as [|term rest IH]; intros acc tr Hacc.
  - exists 0%nat. simpl. rewrite !app_nil_r, take_ge by lia.
    repeat split; [lia | lia | lia | done].
  - simpl. rewrite bind_run, fetch_term_run.
    set (acc' := acc ++ fetched w term language tr). case_decide as Hfull.
    + exists 1%nat. simpl. rewrite app_nil_r. fold acc'.
      rewrite slice_to_take by done. repeat split; [lia | done | lia | lia].
    + destruct (IH acc' (tr ++ [search_event language term]))
        as (k & Hk & Hrun & Hstop & Hmin & _); [lia|].
      exists (S k). simpl. rewrite Hrun, !(app_assoc acc). fold acc'.
      rewrite <- (app_assoc tr). simpl.
      split; [lia|]. split; [done|]. split; [|split].
      * intros ?. apply Hstop. lia.
      * intros [|[|j]] Hj; simpl.
        -- lia.
        -- rewrite app_nil_r. fold acc'. lia.
        -- rewrite (app_assoc acc). fold acc'. apply (Hmin (S j)). lia.
      * lia.
Qed.

Lemma get_search_terms_total name desc : total (_get_search_terms w name desc).
Proof. unfold _get_search_terms. solve_total. Qed.

Lemma fetch_topic_run language topic tr :
  0 ≤ cap →
  ∃ items tr', fetch_topic w cap language topic tr = (Ok items, tr') ∧
               Z.of_nat (length items) ≤ cap.
Proof.
  intros Hcap. unfold fetch_topic.
  destruct (get_search_terms_total (topic_name topic)
              (from_option id (PyStr EmptyString) (topic_description topic)) tr)
    as (terms & tr1 & E).
  rewrite (bind_ok _ _ _ _ _ E).
  destruct (fetch_terms_run language terms [] tr1 Hcap) as (k & _ & Hrun & _); [simpl; lia|].
  eexists _, _. split; [exact Hrun|]. rewrite length_take. lia.
Qed.

Lemma fetch_topic_total language topic : total (fetch_topic w cap language topic).
Proof.
  intros tr. unfold fetch_topic.
  destruct (get_search_terms_total (topic_name topic)
              (from_option id (PyStr EmptyString) (topic_description topic)) tr)
    as (terms & tr1 & E).
  rewrite (bind_ok _ _ _ _ _ E). clear E. generalize (@nil pydict) as acc. revert tr1.
  induction terms as [|term rest IH]; intros tr1 acc; simpl; [by eexists _, _|].
  rewrite bind_run, fetch_term_run. case_decide; [by eexists _, _ | apply IH].
Qed.

Lemma fetch_topics_collect language topics acc tr :
  fetch_topics w cap language topics acc tr
  = (res_map (foldl (λ a kv, ODict.set kv.1 kv.2 a) acc)
       (collect topic_name (fetch_topic w cap language) topics tr).1,
     (collect topic_name (fetch_topic w cap language) topics tr).2).
Proof.
  revert acc tr. induction topics as [|topic topics IH]; intros acc tr; [done|].
  simpl. rewrite !bind_run.
  destruct (fetch_topic w cap language topic tr) as [[v|e] tr1]; [|done].
  rewrite IH, bind_run.
  by destruct (collect topic_name (fetch_topic w cap language) topics tr1) as [[es|e] tr2].
Qed.

Lemma get_news_collect topics language tr :
  NoDup (topic_name <$> topics) →
  get_news_for_topics w cap topics language tr
  = collect topic_name (fetch_topic w cap language) topics tr.
Proof.
  intros Hnd. unfold get_news_for_topics. rewrite fetch_topics_collect.
  destruct (collect _ _ topics tr) as [[es|e] tr'] eqn:E; [|done]. simpl.
  rewrite fill_fresh; [done|]. simpl. by rewrite (collect_keys _ _ _ _ _ _ E).
Qed.

Lemma get_news_total topics language : total (get_news_for_topics w cap topics language).
Proof.
  intros tr. unfold get_news_for_topics. rewrite fetch_topics_collect.
  destruct (collect_total topic_name (fetch_topic w cap language) topics) with (tr := tr)
    as (es & tr' & E).
  { intros; apply fetch_topic_total. }
  rewrite E. simpl. by eexists _, _.
Qed.

(** When both services are down every topic comes back empty. *)
Lemma fetch_topic_down language topic tr :
  (∀ tr0 r, fails (chat_create w tr0 r)) →
  (∀ tr0 q l s n, fails (get_everything w tr0 q l s n)) →
  ∃ tr', fetch_topic w cap language topic tr = (Ok [], tr').
Proof.
  intros Hchat Hsearch. unfold fetch_topic.
  assert (∃ tr1, _get_search_terms w (topic_name topic)
                   (from_option id (PyStr EmptyString) (topic_description topic)) tr
                 = (Ok [topic_name topic], tr1)) as [tr1 E].
  { unfold _get_search_terms, try_except. rewrite bind_run. unfold chat, call.
    match goal with |- context [chat_create w tr ?r] => destruct (Hchat tr r) as [e ->] end.
    by eexists. }
  rewrite (bind_ok _ _ _ _ _ E). simpl. rewrite bind_run, fetch_term_run.
  assert (∀ tr0, fetched w (topic_name topic) language tr0 = []) as ->.
  { intros tr0. unfold fetched, value, _fetch_from_news_api, try_except.
    rewrite bind_run. unfold search, call.
    by destruct (Hsearch tr0 (topic_name topic) language "relevancy" 5%N) as [e' ->]. }
  simpl. case_decide; [|eexists; reflexivity].
  eexists. unfold slice_to. case_decide; by rewrite take_nil.
Qed.
End fetcher.

Section capped.
Import PyStr NewsFetcherAgent.
Context (w : World) (cap : Z) (language : string).

Lemma split_char_nonempty c s : split_char c s ≠ [].
Proof.
  destruct s as [|a s]; simpl; [done|].
  case_decide; [done|]. by destruct (split_char c s).
Qed.

Lemma queries_nonempty topic tr : queries_of w topic tr ≠ [].
Proof.
  unfold queries_of. destruct (chat_create w tr (terms_request topic)); [|done].
  intros Hnil%fmap_nil_inv. by apply split_char_nonempty in Hnil.
Qed.

Lemma get_search_terms_run topic tr :
  _get_search_terms w (topic_name topic)
    (from_option id (PyStr EmptyString) (topic_description topic)) tr
  = (Ok (queries_of w topic tr), tr ++ [EvChat (terms_request topic)]).
Proof.
  unfold _get_search_terms, try_except, chat, call, queries_of.
  rewrite bind_run. fold (terms_request topic).
  by destruct (chat_create w tr (terms_request topic)).
Qed.

(** The fetch of one topic is a capped fetch. *)
Lemma fetch_topic_capped topic tr :
  0 ≤ cap →
  ∃ k items,
    capped_fetch w cap language topic tr k items ∧
    fetch_topic w cap language topic tr = (Ok items, after_fetch w language topic tr k).
Proof.
  intros Hcap. unfold fetch_topic. rewrite bind_run, get_search_terms_run.
  destruct (fetch_terms_run w cap language (queries_of w topic tr) []
              (tr ++ [EvChat (terms_request topic)]) Hcap)
    as (k & Hk & Hrun & Hstop & Hmin & Hone); [simpl; lia|].
  exists k. eexists. split; [|rewrite Hrun; unfold after_fetch; by rewrite <- app_assoc].
  split; [split; [by apply Hone, queries_nonempty|done]|]. by split.
Qed.

Lemma capped_fetch_bound topic tr k items :
  0 ≤ cap → capped_fetch w cap language topic tr k items →
  Z.of_nat (length items) ≤ cap.
Proof. intros Hcap (_ & -> & _). rewrite length_take. lia. Qed.

Lemma fetched_in_turn_bound topics tr entries tr' name items :
  0 ≤ cap → fetched_in_turn w cap language topics tr entries tr' →
  (name, items) ∈ entries → Z.of_nat (length items) ≤ cap.
Proof.
  intros Hcap Hturn. induction Hturn as [|topic topics tr k its entries tr' Hfetch _ IH].
  - by intros ?%elem_of_nil.
  - intros [[= -> ->]|Hin]%elem_of_cons; [by eapply capped_fetch_bound|by apply IH].
Qed.

(** The loop over the topics fetches them in turn and assigns the item
    lists in that order. *)
Lemma fetch_topics_in_turn topics results tr :
  0 ≤ cap →
  ∃ entries tr',
    fetched_in_turn w cap language topics tr entries tr' ∧
    fetch_topics w cap language topics results tr
    = (Ok (foldl (λ d kv, ODict.set kv.1 kv.2 d) results entries), tr').
Proof.
  intros Hcap. revert results tr.
  induction topics as [|topic topics IH]; intros results tr.
  { exists [], tr. split; [constructor|done]. }
  destruct (fetch_topic_capped topic tr Hcap) as (k & items & Hfetch & Hrun).
  destruct (IH (ODict.set (topic_name topic) items results)
              (after_fetch w language topic tr k)) as (entries & tr' & Hturn & Hrest).
  exists ((topic_name topic, items) :: entries), tr'.
  split; [by econstructor|]. simpl. by rewrite bind_run, Hrun, Hrest.
Qed.
End capped.

(** C5, as amended.  With a non-negative cap, [get_news_for_topics] fetches
    the topics in turn and returns the dictionary of their item lists,
    assigned by topic name in the order of the topics, and every item list
    has at most [max_articles_per_topic] items.  For each topic the answers
    are accumulated query by query in query order; at least one query is
    issued; the list is the first [max_articles_per_topic] items of the
    accumulated answers; and the loop stops before the last query exactly
    when the accumulated list has reached the cap, which it had not after
    any earlier query. *)
Theorem fetch_respects_cap
    (w : World) (max_articles_per_topic : Z) (topics : list Topic)
    (language : string) (tr : Trace) :
  0 ≤ max_articles_per_topic →
  ∃ entries tr',
    fetched_in_turn w max_articles_per_topic language topics tr entries tr' ∧
    NewsFetcherAgent.get_news_for_topics w max_articles_per_topic topics language tr
    = (Ok (assigned entries), tr') ∧
    ∀ name items, (name, items) ∈ assigned entries →
      Z.of_nat (length items) ≤ max_articles_per_topic.
Proof.
  intros Hcap.
  destruct (fetch_topics_in_turn w max_articles_per_topic language topics [] tr Hcap)
    as (entries & tr' & Hturn & Hrun).
  exists entries, tr'. split; [exact Hturn|]. split; [exact Hrun|].
  intros name items Hin. unfold assigned in Hin.
  apply fill_elem in Hin as [Hin|Hin]; [by apply elem_of_nil in Hin|].
  by eapply fetched_in_turn_bound.
Qed.

Lemma fetch_respects_cap_witness :
  0 ≤ 3 ∧
  ∃ entries tr',
    fetched_in_turn (serving five_articles) 3 "es" generate_newsletter.mock_topics []
      entries tr' ∧
    NewsFetcherAgent.get_news_for_topics (serving five_articles) 3
      generate_newsletter.mock_topics "es" []
    = (Ok (assigned entries), tr') ∧
    (∀ name items, (name, items) ∈ assigned entries → Z.of_nat (length items) ≤ 3) ∧
    ODict.keys (assigned entries) = ["Inteligencia Artificial"; "Cambio Climático"] ∧
    length <$> (assigned entries).*2 = [3; 3]%nat ∧
    length tr' = 4%nat.
Proof.
  split; [lia|].
  destruct (fetch_respects_cap (serving five_articles) 3 generate_newsletter.mock_topics
              "es" []) as (entries & tr' & Hturn & Hrun & Hbound); [lia|].
  exists entries, tr'. split; [exact Hturn|]. split; [exact Hrun|]. split; [exact Hbound|].
  assert (Hvalue :
    (λ r : res (list (string * list pydict)) * Trace,
       (match r.1 with
        | Ok out => (ODict.keys out, length <$> out.*2)
        | Raise _ => ([], [])
        end, length r.2))
      (NewsFetcherAgent.get_news_for_topics (serving five_articles) 3
         generate_newsletter.mock_topics "es" [])
    = ((["Inteligencia Artificial"; "Cambio Climático"], [3; 3]%nat), 4%nat))
    by (vm_compute; reflexivity).
  rewrite Hrun in Hvalue. cbn beta iota delta [fst snd] in Hvalue.
  injection Hvalue as Hkeys Hlengths Htrace. by repeat split.
Defined.

(** With the cap [-1] the bound fails: the slice [news_items[:-1]] drops the
    last of the two items of the first answer and keeps the other. *)
Lemma fetch_exceeds_negative_cap :
  ∃ out tr' items,
    NewsFetcherAgent.get_news_for_topics (serving two_articles) (-1)
      generate_newsletter.mock_topics "es" []
    = (Ok out, tr') ∧
    ("Inteligencia Artificial", items) ∈ out ∧
    length items = 1%nat ∧
    ¬ Z.of_nat (length items) ≤ -1.
Proof.
  destruct (NewsFetcherAgent.get_news_for_topics (serving two_articles) (-1)
              generate_newsletter.mock_topics "es" []) as [[out|e] tr'] eqn:Hrun;
    vm_compute in Hrun; [|discriminate Hrun].
  injection Hrun as <- <-.
  eexists _, _, _. split; [reflexivity|]. split; [apply list_elem_of_here|].
  split; [reflexivity|]. simpl. lia.
Qed.

(** X1.  The fetcher never loses a topic.  For topics with pairwise distinct names
    [get_news_for_topics] returns a mapping whose keys are exactly the
    topics' names, in order; when every generation call and every search
    request fails, every entry is the empty list. *)
Theorem fetcher_keeps_every_topic
    (w : World) (max_articles_per_topic : Z) (topics : list Topic)
    (language : string) (tr : Trace) :
  NoDup (topic_name <$> topics) →
  ∃ out tr',
    NewsFetcherAgent.get_news_for_topics w max_articles_per_topic topics language tr
    = (Ok out, tr') ∧
    ODict.keys out = topic_name <$> topics ∧
    ((∀ tr0 r, fails (chat_create w tr0 r)) →
     (∀ tr0 q l s n, fails (get_everything w tr0 q l s n)) →
     out = (λ t, (topic_name t, [])) <$> topics).
Proof.
  intros Hnd.
  destruct (get_news_total w max_articles_per_topic topics language tr) as (out & tr' & E).
  exists out, tr'. split; [done|]. rewrite get_news_collect in E by done. split.
  - by apply collect_keys in E.
  - intros Hchat Hsearch.
    destruct (collect_const topic_name
                (NewsFetcherAgent.fetch_topic w max_articles_per_topic language)
                (λ _, []) topics tr) as [tr1 E1].
    { intros x tr0. by apply fetch_topic_down. }
    rewrite E in E1. by injection E1 as -> _.
Qed.

Lemma fetcher_keeps_every_topic_witness :
  NoDup (topic_name <$> generate_newsletter.mock_topics) ∧
  ∃ out tr',
    NewsFetcherAgent.get_news_for_topics unreachable 3 generate_newsletter.mock_topics "es" []
    = (Ok out, tr') ∧
    ODict.keys out = topic_name <$> generate_newsletter.mock_topics ∧
    ((∀ tr0 r, fails (chat_create unreachable tr0 r)) →
     (∀ tr0 q l s n, fails (get_everything unreachable tr0 q l s n)) →
     out = (λ t, (topic_name t, [])) <$> generate_newsletter.mock_topics).
Proof.
  assert (NoDup (topic_name <$> generate_newsletter.mock_topics)) as Hnd.
  { apply (bool_decide_unpack _). by vm_compute. }
  split; [exact Hnd|].
  exact (fetcher_keeps_every_topic unreachable 3 generate_newsletter.mock_topics "es" [] Hnd).
Defined.

(** ** The renderer *)

Section formatter.
Import PyStr FormatterAgent.
Context (w : World) (template_name : string).

Lemma generate_title_total name topics : total (_generate_title w name topics).
Proof. unfold _generate_title. solve_total. Qed.

Lemma generate_introduction_total name topics :
  total (_generate_introduction w name topics).
Proof. unfold _generate_introduction. solve_total. Qed.

Lemma now_total : total (now w).
Proof. intros tr. by eexists _, _. Qed.

Lemma template_data_total user_data summarized_news :
  total (template_data_of w user_data summarized_news).
Proof.
  unfold template_data_of. solve_total. apply now_total.
Qed.

Lemma html_of_total data : total (html_of w template_name data).
Proof. unfold html_of. solve_total. Qed.

(** [format_newsletter], stage by stage. *)
Lemma format_newsletter_stages user_data summarized_news tr :
  ∃ data tr1 html tr2,
    template_data_of w user_data summarized_news tr = (Ok data, tr1) ∧
    html_of w template_name data tr1 = (Ok html, tr2) ∧
    format_newsletter w template_name user_data summarized_news tr
    = (Ok (<["html" := html]>
          (<["text" := _generate_text_version w data]>
          (<["title" := newsletter_title data]>
          (<["subject" := newsletter_title data +:+ " - " +:+ strftime_now w tr2]>
             (∅ : pydoc))))),
       tr2 ++ [EvNow]).
Proof.
  unfold format_newsletter, template_data_of.
  destruct (generate_title_total (dict_get user_data "name" (PyStr "Usuario"))
              (ODict.keys summarized_news) tr) as (title & t1 & E1).
  destruct (generate_introduction_total (dict_get user_data "name" (PyStr "Usuario"))
              (ODict.keys summarized_news) t1) as (intro & t2 & E2).
  rewrite !(bind_ok _ _ _ _ _ E1), !(bind_ok _ _ _ _ _ E2).
  unfold _get_formatted_date. rewrite !bind_run. unfold now at 1 2, call at 1 2.
  set (data := {| user_name := _; newsletter_title := title |}).
  destruct (html_of_total data (t2 ++ [EvNow])) as (html & t3 & E3).
  exists data, (t2 ++ [EvNow]), html, t3.
  split; [done|]. split; [done|].
  unfold html_of in E3. rewrite bind_run, E3. reflexivity.
Qed.

Lemma simple_html_nonempty data : _generate_simple_html data ≠ EmptyString.
Proof. by apply app_nonempty_l. Qed.

Lemma text_version_nonempty data : _generate_text_version w data ≠ EmptyString.
Proof. by apply app_nonempty_l. Qed.

(** The structured body is the engine's rendering when the engine delivers
    one, and the simple HTML otherwise. *)
Lemma html_of_run data tr :
  ∃ html tr', html_of w template_name data tr = (Ok html, tr') ∧
    (html = _generate_simple_html data ∨
     ∃ tr0, render w tr0 template_name data = Ok html).
Proof.
  unfold html_of, try_except. rewrite bind_run.
  unfold env_get_template, template_render, call.
  destruct (get_template w tr template_name) as [[]|e].
  - destruct (render w (tr ++ [EvGetTemplate template_name]) template_name data)
      as [html|e] eqn:E.
    + eexists _, _. split; [done|]. right. eauto.
    + eexists _, _. split; [done|]. by left.
  - eexists _, _. split; [done|]. by left.
Qed.
End formatter.

(** C1, as amended.  For every recipient profile, every mapping of topics to
    condensed data and every behaviour of the generation capability and of
    the template engine, [format_newsletter] returns a document with an
    "html" and a "text" entry.  The text is never empty.  The html is not
    empty whenever the engine never renders the empty string, which includes
    the engine that raises on every lookup or rendering. *)
Theorem format_newsletter_bodies
    (w : World) (template_name : string) (user_data : pydict)
    (summarized_news : list (string * TopicSummary)) (tr : Trace) :
  ∃ doc tr' html text,
    FormatterAgent.format_newsletter w template_name user_data summarized_news tr
    = (Ok doc, tr') ∧
    doc !! "html" = Some html ∧
    doc !! "text" = Some text ∧
    text ≠ EmptyString ∧
    ((∀ tr0 data, render w tr0 template_name data ≠ Ok EmptyString) →
     html ≠ EmptyString).
Proof.
  destruct (format_newsletter_stages w template_name user_data summarized_news tr)
    as (data & tr1 & html & tr2 & _ & Ehtml & ->).
  eexists _, _, html, _. split; [reflexivity|].
  split; [by rewrite lookup_insert_eq|].
  split; [by rewrite lookup_insert_ne, lookup_insert_eq|].
  split; [apply text_version_nonempty|].
  intros Hrender.
  destruct (html_of_run w template_name data tr1) as (html' & tr' & E & Hcase).
  rewrite Ehtml in E. injection E as <- <-.
  destruct Hcase as [-> | [tr0 Hr]].
  - apply simple_html_nonempty.
  - intros ->. by apply (Hrender tr0 data).
Qed.

(** C1 as stated fails: the engine that finds the template and renders the
    empty string makes the "html" entry empty. *)
Lemma format_newsletter_blank_template :
  ∃ doc tr',
    FormatterAgent.format_newsletter blank_template "default_email.html" ∅ [] []
    = (Ok doc, tr') ∧
    doc !! "html" = Some EmptyString.
Proof.
  destruct (format_newsletter_stages blank_template "default_email.html" ∅ [] [])
    as (data & tr1 & html & tr2 & _ & Ehtml & ->).
  eexists _, _. split; [reflexivity|].
  rewrite lookup_insert_eq. f_equal.
  unfold html_of, try_except in Ehtml. rewrite bind_run in Ehtml.
  by injection Ehtml as <- _.
Qed.

(** The forced-failure case of C1: the engine raises on every call, and the
    html, the simple HTML, is not empty. *)
Lemma format_newsletter_bodies_witness :
  ∃ doc tr' html,
    FormatterAgent.format_newsletter unreachable "default_email.html" ∅ [] []
    = (Ok doc, tr') ∧
    doc !! "html" = Some html ∧ html ≠ EmptyString.
Proof.
  destruct (format_newsletter_bodies unreachable "default_email.html" ∅ [] [])
    as (doc & tr' & html & text & E & Hh & _ & _ & Hne).
  exists doc, tr', html. split; [exact E|]. split; [exact Hh|].
  apply Hne. intros tr0 data. discriminate.
Defined.

(** ** The dispatcher *)

(** C6.  A channel name outside the registry of "email", "whatsapp" and
    "telegram" yields the failed outcome that carries the name, whatever the
    three registered implementations are, and adds no call to the history. *)
Theorem send_unknown_channel
    (by_email by_whatsapp by_telegram : SenderAgent.Impl)
    (user_data : pydict) (newsletter_data : pydoc) (channel_name : string) (tr : Trace) :
  channel_name ≠ "email" → channel_name ≠ "whatsapp" → channel_name ≠ "telegram" →
  SenderAgent.send_newsletter
    (<["email" := by_email]> (<["whatsapp" := by_whatsapp]> (<["telegram" := by_telegram]> ∅)))
    user_data newsletter_data channel_name tr
  = (Ok (unsupported channel_name), tr) ∧
  success (unsupported channel_name) = false ∧
  channel (unsupported channel_name) = channel_name.
Proof.
  intros He Hw Ht. split; [|done]. unfold SenderAgent.send_newsletter.
  by rewrite !lookup_insert_ne, lookup_empty.
Qed.

Lemma send_unknown_channel_witness :
  "fax" ≠ "email" ∧ "fax" ≠ "whatsapp" ∧ "fax" ≠ "telegram" ∧
  SenderAgent.send_newsletter (SenderAgent.channels unreachable no_credentials)
    (generate_newsletter.mock_user_data "u1") ∅ "fax" []
  = (Ok (unsupported "fax"), []) ∧
  success (unsupported "fax") = false ∧
  channel (unsupported "fax") = "fax".
Proof.
  split; [done|]. split; [done|]. split; [done|].
  apply (send_unknown_channel
           (SenderAgent._send_by_email unreachable no_credentials)
           (SenderAgent._send_by_whatsapp_dummy)
           (SenderAgent._send_by_telegram_dummy)
           (generate_newsletter.mock_user_data "u1") ∅ "fax" []); done.
Defined.

(** C7.  For a recipient with a mail address, when host, port, username and
    password are not all configured, the mail channel returns a successful
    outcome whose message says that the delivery was simulated, and adds no
    call to the history: no transport session is opened.  The same holds
    when the channel is reached through [send_newsletter]. *)
Theorem send_by_email_simulated
    (w : World) (cfg : Config) (user_data : pydict) (newsletter_data : pydoc) (tr : Trace) :
  truthy (dict_get user_data "email" PyNone) = true →
  truthy (EMAIL_HOST cfg) = false ∨ EMAIL_PORT cfg = 0 ∨
  truthy (EMAIL_USERNAME cfg) = false ∨ truthy (EMAIL_PASSWORD cfg) = false →
  ∃ outcome,
    SenderAgent._send_by_email w cfg user_data newsletter_data tr = (Ok outcome, tr) ∧
    SenderAgent.send_newsletter (SenderAgent.channels w cfg)
      user_data newsletter_data "email" tr = (Ok outcome, tr) ∧
    success outcome = true ∧
    message outcome = "Simulación de envío exitosa (modo desarrollo)" ∧
    channel outcome = "email" ∧
    recipient outcome = Some (dict_get user_data "email" PyNone).
Proof.
  intros Hmail Hcfg.
  assert (SenderAgent.credentials_configured cfg = false) as Hoff.
  { unfold SenderAgent.credentials_configured.
    destruct Hcfg as [-> | [-> | [-> | ->]]]; simpl;
      rewrite ?andb_false_r; done. }
  eexists. split; [|split].
  - unfold SenderAgent._send_by_email, try_except. rewrite Hmail, Hoff. reflexivity.
  - unfold SenderAgent.send_newsletter, SenderAgent.channels. rewrite lookup_insert_eq.
    unfold SenderAgent._send_by_email, try_except. rewrite Hmail, Hoff. reflexivity.
  - done.
Qed.

Lemma send_by_email_simulated_witness :
  truthy (dict_get (generate_newsletter.mock_user_data "u1") "email" PyNone) = true ∧
  (truthy (EMAIL_HOST no_credentials) = false ∨ EMAIL_PORT no_credentials = 0 ∨
   truthy (EMAIL_USERNAME no_credentials) = false ∨
   truthy (EMAIL_PASSWORD no_credentials) = false) ∧
  ∃ outcome,
    SenderAgent._send_by_email unreachable no_credentials
      (generate_newsletter.mock_user_data "u1") ∅ [] = (Ok outcome, []) ∧
    SenderAgent.send_newsletter (SenderAgent.channels unreachable no_credentials)
      (generate_newsletter.mock_user_data "u1") ∅ "email" [] = (Ok outcome, []) ∧
    success outcome = true ∧
    message outcome = "Simulación de envío exitosa (modo desarrollo)" ∧
    channel outcome = "email" ∧
    recipient outcome = Some (dict_get (generate_newsletter.mock_user_data "u1") "email" PyNone).
Proof.
  split; [reflexivity|]. split; [by left|].
  apply (send_by_email_simulated unreachable no_credentials
           (generate_newsletter.mock_user_data "u1") ∅ []); [reflexivity | by left].
Defined.

(** ** Two runs of the pipeline *)

Section two_runs.
Context (w : World) (tr1 tr2 : Trace).
Context (Hanswers : same_answers w tr1 tr2).

Lemma in_step_ret {A} (a : A) : in_step tr1 tr2 (mret a).
Proof. intros evs. exists (Ok a), []. by rewrite !app_nil_r. Qed.

Lemma in_step_raise {A} e : in_step tr1 tr2 (raise e : M A).
Proof. intros evs. exists (Raise e), []. by rewrite !app_nil_r. Qed.

Lemma in_step_bind {A B} (m : M A) (f : A → M B) :
  in_step tr1 tr2 m → (∀ a, in_step tr1 tr2 (f a)) → in_step tr1 tr2 (m ≫= f).
Proof.
  intros Hm Hf evs. destruct (Hm evs) as (r & evs1 & E1 & E2).
  rewrite !bind_run, E1, E2. destruct r as [a|e].
  - destruct (Hf a (evs ++ evs1)) as (r' & evs2 & F1 & F2).
    exists r', (evs1 ++ evs2). rewrite F1, F2. by rewrite <- !app_assoc.
  - by exists (Raise e), evs1.
Qed.

Lemma in_step_try {A} (m : M A) (h : exn → M A) :
  in_step tr1 tr2 m → (∀ e, in_step tr1 tr2 (h e)) → in_step tr1 tr2 (try_except m h).
Proof.
  intros Hm Hh evs. destruct (Hm evs) as (r & evs1 & E1 & E2).
  unfold try_except. rewrite E1, E2. destruct r as [a|e].
  - by exists (Ok a), evs1.
  - destruct (Hh e (evs ++ evs1)) as (r' & evs2 & F1 & F2).
    exists r', (evs1 ++ evs2). rewrite F1, F2. by rewrite <- !app_assoc.
Qed.

Lemma in_step_call {A} (ev : Event) (oracle : Trace → res A) :
  (∀ evs, oracle (tr1 ++ evs) = oracle (tr2 ++ evs)) → in_step tr1 tr2 (call ev oracle).
Proof.
  intros Ho evs. exists (oracle (tr1 ++ evs)), [ev]. unfold call.
  by rewrite <- Ho, <- !app_assoc.
Qed.

Lemma in_step_chat r : in_step tr1 tr2 (chat w r).
Proof. apply in_step_call. intros; apply Hanswers. Qed.

Lemma in_step_search q l s n : in_step tr1 tr2 (search w q l s n).
Proof. apply in_step_call. intros; apply Hanswers. Qed.

Lemma in_step_now : same_dates w tr1 tr2 → in_step tr1 tr2 (now w).
Proof. intros Hd. apply in_step_call. intros evs. by rewrite Hd. Qed.

(** Straight-line code over the two services stays in step. *)
Ltac keep_in_step :=
  repeat first
    [ apply in_step_ret
    | apply in_step_raise
    | apply in_step_chat
    | apply in_step_search
    | apply in_step_try; [|intros ?]
    | apply in_step_bind; [|intros ?] ].

(** What holds of every element of a loop holds of the loop. *)
Lemma in_step_collect {X V} (key : X → string) (body : X → M V) xs :
  (∀ x, in_step tr1 tr2 (body x)) → in_step tr1 tr2 (collect key body xs).
Proof.
  intros Hb. induction xs as [|x xs IH]; simpl; keep_in_step; [apply Hb | apply IH].
Qed.

Lemma in_step_ext {A} (m m' : M A) :
  (∀ tr, m tr = m' tr) → in_step tr1 tr2 m' → in_step tr1 tr2 m.
Proof. intros E H evs. rewrite !E. apply H. Qed.

Lemma in_step_map {A B} (f : A → B) (m : M A) (m' : M B) :
  (∀ tr, m' tr = (res_map f (m tr).1, (m tr).2)) →
  in_step tr1 tr2 m → in_step tr1 tr2 m'.
Proof.
  intros E H evs. destruct (H evs) as (r & evs' & E1 & E2).
  exists (res_map f r), evs'. by rewrite !E, E1, E2.
Qed.

(** *** The fetcher *)

Lemma in_step_get_search_terms name desc :
  in_step tr1 tr2 (NewsFetcherAgent._get_search_terms w name desc).
Proof. unfold NewsFetcherAgent._get_search_terms. keep_in_step. Qed.

Lemma in_step_process_articles query l :
  in_step tr1 tr2 (NewsFetcherAgent.process_articles query l).
Proof.
  induction l as [|a l IH]; simpl; [keep_in_step|].
  apply in_step_bind; [|intros ?; keep_in_step; apply IH].
  unfold NewsFetcherAgent.process_article. keep_in_step.
  destruct (api_source a) as [[d|]|]; keep_in_step.
Qed.

Lemma in_step_fetch_from_news_api query language :
  in_step tr1 tr2 (NewsFetcherAgent._fetch_from_news_api w query language).
Proof.
  unfold NewsFetcherAgent._fetch_from_news_api. keep_in_step. apply in_step_process_articles.
Qed.

Lemma in_step_fetch_terms cap language terms acc :
  in_step tr1 tr2 (NewsFetcherAgent.fetch_terms w cap language terms acc).
Proof.
  revert acc. induction terms as [|term rest IH]; intros acc; simpl; [apply in_step_ret|].
  apply in_step_bind.
  - apply in_step_try; [|intros; apply in_step_ret].
    apply in_step_bind; [apply in_step_fetch_from_news_api|].
    intros ?. cbv zeta. case_decide; apply in_step_ret.
  - intros [items|items]; [apply IH | apply in_step_ret].
Qed.

Lemma in_step_get_news cap topics language :
  in_step tr1 tr2 (NewsFetcherAgent.get_news_for_topics w cap topics language).
Proof.
  eapply in_step_map; [intros tr; apply fetch_topics_collect|].
  apply in_step_collect. intros topic.
  apply in_step_bind; [apply in_step_get_search_terms|].
  intros; apply in_step_fetch_terms.
Qed.

(** *** The condenser *)

Lemma in_step_join_any sep l : in_step tr1 tr2 (join_any sep l).
Proof.
  unfold join_any. keep_in_step.
  generalize 0%nat. induction l as [|[|s] l IH]; intros i; simpl; keep_in_step. apply IH.
Qed.

Lemma in_step_summarize_topic msl incl topic items :
  in_step tr1 tr2 (SummarizerAgent.summarize_topic w msl incl topic items).
Proof.
  destruct items as [|a l]; [apply in_step_ret|].
  unfold SummarizerAgent.summarize_topic. apply in_step_bind.
  { unfold SummarizerAgent._generate_topic_summary.
    apply in_step_bind; [apply in_step_join_any|]. intros ?.
    apply in_step_bind; [apply in_step_join_any|]. intros ?.
    apply in_step_try; [|intros; apply in_step_ret].
    apply in_step_bind; [apply in_step_chat | intros; apply in_step_ret]. }
  intros ?. apply in_step_bind; [|intros; apply in_step_ret].
  generalize (a :: l). intros items.
  induction items as [|b items IH]; simpl; [apply in_step_ret|].
  apply in_step_bind.
  { eapply in_step_ext; [intros tr; apply summarize_article_run|].
    intros evs. eexists _, [_]. destruct Hanswers as [Hc _].
    rewrite <- Hc, <- !app_assoc. done. }
  intros ?. apply in_step_bind; [apply IH | intros; apply in_step_ret].
Qed.

Lemma in_step_summarize_news msl incl d :
  in_step tr1 tr2 (SummarizerAgent.summarize_news_by_topic w msl incl d).
Proof.
  eapply in_step_map; [intros tr; apply summarize_topics_collect|].
  apply in_step_collect. intros [topic items]. apply in_step_summarize_topic.
Qed.

(** *** The renderer, up to the template context *)

Lemma in_step_template_data user_data summarized_news :
  same_dates w tr1 tr2 →
  in_step tr1 tr2 (template_data_of w user_data summarized_news).
Proof.
  intros Hd. unfold template_data_of, FormatterAgent._generate_title,
    FormatterAgent._generate_introduction. keep_in_step. by apply in_step_now.
Qed.
End two_runs.

(** C8, as amended.  Two runs of the first three stages on the placeholder
    inputs, in which the generation and search services answer alike and the
    clock reads the same formatted date, end alike: either both raise the
    same exception or both return a document with the same "text" entry.
    The template engine may behave differently in the two runs. *)
Theorem rerun_same_text
    (w : World) (user_id language : string) (tr1 tr2 : Trace) :
  same_answers w tr1 tr2 →
  same_dates w tr1 tr2 →
  text_body (generate_newsletter.format_stage w user_id language tr1)
  = text_body (generate_newsletter.format_stage w user_id language tr2).
Proof.
  intros Ha Hd. unfold generate_newsletter.format_stage, text_body.
  rewrite !bind_run.
  destruct (in_step_get_news w tr1 tr2 Ha 3 generate_newsletter.mock_topics language [])
    as (r & evs1 & E1 & E2).
  rewrite !app_nil_r in E1, E2. change ([] ++ evs1) with evs1 in E1, E2.
  rewrite E1, E2. destruct r as [news|e]; [|done].
  cbv beta. rewrite !bind_run.
  destruct (in_step_summarize_news w tr1 tr2 Ha 150 true news evs1)
    as (r & evs2 & F1 & F2).
  rewrite F1, F2. destruct r as [summarized|e]; [|done].
  destruct (in_step_template_data w tr1 tr2 Ha (generate_newsletter.mock_user_data user_id)
              summarized Hd (evs1 ++ evs2)) as (r & evs3 & G1 & G2).
  destruct (format_newsletter_stages w "default_email.html"
              (generate_newsletter.mock_user_data user_id) summarized (tr1 ++ evs1 ++ evs2))
    as (d1 & t1 & h1 & t1' & D1 & _ & ->).
  destruct (format_newsletter_stages w "default_email.html"
              (generate_newsletter.mock_user_data user_id) summarized (tr2 ++ evs1 ++ evs2))
    as (d2 & t2 & h2 & t2' & D2 & _ & ->).
  rewrite G1 in D1. rewrite G2 in D2.
  injection D1 as -> _. injection D2 as <- _.
  simpl. rewrite !(lookup_insert_ne _ "html" "text") by done.
  by rewrite !lookup_insert_eq.
Qed.

Lemma rerun_same_text_witness :
  same_answers unreachable [] (generate_newsletter.format_stage unreachable "u1" "es" []).2 ∧
  same_dates unreachable [] (generate_newsletter.format_stage unreachable "u1" "es" []).2 ∧
  text_body (generate_newsletter.format_stage unreachable "u1" "es" [])
  = text_body (generate_newsletter.format_stage unreachable "u1" "es"
                 (generate_newsletter.format_stage unreachable "u1" "es" []).2).
Proof.
  assert (same_answers unreachable []
            (generate_newsletter.format_stage unreachable "u1" "es" []).2) as Ha.
  { split; intros; reflexivity. }
  assert (same_dates unreachable []
            (generate_newsletter.format_stage unreachable "u1" "es" []).2) as Hd.
  { intros evs. reflexivity. }
  split; [exact Ha|]. split; [exact Hd|].
  exact (rerun_same_text unreachable "u1" "es" []
           (generate_newsletter.format_stage unreachable "u1" "es" []).2 Ha Hd).
Defined.

(** C8 as stated fails: the text carries the current date.  In the world
    [midnight] the two services answer every request alike in both runs, the
    second run starts where the first one ended, and the two texts differ in
    their date line. *)
Lemma rerun_text_differs :
  same_answers midnight [] (generate_newsletter.format_stage midnight "u1" "es" []).2 ∧
  text_body (generate_newsletter.format_stage midnight "u1" "es" [])
  ≠ text_body (generate_newsletter.format_stage midnight "u1" "es"
                 (generate_newsletter.format_stage midnight "u1" "es" []).2).
Proof.
  split; [split; intros; reflexivity|].
  intros E.
  apply (f_equal (λ r, match r with
                       | Ok (Some text) =>
                           PyStr.contains "31 de December de 2024" text
                       | _ => false
                       end)) in E.
  vm_compute in E. discriminate E.
Qed.

(** C10, the input on which the code falls short of it: an item whose title
    is null makes [summarize_news_by_topic] raise while it joins the titles,
    before the guarded generation call, so no mapping is returned and every
    topic is lost; the descriptions next to the titles are filtered before
    they are joined.  The input is reachable: when the search service
    answers with an article whose title is null, the placeholder run of the
    pipeline ends in that exception. *)
Lemma summarize_null_title_raises :
  SummarizerAgent.summarize_news_by_topic unreachable 150 true
    [("IA", [<["title" := PyNone]> (<["description" := PyStr "Una nota"]> ∅)])] []
  = (Raise "sequence item 0: expected str instance, NoneType found", []) ∧
  (generate_newsletter.format_stage null_title_news "u1" "es" []).1
  = Raise "sequence item 0: expected str instance, NoneType found".
Proof. split; [reflexivity | by vm_compute]. Qed.

(** * Further properties of the code *)

(** ** The dispatcher and its channels *)

Section channels.
Context (w : World) (cfg : Config).

Lemma configured_spec : SenderAgent.credentials_configured cfg = true ↔ configured cfg.
Proof.
  unfold SenderAgent.credentials_configured, configured.
  rewrite !andb_true_iff, bool_decide_eq_true. tauto.
Qed.

(** The real delivery of [_send_by_email], with its calls as [attempt]
    counts them. *)
Lemma send_by_email_run user_data newsletter_data tr :
  truthy (dict_get user_data "email" PyNone) = true → configured cfg →
  SenderAgent._send_by_email w cfg user_data newsletter_data tr
  = (match (attempt w tr (smtp_session cfg (mail_message cfg user_data newsletter_data))).2 with
     | None => Ok (delivered cfg user_data newsletter_data)
     | Some e => Raise e
     end,
     tr ++ (EvSmtp <$> take
              (attempt w tr (smtp_session cfg (mail_message cfg user_data newsletter_data))).1
              (smtp_session cfg (mail_message cfg user_data newsletter_data)))).
Proof.
  intros Hmail Hcfg%configured_spec.
  unfold SenderAgent._send_by_email, try_except, delivered, mail_message, smtp_session,
    smtp_call, call.
  rewrite Hmail, Hcfg. simpl. rewrite !bind_run.
  repeat match goal with
         | |- context [smtp w ?t ?c] =>
             destruct (smtp w t c) as [[]|?]; simpl; rewrite ?bind_run
         end;
    rewrite <- ?app_assoc; reflexivity.
Qed.

Lemma attempt_spec tr calls :
  match (attempt w tr calls).2 with
  | None => accepted w tr calls ∧ (attempt w tr calls).1 = length calls
  | Some e =>
      ∃ done c rest,
        calls = done ++ c :: rest ∧ accepted w tr done ∧
        smtp w (tr ++ (EvSmtp <$> done)) c = Raise e ∧
        (attempt w tr calls).1 = S (length done)
  end.
Proof.
  revert tr. induction calls as [|c calls IH]; intros tr; simpl; [done|].
  destruct (smtp w tr c) as [[]|e] eqn:E; simpl.
  - specialize (IH (tr ++ [EvSmtp c])).
    destruct (attempt w (tr ++ [EvSmtp c]) calls).2 as [e|].
    + destruct IH as (done & c' & rest & -> & Hacc & Hr & Hn).
      exists (c :: done), c', rest. simpl.
      rewrite <- app_assoc in Hr. by rewrite Hn.
    + destruct IH as [Hacc ->]. done.
  - exists [], c, calls. simpl. by rewrite app_nil_r.
Qed.
End channels.

(** X3.  The mail channel's transport session.  With a mail address and all
    credentials set, [send_newsletter] makes the calls connect, STARTTLS,
    login, send and quit in this order and stops at the first one that
    raises.  It reports success exactly when all five returned; otherwise
    the outcome is failed, carries the text of the exception, and no call
    follows the one that raised. *)
Theorem mail_session_stops_at_first_failure
    (w : World) (cfg : Config) (user_data : pydict) (newsletter_data : pydoc) (tr : Trace) :
  truthy (dict_get user_data "email" PyNone) = true →
  configured cfg →
  (accepted w tr (smtp_session cfg (mail_message cfg user_data newsletter_data)) ∧
   SenderAgent.send_newsletter (SenderAgent.channels w cfg)
     user_data newsletter_data "email" tr
   = (Ok (delivered cfg user_data newsletter_data),
      tr ++ (EvSmtp <$> smtp_session cfg (mail_message cfg user_data newsletter_data))))
  ∨
  (∃ done c rest e,
     smtp_session cfg (mail_message cfg user_data newsletter_data) = done ++ c :: rest ∧
     accepted w tr done ∧
     smtp w (tr ++ (EvSmtp <$> done)) c = Raise e ∧
     SenderAgent.send_newsletter (SenderAgent.channels w cfg)
       user_data newsletter_data "email" tr
     = (Ok (send_failed "email" e), tr ++ (EvSmtp <$> done ++ [c]))).
Proof.
  intros Hmail Hcfg.
  unfold SenderAgent.send_newsletter, SenderAgent.channels. rewrite lookup_insert_eq.
  unfold try_except. rewrite (send_by_email_run w cfg _ _ _ Hmail Hcfg).
  pose proof (attempt_spec w tr (smtp_session cfg (mail_message cfg user_data newsletter_data)))
    as Hspec.
  destruct (attempt w tr _).2 as [e|].
  - right. destruct Hspec as (done & c & rest & Hs & Hacc & Hr & ->).
    exists done, c, rest, e. repeat split; [done..|].
    rewrite Hs.
    assert (take (S (length done)) (done ++ c :: rest) = done ++ [c]) as ->; [|done].
    rewrite cons_middle, app_assoc. apply take_app_length'. rewrite length_app. simpl. lia.
  - left. destruct Hspec as [Hacc ->]. split; [done|]. by rewrite firstn_all.
Qed.

Lemma mail_session_stops_at_first_failure_witness :
  truthy (dict_get (generate_newsletter.mock_user_data "u1") "email" PyNone) = true ∧
  configured with_credentials ∧
  ∃ done c rest e,
    smtp_session with_credentials
      (mail_message with_credentials (generate_newsletter.mock_user_data "u1") ∅)
    = done ++ c :: rest ∧
    length done = 3%nat ∧
    SenderAgent.send_newsletter (SenderAgent.channels refusing_message with_credentials)
      (generate_newsletter.mock_user_data "u1") ∅ "email" []
    = (Ok (send_failed "email" e), [] ++ (EvSmtp <$> done ++ [c])).
Proof.
  assert (Hmail : truthy (dict_get (generate_newsletter.mock_user_data "u1") "email" PyNone)
                  = true) by reflexivity.
  assert (Hcfg : configured with_credentials) by (by repeat split).
  split; [exact Hmail|]. split; [exact Hcfg|].
  destruct (mail_session_stops_at_first_failure refusing_message with_credentials
              (generate_newsletter.mock_user_data "u1") ∅ [] Hmail Hcfg)
    as [[Hacc _]|(done & c & rest & e & Hs & Hacc & Hr & Hrun)].
  - exfalso. destruct Hacc as (_ & _ & _ & Hsend & _); cbn in Hsend; discriminate Hsend.
  - exists done, c, rest, e. split; [exact Hs|]. split; [|exact Hrun].
    destruct done as [|c0 [|c1 [|c2 [|c3 done]]]]; [| | |reflexivity|].
    1-3: injection Hs as <-; subst; cbn in Hr; discriminate Hr.
    exfalso. destruct Hacc as (_ & _ & _ & Hsend & _).
    injection Hs as <- <- <- <- _. cbn in Hsend. discriminate Hsend.
Defined.

(** X4.  The dispatcher over the built-in channels.  For every channel name,
    recipient and document, [send_newsletter] returns an outcome and never
    raises, and the outcome names the requested channel.  A successful
    outcome means that the recipient has the contact field of that channel.
    Unless the channel is mail with an address and all credentials set, no
    outbound call is made, and having the contact field is then also enough
    for success. *)
Theorem send_newsletter_outcome
    (w : World) (cfg : Config) (user_data : pydict) (newsletter_data : pydoc)
    (channel_name : string) (tr : Trace) :
  ∃ outcome tr',
    SenderAgent.send_newsletter (SenderAgent.channels w cfg)
      user_data newsletter_data channel_name tr = (Ok outcome, tr') ∧
    channel outcome = channel_name ∧
    (success outcome = true → reachable_by channel_name user_data) ∧
    (¬ (channel_name = "email" ∧ truthy (dict_get user_data "email" PyNone) = true ∧
        configured cfg) →
     tr' = tr ∧ (reachable_by channel_name user_data → success outcome = true)).
Proof.
  unfold SenderAgent.send_newsletter, SenderAgent.channels, reachable_by.
  destruct (decide (channel_name = "email")) as [->|Hne].
  { rewrite lookup_insert_eq. unfold try_except.
    destruct (truthy (dict_get user_data "email" PyNone)) eqn:Hmail.
    - destruct (SenderAgent.credentials_configured cfg) eqn:Hcfg.
      + apply configured_spec in Hcfg.
        rewrite (send_by_email_run w cfg _ _ _ Hmail Hcfg).
        destruct (attempt w tr _).2 as [e|]; eexists _, _;
          (split; [reflexivity|]); (split; [reflexivity|]); simpl;
          (split; [auto|]); intros []; auto.
      + unfold SenderAgent._send_by_email. rewrite Hmail, Hcfg. simpl.
        eexists _, _. split; [reflexivity|]. simpl. auto.
    - unfold SenderAgent._send_by_email. rewrite Hmail. simpl.
      eexists _, _. split; [reflexivity|]. simpl.
      split; [done|]. split; [done|]. intros _. split; [done|].
      intros [[_ ?]|[[? _]|[? _]]]; done. }
  rewrite lookup_insert_ne by done.
  destruct (decide (channel_name = "whatsapp")) as [->|Hnw].
  { rewrite lookup_insert_eq. unfold try_except, SenderAgent._send_by_whatsapp_dummy.
    destruct (truthy (dict_get user_data "phone" PyNone)) eqn:Hphone; simpl;
      eexists _, _; (split; [reflexivity|]); simpl.
    - auto 10.
    - split; [done|]. split; [done|]. intros _. split; [done|].
      intros [[? _]|[[_ ?]|[? _]]]; done. }
  rewrite lookup_insert_ne by done.
  destruct (decide (channel_name = "telegram")) as [->|Hnt].
  { rewrite lookup_insert_eq. unfold try_except, SenderAgent._send_by_telegram_dummy.
    destruct (truthy (dict_get user_data "telegram_id" PyNone)) eqn:Htg; simpl;
      eexists _, _; (split; [reflexivity|]); simpl.
    - auto 10.
    - split; [done|]. split; [done|]. intros _. split; [done|].
      intros [[? _]|[[? _]|[_ ?]]]; done. }
  rewrite lookup_insert_ne by done. rewrite lookup_empty.
  eexists _, _. split; [reflexivity|]. simpl.
  split; [done|]. split; [done|]. intros _. split; [done|].
  intros [[? _]|[[? _]|[? _]]]; done.
Qed.

(** ** The search requests of the fetcher *)

Section fetch_page.
Import PyStr NewsFetcherAgent.
Context (w : World).

Lemma process_article_spec query a tr :
  match process_article query a tr with
  | (Ok item, tr') => ¬ malformed a ∧ copies query a item ∧ tr' = tr
  | (Raise _, tr') => malformed a ∧ tr' = tr
  end.
Proof.
  unfold process_article, malformed, copies.
  destruct (api_source a) as [[d|]|]; simpl; rewrite ?bind_run; simpl;
    try (split; [done|]); try done.
  all: split; [|done].
  all: split; [rewrite !dom_insert_L, dom_empty_L; unfold item_keys; set_solver|].
  all: repeat split.
Qed.

Lemma process_articles_spec query l tr :
  match process_articles query l tr with
  | (Ok items, tr') => Forall2 (copies query) l items ∧ Forall (λ a, ¬ malformed a) l ∧ tr' = tr
  | (Raise _, tr') => Exists malformed l ∧ tr' = tr
  end.
Proof.
  induction l as [|a l IH]; simpl; [by repeat constructor|].
  rewrite bind_run. pose proof (process_article_spec query a tr) as Ha.
  destruct (process_article query a tr) as [[item|e] tr0].
  - destruct Ha as (Hm & Hc & ->). rewrite bind_run.
    destruct (process_articles query l tr) as [[items|e] tr0].
    + destruct IH as (IH & Hf & ->). cbn. split; [by constructor|]. split; [by constructor|done].
    + destruct IH as [IH ->]. split; [by right|done].
  - destruct Ha as [Hm ->]. split; [by left|done].
Qed.
End fetch_page.

(** X5.  One search request.  [_fetch_from_news_api] makes exactly one call of
    the search service, for the given query and language, sorted by
    relevancy with a page size of 5, and never raises.  It returns no item
    when the call raises, when the answer has no "articles" entry, or when
    the "source" entry of any record of the page is not a dictionary: one
    such record discards the whole page.  Otherwise it returns one item per
    record, in the order of the page, each with the seven keys, the record's
    entries and the query. *)
Theorem fetch_from_news_api_page (w : World) (query language : string) (tr : Trace) :
  ∃ items,
    NewsFetcherAgent._fetch_from_news_api w query language tr
    = (Ok items, tr ++ [EvSearch query language "relevancy" 5]) ∧
    match get_everything w tr query language "relevancy" 5 with
    | Ok (Some page) =>
        (Exists malformed page → items = []) ∧
        (Forall (λ a, ¬ malformed a) page → Forall2 (copies query) page items)
    | Ok None | Raise _ => items = []
    end.
Proof.
  unfold NewsFetcherAgent._fetch_from_news_api, try_except, search, call.
  rewrite bind_run.
  destruct (get_everything w tr query language "relevancy" 5) as [[page|]|e]; simpl.
  - pose proof (process_articles_spec query page (tr ++ [EvSearch query language "relevancy" 5]))
      as Hp.
    destruct (NewsFetcherAgent.process_articles query page _) as [[items|e] tr0].
    + destruct Hp as (Hc & Hf & ->). eexists. split; [reflexivity|]. split; [|done].
      intros Hex. apply Exists_exists in Hex as (a & Ha & Hm).
      rewrite Forall_forall in Hf. by destruct (Hf a Ha).
    + destruct Hp as (Hex & ->). eexists. split; [reflexivity|]. split; [done|].
      intros Hf. apply Exists_exists in Hex as (a & Ha & Hm).
      rewrite Forall_forall in Hf. by destruct (Hf a Ha).
  - by eexists.
  - by eexists.
Qed.

Section fetch_queries.
Import PyStr NewsFetcherAgent.
Context (w : World) (cap : Z).

Lemma fetched_origin query language tr item :
  item ∈ fetched w query language tr →
  ∃ page a,
    get_everything w tr query language "relevancy" 5 = Ok (Some page) ∧
    a ∈ page ∧ copies query a item.
Proof.
  unfold fetched, value, _fetch_from_news_api, try_except, search, call.
  rewrite bind_run.
  destruct (get_everything w tr query language "relevancy" 5) as [[page|]|e]; simpl.
  - pose proof (process_articles_spec query page
                  (tr ++ [EvSearch query language "relevancy" 5])) as Hp.
    destruct (process_articles query page _) as [[items|e] tr0]; simpl.
    + destruct Hp as (Hc & _ & _). intros Hin.
      apply list_elem_of_lookup in Hin as [i Hi].
      destruct (Forall2_lookup_r _ _ _ _ _ Hc Hi) as (a & Ha & Hcopies).
      exists page, a. split; [done|]. split; [by eapply list_elem_of_lookup_2|done].
    + by intros ?%elem_of_nil.
  - by intros ?%elem_of_nil.
  - by intros ?%elem_of_nil.
Qed.

Lemma slice_to_elem {A} (n : Z) (l : list A) x : x ∈ slice_to n l → x ∈ l.
Proof. unfold slice_to. case_decide; apply subseteq_take. Qed.

(** The queries that the loop over [search_terms] issues, for any cap, and
    where its items come from. *)
Lemma fetch_terms_calls language terms acc tr :
  ∃ k items,
    (k ≤ length terms)%nat ∧ (terms ≠ [] → (1 ≤ k)%nat) ∧
    fetch_terms w cap language terms acc tr
    = (Ok items, tr ++ (search_event language <$> take k terms)) ∧
    ∀ item, item ∈ items →
      item ∈ acc ∨ ∃ term tr0, term ∈ take k terms ∧ item ∈ fetched w term language tr0.
Proof.
  revert acc tr. induction terms as [|term terms IH]; intros acc tr.
  { exists 0%nat, acc. simpl. rewrite app_nil_r. repeat split; [lia|done|auto]. }
  simpl. rewrite bind_run, fetch_term_run. case_decide as Hcap.
  - exists 1%nat, (slice_to cap (acc ++ fetched w term language tr)).
    simpl. rewrite take_0. repeat split; [lia|lia|].
    intros item [Hin|Hin]%slice_to_elem%elem_of_app; [by left|right].
    exists term, tr. split; [apply list_elem_of_here|done].
  - destruct (IH (acc ++ fetched w term language tr) (tr ++ [search_event language term]))
      as (k & items & Hk & _ & Hrun & Hitems).
    exists (S k), items. simpl. rewrite Hrun, <- app_assoc. repeat split; [lia|lia|].
    intros item [[Hin|Hin]%elem_of_app|(t & tr0 & Ht & Hin)]%Hitems.
    + by left.
    + right. exists term, tr. split; [apply list_elem_of_here|done].
    + right. exists t, tr0. split; [by apply list_elem_of_further|done].
Qed.
End fetch_queries.

(** X6.  The calls of one topic.  For every cap and every behaviour of the
    services, the fetch of a topic makes one generation call and then at
    least one search request; the requests are the first queries, in order,
    of the comma-separated response, each query stripped, and the only
    query is the topic's name when the generation call raises.  Every item
    of the topic carries, under "search_term", one of the queries issued. *)
Theorem fetch_topic_queries
    (w : World) (max_articles_per_topic : Z) (language : string) (topic : Topic)
    (tr : Trace) :
  ∃ k items,
    (1 ≤ k ≤ length (queries_of w topic tr))%nat ∧
    NewsFetcherAgent.fetch_topic w max_articles_per_topic language topic tr
    = (Ok items,
       tr ++ EvChat (terms_request topic)
          :: (search_event language <$> take k (queries_of w topic tr))) ∧
    (∀ e, chat_create w tr (terms_request topic) = Raise e →
       queries_of w topic tr = [topic_name topic]) ∧
    ∀ item, item ∈ items →
      ∃ term, term ∈ take k (queries_of w topic tr) ∧
              item !! "search_term" = Some (PyStr term).
Proof.
  assert (Hterms : NewsFetcherAgent._get_search_terms w (topic_name topic)
                     (from_option id (PyStr EmptyString) (topic_description topic)) tr
                   = (Ok (queries_of w topic tr), tr ++ [EvChat (terms_request topic)])).
  { unfold NewsFetcherAgent._get_search_terms, try_except, chat, call, queries_of.
    rewrite bind_run. fold (terms_request topic).
    by destruct (chat_create w tr (terms_request topic)). }
  assert (Hne : queries_of w topic tr ≠ []).
  { unfold queries_of. destruct (chat_create w tr (terms_request topic)); [|done].
    intros Hnil%fmap_nil_inv. by apply split_char_nonempty in Hnil. }
  destruct (fetch_terms_calls w max_articles_per_topic language (queries_of w topic tr) []
              (tr ++ [EvChat (terms_request topic)]))
    as (k & items & Hk & Hk1 & Hrun & Hitems).
  exists k, items. split; [split; [auto|done]|].
  split; [|split].
  - unfold NewsFetcherAgent.fetch_topic. rewrite bind_run, Hterms, Hrun.
    by rewrite <- app_assoc.
  - intros e He. unfold queries_of. by rewrite He.
  - intros item [Hin|(term & tr0 & Hterm & Hin)]%Hitems; [by apply elem_of_nil in Hin|].
    exists term. split; [done|].
    apply fetched_origin in Hin as (page & a & _ & _ & Hc). apply Hc.
Qed.

(** ** The condenser's topic summaries *)

Section topic_summary.
Import PyStr SummarizerAgent.
Context (w : World).

Lemma str_items_ok i l tr :
  Forall (λ v, v ≠ PyNone) l → str_items i l tr = (Ok (py_format <$> l), tr).
Proof.
  intros Hl. revert i. induction Hl as [|[|s] l Hv Hl IH]; intros i; simpl.
  - done.
  - done.
  - by rewrite bind_run, (IH (S i)).
Qed.

Lemma str_items_raise i l tr :
  ¬ Forall (λ v, v ≠ PyNone) l →
  ∃ j, l !! j = Some PyNone ∧ (∀ j', (j' < j)%nat → l !! j' ≠ Some PyNone) ∧
       str_items i l tr = (Raise (join_error (i + j)), tr).
Proof.
  revert i. induction l as [|[|s] l IH]; intros i Hl.
  - destruct Hl. constructor.
  - exists 0%nat. split; [done|]. split; [lia|]. simpl. by rewrite Nat.add_0_r.
  - destruct (IH (S i)) as (j & Hj & Hfirst & Hrun).
    { intros Hf. apply Hl. by constructor. }
    exists (S j). split; [done|]. split.
    + intros [|j'] Hlt; [done|]. simpl. apply Hfirst. lia.
    + simpl. rewrite bind_run, Hrun.
      by replace (i + S j)%nat with (S i + j)%nat by lia.
Qed.

Lemma descriptions_are_strings (news_items : list pydict) n :
  Forall (λ v, v ≠ PyNone)
    (take n ((λ item, dict_get item "description" (PyStr EmptyString))
               <$> filter (λ item, truthy (dict_get item "description" PyNone) = true)
                     news_items)).
Proof.
  apply Forall_take, Forall_fmap, Forall_forall.
  intros item [Hd _]%list_elem_of_filter Hnone. simpl in Hnone.
  unfold dict_get in *. by destruct (item !! "description") as [[]|].
Qed.

Lemma generate_topic_summary_call topic news_items tr :
  headlined news_items →
  _generate_topic_summary w topic news_items tr
  = (Ok match chat_create w tr (topic_summary_request topic news_items) with
        | Ok content => strip content
        | Raise _ => no_topic_summary topic
        end,
     tr ++ [EvChat (topic_summary_request topic news_items)]).
Proof.
  intros Hh. unfold _generate_topic_summary, join_any. rewrite !bind_run.
  rewrite (str_items_ok 0 (take 3 ((λ item, dict_get item "title" (PyStr EmptyString))
                                     <$> news_items)) tr).
  2: { rewrite <- fmap_take. by apply Forall_fmap. }
  simpl. rewrite !bind_run.
  rewrite (str_items_ok 0 _ tr (descriptions_are_strings news_items 3)).
  simpl. unfold try_except, chat, call. rewrite bind_run.
  change (chat_create w tr ?q) with (chat_create w tr (topic_summary_request topic news_items)).
  by destruct (chat_create w tr (topic_summary_request topic news_items)).
Qed.

Lemma generate_topic_summary_run topic news_items tr :
  headlined news_items →
  ∃ r, chat_max_tokens r = 150%N ∧
    _generate_topic_summary w topic news_items tr
    = (Ok match chat_create w tr r with
          | Ok content => strip content
          | Raise _ => no_topic_summary topic
          end,
       tr ++ [EvChat r]).
Proof.
  intros Hh. exists (topic_summary_request topic news_items).
  split; [done|]. by apply generate_topic_summary_call.
Qed.

Lemma generate_topic_summary_raise topic news_items tr :
  ¬ headlined news_items →
  ∃ i item, (i < 3)%nat ∧ news_items !! i = Some item ∧
    dict_get item "title" (PyStr EmptyString) = PyNone ∧
    (∀ j prior, (j < i)%nat → news_items !! j = Some prior →
       dict_get prior "title" (PyStr EmptyString) ≠ PyNone) ∧
    _generate_topic_summary w topic news_items tr = (Raise (join_error i), tr).
Proof.
  intros Hh. unfold _generate_topic_summary, join_any. rewrite !bind_run.
  destruct (str_items_raise 0 (take 3 ((λ item, dict_get item "title" (PyStr EmptyString))
                                         <$> news_items)) tr) as (j & Hj & Hfirst & ->).
  { rewrite <- fmap_take. by rewrite Forall_fmap. }
  apply lookup_take_Some in Hj as [Hj Hlt].
  apply list_lookup_fmap_Some in Hj as (item & Hitem & Hnone).
  exists j, item. repeat split; try done.
  intros j' prior Hj' Hprior Hnull. apply (Hfirst j' Hj').
  rewrite lookup_take_lt by lia. rewrite list_lookup_fmap, Hprior. simpl. by rewrite Hnull.
Qed.
End topic_summary.

(** X7.  The one call of a topic summary, or its [TypeError].  When each of
    the first three items has a string title (or none),
    [_generate_topic_summary] makes exactly one generation call, whose
    prompt holds the topic, the first three titles and the first three
    descriptions that are not empty, and it returns the stripped response,
    or the canned text naming the topic when the call raises.  When one of
    the first three items has a null title, it raises the [TypeError] of the
    join at the first such item and makes no call.  Null descriptions and
    null titles after the third item never make it raise. *)
Theorem topic_summary_call_or_type_error
    (w : World) (topic : string) (news_items : list pydict) (tr : Trace) :
  (headlined news_items →
   SummarizerAgent._generate_topic_summary w topic news_items tr
   = (Ok match chat_create w tr (topic_summary_request topic news_items) with
         | Ok content => PyStr.strip content
         | Raise _ => no_topic_summary topic
         end,
      tr ++ [EvChat (topic_summary_request topic news_items)])) ∧
  (¬ headlined news_items →
   ∃ i item, (i < 3)%nat ∧ news_items !! i = Some item ∧
     dict_get item "title" (PyStr EmptyString) = PyNone ∧
     (∀ j prior, (j < i)%nat → news_items !! j = Some prior →
        dict_get prior "title" (PyStr EmptyString) ≠ PyNone) ∧
     SummarizerAgent._generate_topic_summary w topic news_items tr
     = (Raise (join_error i), tr)).
Proof.
  split; [apply generate_topic_summary_call|].
  apply generate_topic_summary_raise.
Qed.

Section topic_articles.
Import PyStr SummarizerAgent.
Context (w : World) (max_summary_length : Z) (include_relevance : bool).

Lemma degraded_summary article incl : is_Some (degraded article incl !! "summary").
Proof.
  unfold degraded. destruct incl.
  - rewrite lookup_insert_ne by done. rewrite lookup_insert_eq. by eexists.
  - rewrite lookup_insert_eq. by eexists.
Qed.

Lemma summarize_articles_run topic news_items tr :
  ∃ articles,
    summarize_articles w max_summary_length include_relevance topic news_items tr
    = (Ok articles,
       tr ++ (EvChat <$> ((λ item, summarize_request max_summary_length item topic
                                     include_relevance) <$> news_items))) ∧
    Forall2 (λ item article,
               is_Some (article !! "summary") ∧
               ∀ k, k ≠ "summary" → k ≠ "relevance" → article !! k = item !! k)
            news_items articles.
Proof.
  revert tr. induction news_items as [|item l IH]; intros tr; simpl.
  { exists []. rewrite app_nil_r. by split. }
  rewrite bind_run, summarize_article_run, bind_run.
  destruct (IH (tr ++ [EvChat (summarize_request max_summary_length item topic
                                 include_relevance)])) as (articles & -> & Hall).
  eexists. split; [by rewrite <- app_assoc|].
  constructor; [|done].
  destruct (chat_create w tr _) as [response|e].
  - split; [rewrite condensed_summary; by eexists|]. intros. by apply condensed_frame.
  - split; [apply degraded_summary|]. intros. by apply degraded_frame.
Qed.

Lemma summarize_topic_headlined topic news_items :
  headlined news_items →
  total (summarize_topic w max_summary_length include_relevance topic news_items).
Proof.
  intros Hh tr. destruct news_items as [|item l]; [by eexists _, _|].
  unfold summarize_topic. rewrite bind_run.
  destruct (generate_topic_summary_run w topic (item :: l) tr Hh) as (r & _ & ->).
  rewrite bind_run.
  destruct (summarize_articles_run topic (item :: l) (tr ++ [EvChat r])) as (arts & -> & _).
  by eexists _, _.
Qed.

Lemma summarize_topic_not_headlined topic news_items tr :
  ¬ headlined news_items →
  ∃ e tr', summarize_topic w max_summary_length include_relevance topic news_items tr
           = (Raise e, tr').
Proof.
  intros Hh. destruct news_items as [|item l]; [destruct Hh; constructor|].
  unfold summarize_topic. rewrite bind_run.
  destruct (generate_topic_summary_raise w topic (item :: l) tr Hh)
    as (i & it & _ & _ & _ & _ & ->).
  by eexists _, _.
Qed.

Lemma summarize_topic_run topic news_items tr :
  news_items ≠ [] → headlined news_items →
  ∃ entry r,
    summarize_topic w max_summary_length include_relevance topic news_items tr
    = (Ok entry,
       tr ++ EvChat r
          :: (EvChat <$> ((λ item, summarize_request max_summary_length item topic
                                     include_relevance) <$> news_items))).
Proof.
  intros Hne Hh. destruct news_items as [|item l]; [done|].
  unfold summarize_topic. rewrite bind_run.
  destruct (generate_topic_summary_run w topic (item :: l) tr Hh) as (r & Hr & ->).
  rewrite bind_run.
  destruct (summarize_articles_run topic (item :: l) (tr ++ [EvChat r]))
    as (arts & -> & Hall).
  eexists _, r. by rewrite <- app_assoc.
Qed.

(** The generation calls of one topic. *)
Lemma summarize_topic_calls topic news_items tr entry tr' :
  summarize_topic w max_summary_length include_relevance topic news_items tr
  = (Ok entry, tr') →
  ∃ reqs, tr' = tr ++ (EvChat <$> reqs) ∧
          length reqs = match news_items with
                        | [] => 0%nat
                        | _ :: _ => S (length news_items)
                        end.
Proof.
  destruct news_items as [|item l].
  { intros [= _ <-]. exists []. by rewrite app_nil_r. }
  destruct (decide (headlined (item :: l))) as [Hh|Hh].
  - destruct (summarize_topic_run topic (item :: l) tr) as (entry' & r & ->);
      [done|done|].
    intros [= _ <-].
    exists (r :: ((λ it, summarize_request max_summary_length it topic include_relevance)
                   <$> item :: l)).
    split; [reflexivity|]. cbn [length]. by rewrite length_fmap.
  - destruct (summarize_topic_not_headlined topic (item :: l) tr Hh) as (e & tr0 & ->).
    done.
Qed.
End topic_articles.

Section collect_returns.
Context {X V : Type} (key : X → string) (body : X → M V) (P : X → Prop).

(** A loop whose body returns on the elements with [P] and raises on the
    others returns exactly when all elements have [P]. *)
Lemma collect_returns_iff xs tr :
  (∀ x, P x → total (body x)) →
  (∀ x tr0, ¬ P x → ∃ e tr', body x tr0 = (Raise e, tr')) →
  (∀ x, Decision (P x)) →
  (∃ es tr', collect key body xs tr = (Ok es, tr')) ↔ Forall P xs.
Proof.
  intros Hok Hraise Hdec. revert tr. induction xs as [|x xs IH]; intros tr; simpl.
  { split; [constructor|]. by eexists _, _. }
  rewrite bind_run. destruct (decide (P x)) as [Hx|Hx].
  - destruct (Hok x Hx tr) as (v & tr0 & ->). rewrite bind_run.
    rewrite Forall_cons, <- (IH tr0). split.
    + intros (es & tr' & Hrun). split; [done|].
      destruct (collect key body xs tr0) as [[es0|e] tr1]; [by eexists _, _|done].
    + intros [_ (es & tr' & ->)]. by eexists _, _.
  - destruct (Hraise x tr Hx) as (e & tr0 & ->). split.
    + by intros (es & tr' & ?).
    + by intros [? _]%Forall_cons.
Qed.
End collect_returns.

(** X8.  The condensing of a topic with items.  When the first three items have
    string titles, [summarize_topic] returns one article per item, in the
    order of the items; every article has a "summary" entry and agrees with
    its item on every key other than "summary" and "relevance".  It makes
    one generation call for the topic and then one per item, in this order,
    whatever the calls answer. *)
Theorem summarize_topic_articles
    (w : World) (max_summary_length : Z) (include_relevance : bool)
    (topic : string) (news_items : list pydict) (tr : Trace) :
  news_items ≠ [] →
  headlined news_items →
  ∃ synopsis articles r,
    SummarizerAgent.summarize_topic w max_summary_length include_relevance
      topic news_items tr
    = (Ok {| ts_summary := Some (PyStr synopsis); ts_articles := Some articles |},
       tr ++ EvChat r
          :: (EvChat <$> ((λ item, summarize_request max_summary_length item topic
                                     include_relevance) <$> news_items))) ∧
    chat_max_tokens r = 150%N ∧
    Forall2 (λ item article,
               is_Some (article !! "summary") ∧
               ∀ k, k ≠ "summary" → k ≠ "relevance" → article !! k = item !! k)
            news_items articles.
Proof.
  intros Hne Hh. destruct news_items as [|item l]; [done|].
  unfold SummarizerAgent.summarize_topic. rewrite bind_run.
  destruct (generate_topic_summary_run w topic (item :: l) tr Hh) as (r & Hr & ->).
  rewrite bind_run.
  destruct (summarize_articles_run w max_summary_length include_relevance topic (item :: l)
              (tr ++ [EvChat r])) as (arts & -> & Hall).
  eexists _, arts, r. split; [by rewrite <- app_assoc|]. by split.
Qed.

Lemma summarize_topic_articles_witness :
  [<["title" := PyStr "Sube el mar"]> (∅ : pydict); <["url" := PyStr "https://e.org/2"]> ∅]
  ≠ [] ∧
  headlined [<["title" := PyStr "Sube el mar"]> (∅ : pydict);
             <["url" := PyStr "https://e.org/2"]> ∅] ∧
  ∃ synopsis articles tr',
    SummarizerAgent.summarize_topic unreachable 150 true "Clima"
      [<["title" := PyStr "Sube el mar"]> (∅ : pydict); <["url" := PyStr "https://e.org/2"]> ∅]
      []
    = (Ok {| ts_summary := Some (PyStr synopsis); ts_articles := Some articles |}, tr') ∧
    length articles = 2%nat ∧ length tr' = 3%nat.
Proof.
  assert (Hne : [<["title" := PyStr "Sube el mar"]> (∅ : pydict);
                 <["url" := PyStr "https://e.org/2"]> ∅] ≠ []) by done.
  assert (Hh : headlined [<["title" := PyStr "Sube el mar"]> (∅ : pydict);
                          <["url" := PyStr "https://e.org/2"]> ∅]).
  { unfold headlined. simpl. repeat constructor; by vm_compute. }
  split; [exact Hne|]. split; [exact Hh|].
  destruct (summarize_topic_articles unreachable 150 true "Clima" _ [] Hne Hh)
    as (synopsis & articles & r & Hrun & _ & Hall).
  exists synopsis, articles. eexists. split; [exact Hrun|].
  split; [by rewrite <- (Forall2_length _ _ _ Hall)|reflexivity].
Defined.

(** X9.  When the condenser returns.  On a mapping without a repeated key,
    [summarize_news_by_topic] returns exactly when, in every topic, each of
    the first three items has a string title (or none); otherwise it raises.
    Null titles from the fourth item on, and null descriptions or contents
    anywhere, do not make it raise. *)
Theorem summarize_news_returns_iff
    (w : World) (max_summary_length : Z) (include_relevance : bool)
    (news_by_topic : list (string * list pydict)) (tr : Trace) :
  ODict.wf news_by_topic →
  (∃ out tr',
     SummarizerAgent.summarize_news_by_topic w max_summary_length include_relevance
       news_by_topic tr = (Ok out, tr'))
  ↔ (∀ topic items, (topic, items) ∈ news_by_topic → headlined items).
Proof.
  intros Hwf. rewrite summarize_news_collect by done.
  rewrite (collect_returns_iff fst _ (λ kv, headlined kv.2)).
  - rewrite Forall_forall. split.
    + intros Hall topic items Hin. apply (Hall (topic, items) Hin).
    + intros Hall [topic items] Hin. by apply (Hall topic).
  - intros [topic items] Hh. by apply summarize_topic_headlined.
  - intros [topic items] tr0 Hh. by apply summarize_topic_not_headlined.
  - intros ?. apply _.
Qed.

Lemma summarize_news_returns_iff_witness :
  ODict.wf [("IA", [(∅ : pydict); ∅; ∅; <["title" := PyNone]> ∅])] ∧
  ((∃ out tr',
      SummarizerAgent.summarize_news_by_topic unreachable 150 true
        [("IA", [(∅ : pydict); ∅; ∅; <["title" := PyNone]> ∅])] [] = (Ok out, tr'))
   ↔ (∀ topic items,
        (topic, items) ∈ [("IA", [(∅ : pydict); ∅; ∅; <["title" := PyNone]> ∅])] →
        headlined items)).
Proof.
  assert (Hwf : ODict.wf [("IA", [(∅ : pydict); ∅; ∅; <["title" := PyNone]> ∅])]).
  { unfold ODict.wf, ODict.keys. simpl. apply NoDup_singleton. }
  split; [exact Hwf|].
  apply (summarize_news_returns_iff unreachable 150 true _ [] Hwf).
Defined.

Section collect_calls.
Context {X V : Type} (key : X → string) (body : X → M V) (cost : X → nat).

(** The calls of a loop are the calls of its iterations. *)
Lemma collect_calls xs tr es tr' :
  (∀ x tr0 v tr1, body x tr0 = (Ok v, tr1) →
     ∃ reqs, tr1 = tr0 ++ (EvChat <$> reqs) ∧ length reqs = cost x) →
  collect key body xs tr = (Ok es, tr') →
  ∃ reqs, tr' = tr ++ (EvChat <$> reqs) ∧ length reqs = sum_list (cost <$> xs).
Proof.
  intros Hbody. revert tr es tr'. induction xs as [|x xs IH]; intros tr es tr'; simpl.
  { intros [= _ <-]. exists []. by rewrite app_nil_r. }
  rewrite bind_run. destruct (body x tr) as [[v|e] tr1] eqn:Hx; [|done].
  rewrite bind_run. destruct (collect key body xs tr1) as [[es'|e] tr2] eqn:Hxs; [|done].
  intros [= _ <-].
  destruct (Hbody _ _ _ _ Hx) as (reqs1 & -> & Hlen1).
  destruct (IH _ _ _ Hxs) as (reqs2 & -> & Hlen2).
  exists (reqs1 ++ reqs2). rewrite fmap_app, app_assoc, length_app. split; [done|].
  by rewrite Hlen1, Hlen2.
Qed.
End collect_calls.

(** X10.  The price of a condensing run.  A run of [summarize_news_by_topic] that
    returns has made generation calls only: none for a topic without items,
    and one for the topic plus one for each of its items otherwise. *)
Theorem summarizer_call_count
    (w : World) (max_summary_length : Z) (include_relevance : bool)
    (news_by_topic : list (string * list pydict)) (tr tr' : Trace)
    (out : list (string * TopicSummary)) :
  ODict.wf news_by_topic →
  SummarizerAgent.summarize_news_by_topic w max_summary_length include_relevance
    news_by_topic tr = (Ok out, tr') →
  ∃ reqs,
    tr' = tr ++ (EvChat <$> reqs) ∧
    length reqs
    = sum_list ((λ kv : string * list pydict,
                   match kv.2 with
                   | [] => 0%nat
                   | _ :: _ => S (length kv.2)
                   end) <$> news_by_topic).
Proof.
  intros Hwf. rewrite summarize_news_collect by done.
  apply collect_calls. intros [topic items] tr0 entry tr1. apply summarize_topic_calls.
Qed.

Lemma summarizer_call_count_witness :
  ODict.wf [("IA", []); ("Clima", [(∅ : pydict); ∅])] ∧
  ∃ out reqs,
    SummarizerAgent.summarize_news_by_topic unreachable 150 true
      [("IA", []); ("Clima", [(∅ : pydict); ∅])] []
    = (Ok out, [] ++ (EvChat <$> reqs)) ∧
    length reqs = 3%nat.
Proof.
  assert (Hwf : ODict.wf [("IA", []); ("Clima", [(∅ : pydict); ∅])]).
  { unfold ODict.wf, ODict.keys. simpl. apply NoDup_cons. split; [|apply NoDup_singleton].
    by intros [=]%list_elem_of_singleton. }
  split; [exact Hwf|].
  destruct (SummarizerAgent.summarize_news_by_topic unreachable 150 true
              [("IA", []); ("Clima", [(∅ : pydict); ∅])] []) as [[out|e] tr'] eqn:Hrun;
    [|by vm_compute in Hrun].
  destruct (summarizer_call_count unreachable 150 true _ [] tr' out Hwf Hrun)
    as (reqs & -> & Hlen).
  by exists out, reqs.
Defined.

(** ** Stripping *)

Section strip_ends.
Import PyStr.

Lemma rev_app_app s t : String.rev_app s t = String.rev_app s EmptyString +:+ t.
Proof.
  revert t. induction s as [|a s IH]; intros t; simpl; [by rewrite app_nil_l|].
  rewrite (IH (String a t)), (IH (String a EmptyString)).
  by rewrite app_assoc', app_cons, app_nil_l.
Qed.

Lemma rev_cons a s : String.rev (String a s) = String.rev s +:+ String a EmptyString.
Proof. unfold String.rev. simpl. apply rev_app_app. Qed.

Lemma rev_app_distr s t : String.rev (s +:+ t) = String.rev t +:+ String.rev s.
Proof.
  induction s as [|a s IH].
  - rewrite app_nil_l. unfold String.rev at 3. simpl. by rewrite app_empty_r.
  - rewrite app_cons, !rev_cons, IH. by rewrite app_assoc'.
Qed.

Lemma rev_involutive s : String.rev (String.rev s) = s.
Proof.
  induction s as [|a s IH]; [done|].
  rewrite rev_cons, rev_app_distr, IH. unfold String.rev at 1. simpl.
  by rewrite app_cons, app_nil_l.
Qed.

Lemma lstrip1_prefix cs s r : lstrip1 cs s = Some r → ∃ c, c ∈ cs ∧ s = c +:+ r.
Proof.
  induction cs as [|c cs IH]; simpl; [done|].
  destruct (strip_prefix c s) as [r'|] eqn:E.
  - intros [= ->]. exists c. split; [apply list_elem_of_here|]. by apply strip_prefix_Some.
  - intros (c' & Hc' & ->)%IH. exists c'. split; [by apply list_elem_of_further|done].
Qed.

Lemma lstrip1_None cs s c r : lstrip1 cs s = None → c ∈ cs → s ≠ c +:+ r.
Proof.
  induction cs as [|c0 cs IH]; simpl; [by intros _ ?%elem_of_nil|].
  destruct (strip_prefix c0 s) as [r'|] eqn:E; [done|].
  intros Hn [->|Hin]%elem_of_cons.
  - intros Hs%strip_prefix_Some. by rewrite Hs in E.
  - by apply IH.
Qed.

(** What is stripped on the left is a prefix. *)
Lemma lstrip_fuel_suffix n cs s : ∃ a, s = a +:+ lstrip_fuel n cs s.
Proof.
  revert s. induction n as [|n IH]; intros s; simpl; [by exists EmptyString|].
  destruct (lstrip1 cs s) as [r|] eqn:E; [|by exists EmptyString].
  apply lstrip1_prefix in E as (c & _ & ->). destruct (IH r) as [a Ha].
  exists (c +:+ a). by rewrite app_assoc', <- Ha.
Qed.

Lemma lstrip_set_suffix cs s : ∃ a, s = a +:+ lstrip_set cs s.
Proof. apply lstrip_fuel_suffix. Qed.

Lemma rstrip_set_prefix cs s : ∃ b, s = rstrip_set cs s +:+ b.
Proof.
  unfold rstrip_set. destruct (lstrip_set_suffix (String.rev <$> cs) (String.rev s)) as [a Ha].
  exists (String.rev a). rewrite <- rev_app_distr, <- Ha. by rewrite rev_involutive.
Qed.

Lemma lstrip_set_no_prefix cs s c r :
  Forall (λ c, c ≠ EmptyString) cs → c ∈ cs → lstrip_set cs s ≠ c +:+ r.
Proof. intros Hcs Hc. apply (lstrip1_None cs); [by apply lstrip_set_done|done]. Qed.

Lemma rev_nonempty s : s ≠ EmptyString → String.rev s ≠ EmptyString.
Proof.
  intros Hs Hr. apply Hs. by rewrite <- (rev_involutive s), Hr.
Qed.

Lemma rstrip_set_no_suffix cs s c r :
  Forall (λ c, c ≠ EmptyString) cs → c ∈ cs → rstrip_set cs s ≠ r +:+ c.
Proof.
  intros Hcs Hc Heq. unfold rstrip_set in Heq.
  apply (f_equal String.rev) in Heq. rewrite rev_involutive, rev_app_distr in Heq.
  revert Heq. apply lstrip_set_no_prefix.
  - apply Forall_fmap. eapply Forall_impl; [exact Hcs|]. intros ?; apply rev_nonempty.
  - by apply list_elem_of_fmap_2.
Qed.

(** [s.strip(chars)] is a part of [s] that neither starts nor ends with
    a character of the set. *)
Lemma strip_set_spec cs s :
  Forall (λ c, c ≠ EmptyString) cs →
  (∃ a b, s = a +:+ strip_set cs s +:+ b) ∧
  ∀ c r, c ∈ cs → strip_set cs s ≠ c +:+ r ∧ strip_set cs s ≠ r +:+ c.
Proof.
  intros Hcs. unfold strip_set.
  destruct (lstrip_set_suffix cs s) as [a Ha].
  destruct (rstrip_set_prefix cs (lstrip_set cs s)) as [b Hb].
  split.
  - exists a, b. by rewrite <- Hb.
  - intros c r Hc. split; [|by apply rstrip_set_no_suffix].
    intros Heq. rewrite Heq, app_assoc' in Hb. revert Hb. by apply lstrip_set_no_prefix.
Qed.
End strip_ends.

(** ** The formatter's title and its calls *)

Section title.
Import PyStr FormatterAgent.
Context (w : World).

Lemma generate_title_run user_name topics tr :
  _generate_title w user_name topics tr
  = (Ok match chat_create w tr (title_request user_name topics) with
        | Ok content => strip_set [dquote; squote] (strip content)
        | Raise _ => "Tu Resumen de Noticias: " +:+ listing " y más" topics
        end,
     tr ++ [EvChat (title_request user_name topics)]).
Proof.
  unfold _generate_title, try_except, chat, call. rewrite bind_run.
  fold (listing " y más" topics). fold (title_request user_name topics).
  by destruct (chat_create w tr (title_request user_name topics)).
Qed.

Lemma generate_introduction_run user_name topics tr :
  _generate_introduction w user_name topics tr
  = (Ok match chat_create w tr (introduction_request user_name topics) with
        | Ok content => strip content
        | Raise _ => "Hola " +:+ py_format user_name
                     +:+ ", aquí tienes tu resumen de noticias sobre "
                     +:+ listing " y otros temas" topics +:+ " para hoy."
        end,
     tr ++ [EvChat (introduction_request user_name topics)]).
Proof.
  unfold _generate_introduction, try_except, chat, call. rewrite bind_run.
  fold (listing " y otros temas" topics). fold (introduction_request user_name topics).
  by destruct (chat_create w tr (introduction_request user_name topics)).
Qed.

Lemma quotes_nonempty : Forall (λ c, c ≠ EmptyString) [dquote; squote].
Proof. by repeat constructor. Qed.
End title.

(** X11.  The title.  [_generate_title] makes one generation call and never
    raises.  When the call answers, the title is a part of the response that
    neither starts nor ends with a double or single quote.  When the call
    raises, the title is the canned prefix followed by the topic names
    joined by ", ": all of them when there are at most three, the first
    three followed by " y más" otherwise. *)
Theorem generated_title_has_no_outer_quotes
    (w : World) (user_name : pyval) (topics : list string) (tr : Trace) :
  ∃ title,
    FormatterAgent._generate_title w user_name topics tr
    = (Ok title, tr ++ [EvChat (title_request user_name topics)]) ∧
    (∀ content, chat_create w tr (title_request user_name topics) = Ok content →
       (∃ a b, content = a +:+ title +:+ b) ∧
       ∀ q rest, q ∈ [PyStr.dquote; PyStr.squote] →
         title ≠ q +:+ rest ∧ title ≠ rest +:+ q) ∧
    (∀ e, chat_create w tr (title_request user_name topics) = Raise e →
       ((length topics ≤ 3)%nat →
          title = "Tu Resumen de Noticias: " +:+ PyStr.join ", " topics) ∧
       ((3 < length topics)%nat →
          title = "Tu Resumen de Noticias: " +:+ PyStr.join ", " (take 3 topics)
                  +:+ " y más")).
Proof.
  eexists. split; [apply generate_title_run|]. split.
  - intros content ->.
    destruct (strip_set_spec [PyStr.dquote; PyStr.squote] (PyStr.strip content)
                quotes_nonempty) as [(a & b & Hab) Hends].
    destruct (strip_set_spec PyStr.whitespace content whitespace_nonempty)
      as [(a' & b' & Hab') _].
    split; [|exact Hends].
    exists (a' +:+ a), (b +:+ b'). rewrite Hab' at 1. fold (PyStr.strip content).
    rewrite Hab at 1. by rewrite !app_assoc'.
  - intros e ->. unfold listing. split; intros Hlen; case_decide; try lia; [|done].
    by rewrite take_ge by lia.
Qed.

Section formatter_calls.
Import PyStr FormatterAgent.
Context (w : World) (template_name : string).

Lemma template_data_run user_data summarized_news tr :
  ∃ data,
    template_data_of w user_data summarized_news tr
    = (Ok data, tr ++ preparation user_data (ODict.keys summarized_news)) ∧
    date data
    = strftime_now w (tr ++ take 2 (preparation user_data (ODict.keys summarized_news))) ∧
    td_name <$> topics data = ODict.keys summarized_news.
Proof.
  unfold template_data_of, preparation.
  rewrite bind_run, generate_title_run, bind_run, generate_introduction_run, bind_run.
  unfold _get_formatted_date, now, call. cbv beta iota.
  eexists. split; [by rewrite <- !app_assoc|]. simpl. split; [done|].
  unfold ODict.keys. rewrite <- list_fmap_compose.
  apply list_fmap_ext. by intros _ [? ?] _.
Qed.

Lemma html_of_calls data tr :
  ∃ html,
    html_of w template_name data tr
    = (Ok html,
       tr ++ EvGetTemplate template_name
          :: match get_template w tr template_name with
             | Ok _ => [EvRender template_name data]
             | Raise _ => []
             end).
Proof.
  unfold html_of, try_except, env_get_template, template_render, call.
  rewrite bind_run. destruct (get_template w tr template_name) as [[]|e].
  - destruct (render w _ template_name data); eexists; by rewrite <- app_assoc.
  - by eexists.
Qed.
End formatter_calls.

(** X12.  The calls of the formatter.  [format_newsletter] asks for the title,
    asks for the introduction, reads the clock, looks the template up,
    renders it only when the lookup returned, and reads the clock again, in
    this order and whatever the calls answer.  The document has exactly the
    keys "html", "text", "title" and "subject".  The date in the bodies is
    the first reading of the clock; the subject is the title, " - " and the
    second reading.  The template context lists the topics in the order of
    the mapping. *)
Theorem format_newsletter_calls
    (w : World) (template_name : string) (user_data : pydict)
    (summarized_news : list (string * TopicSummary)) (tr : Trace) :
  ∃ doc data ready rendered,
    ready = tr ++ preparation user_data (ODict.keys summarized_news) ∧
    rendered = ready ++ EvGetTemplate template_name
                     :: match get_template w ready template_name with
                        | Ok _ => [EvRender template_name data]
                        | Raise _ => []
                        end ∧
    FormatterAgent.format_newsletter w template_name user_data summarized_news tr
    = (Ok doc, rendered ++ [EvNow]) ∧
    dom doc = document_keys ∧
    doc !! "title" = Some (newsletter_title data) ∧
    doc !! "subject"
    = Some (newsletter_title data +:+ " - " +:+ strftime_now w rendered) ∧
    doc !! "text" = Some (FormatterAgent._generate_text_version w data) ∧
    date data = strftime_now w (tr ++ take 2 (preparation user_data (ODict.keys summarized_news))) ∧
    td_name <$> topics data = ODict.keys summarized_news.
Proof.
  destruct (format_newsletter_stages w template_name user_data summarized_news tr)
    as (data & tr1 & html & tr2 & Hdata & Hhtml & Hrun).
  destruct (template_data_run w user_data summarized_news tr) as (data' & Hdata' & Hdate & Hnames).
  rewrite Hdata' in Hdata. injection Hdata as -> <-.
  destruct (html_of_calls w template_name data
              (tr ++ preparation user_data (ODict.keys summarized_news))) as (html' & Hhtml').
  rewrite Hhtml' in Hhtml. injection Hhtml as -> <-.
  eexists _, data, _, _. split; [reflexivity|]. split; [reflexivity|].
  split; [exact Hrun|].
  split; [rewrite !dom_insert_L, dom_empty_L; unfold document_keys; set_solver|].
  split; [done|]. split; [done|]. split; [done|]. by split.
Qed.

(** ** The two fallback bodies *)

Section bodies.
Import PyStr FormatterAgent.
Context (w : World).

Lemma occurs_here a y : occurs a (a +:+ y).
Proof. exists EmptyString, y. by rewrite app_nil_l. Qed.

Lemma occurs_app_l a s t : occurs a s → occurs a (s +:+ t).
Proof. intros (x & y & ->). exists x, (y +:+ t). by rewrite !app_assoc'. Qed.

Lemma occurs_app_r a s t : occurs a t → occurs a (s +:+ t).
Proof. intros (x & y & ->). exists (s +:+ x), y. by rewrite !app_assoc'. Qed.

Lemma text_articles_block i articles j article :
  articles !! j = Some article →
  occurs (text_article (i + j) article) (text_articles i articles).
Proof.
  revert i j. induction articles as [|a l IH]; intros i [|j] Hj; try done; simpl in *.
  - injection Hj as ->. rewrite Nat.add_0_r. apply occurs_here.
  - apply occurs_app_r. replace (i + S j)%nat with (S i + j)%nat by lia. by apply IH.
Qed.

Lemma html_articles_block articles article :
  article ∈ articles → occurs (html_article article) (html_articles articles).
Proof.
  induction articles as [|a l IH]; [by intros ?%elem_of_nil|].
  intros [->|Hin]%elem_of_cons; simpl.
  - apply occurs_here.
  - apply occurs_app_r. by apply IH.
Qed.

Lemma text_topics_block l topic :
  topic ∈ l → occurs (text_topic w topic) (text_topics w l).
Proof.
  induction l as [|t l IH]; [by intros ?%elem_of_nil|].
  intros [->|Hin]%elem_of_cons; simpl.
  - apply occurs_here.
  - apply occurs_app_r. by apply IH.
Qed.

Lemma html_topics_block l topic : topic ∈ l → occurs (html_topic topic) (html_topics l).
Proof.
  induction l as [|t l IH]; [by intros ?%elem_of_nil|].
  intros [->|Hin]%elem_of_cons; simpl.
  - apply occurs_here.
  - apply occurs_app_r. by apply IH.
Qed.

Lemma occurs_trans a b s : occurs a b → occurs b s → occurs a s.
Proof.
  intros (x & y & ->) (x' & y' & ->). exists (x' +:+ x), (y +:+ y').
  by rewrite !app_assoc'.
Qed.
End bodies.

(** Descend into a concatenation until [tac] finds the part. *)
Ltac find_part tac :=
  rewrite ?app_assoc';
  repeat first
    [ solve [tac]
    | solve [apply occurs_app_l; tac]
    | apply occurs_app_r ].

(** X13.  No article is left out of the bodies that the formatter writes itself.
    For every topic of the template context and every article of the topic,
    the plain-text body contains the topic's name as [upper] returns it and
    the article's block, numbered by the article's position within its topic
    counted from 1; the simple HTML body contains the topic's name and the
    article's block.  This holds for every upper-casing function; in the
    example, with [PyStr.str_upper], the text contains "CLIMA" for the topic
    "Clima". *)
Theorem bodies_list_every_article
    (w : World) (data : TemplateData) (topic : TopicData) (j : nat) (article : pydict) :
  topic ∈ topics data →
  td_articles topic !! j = Some article →
  occurs (upper w (td_name topic)) (FormatterAgent._generate_text_version w data) ∧
  occurs (FormatterAgent.text_article (S j) article)
    (FormatterAgent._generate_text_version w data) ∧
  occurs (td_name topic) (FormatterAgent._generate_simple_html data) ∧
  occurs (FormatterAgent.html_article article) (FormatterAgent._generate_simple_html data).
Proof.
  intros Htopic Harticle.
  assert (Htext : occurs (FormatterAgent.text_topic w topic)
                    (FormatterAgent._generate_text_version w data)).
  { unfold FormatterAgent._generate_text_version.
    find_part ltac:(by apply text_topics_block). }
  assert (Hhtml : occurs (FormatterAgent.html_topic topic)
                    (FormatterAgent._generate_simple_html data)).
  { unfold FormatterAgent._generate_simple_html.
    find_part ltac:(by apply html_topics_block). }
  repeat split.
  - eapply occurs_trans; [|exact Htext]. unfold FormatterAgent.text_topic.
    find_part ltac:(apply occurs_here).
  - eapply occurs_trans; [|exact Htext]. unfold FormatterAgent.text_topic.
    find_part ltac:(by apply (text_articles_block 1)).
  - eapply occurs_trans; [|exact Hhtml]. unfold FormatterAgent.html_topic.
    find_part ltac:(apply occurs_here).
  - eapply occurs_trans; [|exact Hhtml]. unfold FormatterAgent.html_topic.
    find_part ltac:(apply html_articles_block; by eapply list_elem_of_lookup_2).
Qed.

Lemma bodies_list_every_article_witness :
  sample_topic ∈ topics sample_data ∧
  td_articles sample_topic !! 0%nat = Some sample_article ∧
  td_name sample_topic = "Clima" ∧
  occurs "CLIMA" (FormatterAgent._generate_text_version unreachable sample_data) ∧
  occurs (FormatterAgent.text_article 1 sample_article)
    (FormatterAgent._generate_text_version unreachable sample_data) ∧
  occurs "Clima" (FormatterAgent._generate_simple_html sample_data) ∧
  occurs (FormatterAgent.html_article sample_article)
    (FormatterAgent._generate_simple_html sample_data).
Proof.
  assert (Htopic : sample_topic ∈ topics sample_data) by apply list_elem_of_here.
  assert (Harticle : td_articles sample_topic !! 0%nat = Some sample_article) by reflexivity.
  split; [exact Htopic|]. split; [exact Harticle|]. split; [reflexivity|].
  exact (bodies_list_every_article unreachable sample_data sample_topic 0 sample_article
           Htopic Harticle).
Defined.

(** ** Storage and the script in both modes *)

Section storage.
Context (db : Storage).

Lemma script_bind_run {A B} (m : Script A) (f : A → Script B) j tr :
  (m ≫= f) j tr
  = match m j tr with
    | (Ok a, j', tr') => f a j' tr'
    | (Raise e, j', tr') => (Raise e, j', tr')
    end.
Proof. reflexivity. Qed.

Lemma run_agent_bind {A B} (m : M A) (f : A → Script B) j tr :
  (run_agent m ≫= f) j tr
  = match m tr with
    | (Ok a, tr') => f a j tr'
    | (Raise e, tr') => (Raise e, j, tr')
    end.
Proof.
  rewrite script_bind_run. unfold run_agent. by destruct (m tr) as [[a|e] tr'].
Qed.

Lemma topics_of_rows_spec data j tr :
  match database.topics_of_rows data j tr with
  | (Ok topics, j', tr') =>
      Forall2 topic_of data topics ∧ Forall (λ row, ¬ dangling row) data ∧
      j' = j ∧ tr' = tr
  | (Raise _, j', tr') => Exists dangling data ∧ j' = j ∧ tr' = tr
  end.
Proof.
  induction data as [|row data IH]; simpl; [by repeat constructor|].
  rewrite script_bind_run. unfold database.topic_of_row, dangling, topic_of in *.
  destruct (row_topics row) as [[name description]|] eqn:Hrow; simpl.
  - rewrite script_bind_run.
    destruct (database.topics_of_rows data j tr) as [[[topics|e] j'] tr'].
    + destruct IH as (IH & Hf & -> & ->). cbn.
      split; [constructor; [by exists description|done]|].
      split; [constructor; [by rewrite Hrow|done]|done].
    + destruct IH as (IH & -> & ->). split; [by right|done].
  - split; [by left|done].
Qed.

Lemma get_user_by_id_run user_id j tr :
  database.get_user_by_id db user_id j tr
  = (Ok match select_user db j tr user_id with
        | Ok (row :: _) => Some row
        | Ok [] | Raise _ => None
        end,
     j ++ [SelectUser user_id], tr).
Proof.
  unfold database.get_user_by_id, script_try, db_call. rewrite script_bind_run.
  by destruct (select_user db j tr user_id) as [[|row data]|e].
Qed.

Lemma get_user_topics_run user_id j tr :
  database.get_user_topics db user_id j tr
  = (Ok (topics_of db user_id j tr), j ++ [SelectUserTopics user_id], tr).
Proof.
  unfold topics_of, database.get_user_topics, script_try, db_call.
  rewrite script_bind_run.
  destruct (select_user_topics db j tr user_id) as [[|row data]|e]; try done.
  pose proof (topics_of_rows_spec (row :: data) (j ++ [SelectUserTopics user_id]) tr) as Hs.
  destruct (database.topics_of_rows (row :: data) _ tr) as [[[topics|e] j'] tr'].
  - by destruct Hs as (_ & _ & -> & ->).
  - by destruct Hs as (_ & -> & ->).
Qed.

Lemma save_newsletter_run user_id content topics channel_name j tr :
  ∃ row saved,
    database.save_newsletter db user_id content topics channel_name j tr
    = (Ok saved, j ++ [InsertNewsletter row], tr) ∧
    row = {| nl_user_id := user_id; nl_content := content; nl_topics := topics;
             nl_channel := channel_name; nl_sent_at := "now()" |}.
Proof.
  unfold database.save_newsletter, script_try, db_call. rewrite script_bind_run.
  destruct (insert_newsletter db j tr _) as [[|row data]|e]; by eexists _, _.
Qed.
End storage.

(** X14.  The topics of a recipient.  [get_user_topics] makes one request to the
    storage service and never raises.  It returns no topic when the request
    raises, when it answers no row, or when the joined topic of any row is
    null: one such row discards all topics.  Otherwise it returns one topic
    per row, in the order of the rows, with the name and the description of
    the row's topic. *)
Theorem get_user_topics_all_or_nothing
    (db : Storage) (user_id : string) (j : Journal) (tr : Trace) :
  ∃ topics,
    database.get_user_topics db user_id j tr
    = (Ok topics, j ++ [SelectUserTopics user_id], tr) ∧
    match select_user_topics db j tr user_id with
    | Ok data =>
        (Exists dangling data → topics = []) ∧
        (Forall (λ row, ¬ dangling row) data → Forall2 topic_of data topics)
    | Raise _ => topics = []
    end.
Proof.
  unfold database.get_user_topics, script_try, db_call. rewrite script_bind_run.
  destruct (select_user_topics db j tr user_id) as [[|row data]|e].
  - exists []. split; [done|]. split; [done|]. constructor.
  - pose proof (topics_of_rows_spec (row :: data) (j ++ [SelectUserTopics user_id]) tr) as Hs.
    destruct (database.topics_of_rows (row :: data) _ tr) as [[[topics|e] j'] tr'].
    + destruct Hs as (Hall & Hf & -> & ->). exists topics. split; [done|]. split; [|done].
      intros Hex. apply Exists_exists in Hex as (r & Hr & Hd).
      rewrite Forall_forall in Hf. by destruct (Hf r Hr).
    + destruct Hs as (Hex & -> & ->). exists []. split; [done|]. split; [done|].
      intros Hf. apply Exists_exists in Hex as (r & Hr & Hd).
      rewrite Forall_forall in Hf. by destruct (Hf r Hr).
  - by exists [].
Qed.

Section script_inputs.
Context (db : Storage) (w : World) (cfg : Config).

Lemma inputs_run user_id j tr :
  script.inputs db user_id false j tr
  = match user_of db user_id j tr with
    | None =>
        (Ok (inl ("Usuario no encontrado: " +:+ user_id)), j ++ [SelectUser user_id], tr)
    | Some user_data =>
        (Ok match topics_of db user_id (j ++ [SelectUser user_id]) tr with
            | [] => inl "El usuario no tiene tópicos configurados"
            | topic :: topics => inr (user_data, topic :: topics)
            end,
         j ++ [SelectUser user_id; SelectUserTopics user_id], tr)
    end.
Proof.
  unfold script.inputs, user_of. rewrite script_bind_run, get_user_by_id_run.
  destruct (select_user db j tr user_id) as [[|row data]|e]; try done.
  case_decide; [done|].
  rewrite script_bind_run, get_user_topics_run, <- app_assoc.
  by destruct (topics_of db user_id (j ++ [SelectUser user_id]) tr).
Qed.
End script_inputs.

(** X15.  Runs that end before the first stage.  Outside the mock mode, when the
    lookup of the recipient raises, answers no row or answers an empty row,
    the run reports "Usuario no encontrado" after that one request; when the
    recipient is found and has no topics, which includes a lookup of the
    topics that raises, it reports "El usuario no tiene tópicos configurados"
    after the two requests.  In both cases no agent makes any call and
    nothing is inserted. *)
Theorem run_rejected_before_any_stage
    (db : Storage) (w : World) (cfg : Config)
    (user_id channel_name language : string) (j : Journal) (tr : Trace) :
  (user_of db user_id j tr = None →
   script.generate_and_send_newsletter db w cfg user_id channel_name language false j tr
   = (Ok (script.Rejected ("Usuario no encontrado: " +:+ user_id)),
      j ++ [SelectUser user_id], tr)) ∧
  (is_Some (user_of db user_id j tr) →
   topics_of db user_id (j ++ [SelectUser user_id]) tr = [] →
   script.generate_and_send_newsletter db w cfg user_id channel_name language false j tr
   = (Ok (script.Rejected "El usuario no tiene tópicos configurados"),
      j ++ [SelectUser user_id; SelectUserTopics user_id], tr)).
Proof.
  unfold script.generate_and_send_newsletter.
  split.
  - intros Hnone. by rewrite script_bind_run, inputs_run, Hnone.
  - intros [user_data Huser] Htopics.
    by rewrite script_bind_run, inputs_run, Huser, Htopics.
Qed.

(** X16.  The mock mode leaves the storage alone.  With [mock_data] set, the
    script makes no request to the storage service, whatever the run does,
    and it returns, raises and calls the services exactly as the run on the
    placeholder recipient and topics. *)
Theorem mock_run_leaves_storage_alone
    (db : Storage) (w : World) (cfg : Config)
    (user_id channel_name language : string) (j : Journal) (tr : Trace) :
  script.generate_and_send_newsletter db w cfg user_id channel_name language true j tr
  = (res_map script.Completed
       (generate_newsletter.generate_and_send_newsletter w cfg user_id channel_name
          language tr).1,
     j,
     (generate_newsletter.generate_and_send_newsletter w cfg user_id channel_name
        language tr).2).
Proof.
  unfold script.generate_and_send_newsletter, script.inputs,
    generate_newsletter.generate_and_send_newsletter, generate_newsletter.format_stage.
  rewrite script_bind_run. cbn -[NewsFetcherAgent.get_news_for_topics
    SummarizerAgent.summarize_news_by_topic FormatterAgent.format_newsletter
    SenderAgent.send_newsletter generate_newsletter.mock_user_data
    generate_newsletter.mock_topics].
  rewrite run_agent_bind, !bind_run.
  destruct (NewsFetcherAgent.get_news_for_topics w 3 _ language tr) as [[news|e] tr1];
    [|done].
  rewrite run_agent_bind, !bind_run.
  destruct (SummarizerAgent.summarize_news_by_topic w 150 true news tr1)
    as [[summarized|e] tr2]; [|done].
  rewrite run_agent_bind.
  destruct (FormatterAgent.format_newsletter w "default_email.html" _ summarized tr2)
    as [[doc|e] tr3]; [|done].
  rewrite run_agent_bind, bind_run.
  by destruct (SenderAgent.send_newsletter _ _ doc channel_name tr3) as [[outcome|e] tr4].
Qed.

Section odict_keys.
Context {V : Type}.
Implicit Types (d acc es : list (string * V)).

Lemma keys_set k (v : V) d :
  ODict.keys (ODict.set k v d)
  = if decide (k ∈ ODict.keys d) then ODict.keys d else ODict.keys d ++ [k].
Proof.
  unfold ODict.keys. induction d as [|[k' v'] d IH]; [done|].
  cbn [ODict.set]. destruct (decide (k' = k)) as [->|Hne].
  - rewrite !fmap_cons. cbn [fst].
    destruct (decide (k ∈ k :: d.*1)) as [Hin|Hin]; [done|].
    destruct Hin. apply list_elem_of_here.
  - rewrite !fmap_cons, IH. cbn [fst].
    destruct (decide (k ∈ d.*1)) as [Hin|Hin];
      destruct (decide (k ∈ k' :: d.*1)) as [Hin'|Hin']; try done.
    + destruct Hin'. by apply list_elem_of_further.
    + by apply elem_of_cons in Hin' as [->|?].
Qed.

Lemma set_wf k (v : V) d : ODict.wf d → ODict.wf (ODict.set k v d).
Proof.
  unfold ODict.wf. rewrite keys_set. intros Hd. case_decide; [done|].
  apply NoDup_app. split; [done|]. split; [|apply NoDup_singleton].
  intros x Hx ->%list_elem_of_singleton. done.
Qed.

Lemma set_keys_elem k (v : V) d x :
  x ∈ ODict.keys (ODict.set k v d) ↔ x = k ∨ x ∈ ODict.keys d.
Proof.
  rewrite keys_set. case_decide.
  - split; [by right|]. by intros [->|?].
  - rewrite elem_of_app, list_elem_of_singleton. tauto.
Qed.

Lemma fill_wf acc es :
  ODict.wf acc → ODict.wf (foldl (λ a kv, ODict.set kv.1 kv.2 a) acc es).
Proof.
  revert acc. induction es as [|[k v] es IH]; intros acc Hacc; simpl; [done|].
  by apply IH, set_wf.
Qed.

Lemma fill_keys_elem acc es x :
  x ∈ ODict.keys (foldl (λ a kv, ODict.set kv.1 kv.2 a) acc es)
  ↔ x ∈ ODict.keys acc ∨ x ∈ ODict.keys es.
Proof.
  revert acc. induction es as [|[k v] es IH]; intros acc; simpl.
  - split; [by left|]. by intros [?|?%elem_of_nil].
  - rewrite IH, set_keys_elem. unfold ODict.keys at 4. simpl.
    rewrite elem_of_cons. fold (ODict.keys es). tauto.
Qed.
End odict_keys.

Section fetch_keys.
Context (w : World) (cap : Z).

(** The mapping of the fetcher has every topic's name once, also when a
    name is repeated among the topics. *)
Lemma get_news_keys topics language tr out tr' :
  NewsFetcherAgent.get_news_for_topics w cap topics language tr = (Ok out, tr') →
  ODict.wf out ∧
  (∀ name, name ∈ ODict.keys out ↔ name ∈ topic_name <$> topics) ∧
  (NoDup (topic_name <$> topics) → ODict.keys out = topic_name <$> topics).
Proof.
  intros Hrun. split; [|split].
  - unfold NewsFetcherAgent.get_news_for_topics in Hrun.
    rewrite fetch_topics_collect in Hrun.
    destruct (collect topic_name _ topics tr) as [[es|e] tr0]; [|done].
    injection Hrun as <- <-. apply fill_wf. apply NoDup_nil_2.
  - unfold NewsFetcherAgent.get_news_for_topics in Hrun.
    rewrite fetch_topics_collect in Hrun.
    destruct (collect topic_name _ topics tr) as [[es|e] tr0] eqn:Hc; [|done].
    injection Hrun as <- <-. intros name. rewrite fill_keys_elem.
    rewrite (collect_keys _ _ _ _ _ _ Hc). split; [|by right].
    by intros [?%elem_of_nil|?].
  - intros Hnd. rewrite get_news_collect in Hrun by done.
    by apply collect_keys in Hrun.
Qed.
End fetch_keys.



Section same_lookups.
Context (db1 db2 : Storage) (user_id : string) (j : Journal) (tr : Trace).

Lemma topics_of_ext :
  select_user_topics db1 j tr user_id = select_user_topics db2 j tr user_id →
  topics_of db1 user_id j tr = topics_of db2 user_id j tr.
Proof.
  intros Heq. unfold topics_of, database.get_user_topics, script_try, db_call.
  rewrite !script_bind_run. by rewrite Heq.
Qed.

Lemma user_of_ext :
  select_user db1 j tr user_id = select_user db2 j tr user_id →
  user_of db1 user_id j tr = user_of db2 user_id j tr.
Proof. intros Heq. unfold user_of. by rewrite Heq. Qed.
End same_lookups.

(** X18.  A failed insertion is silent.  Two storage services that answer the
    two lookups of a run alike lead to the same report, or the same
    exception, and to the same outbound calls, whatever they answer to the
    insertion: whether the record of a delivery was stored cannot be told
    from the result of [generate_and_send_newsletter]. *)
Theorem failed_insertion_is_silent
    (db1 db2 : Storage) (w : World) (cfg : Config)
    (user_id channel_name language : string) (mock_data : bool)
    (j : Journal) (tr : Trace) :
  select_user db1 j tr user_id = select_user db2 j tr user_id →
  select_user_topics db1 (j ++ [SelectUser user_id]) tr user_id
  = select_user_topics db2 (j ++ [SelectUser user_id]) tr user_id →
  (script.generate_and_send_newsletter db1 w cfg user_id channel_name language
     mock_data j tr).1.1
  = (script.generate_and_send_newsletter db2 w cfg user_id channel_name language
       mock_data j tr).1.1 ∧
  (script.generate_and_send_newsletter db1 w cfg user_id channel_name language
     mock_data j tr).2
  = (script.generate_and_send_newsletter db2 w cfg user_id channel_name language
       mock_data j tr).2.
Proof.
  intros Huser Htopics.
  assert (Hinputs : ∃ i j0,
            script.inputs db1 user_id mock_data j tr = (Ok i, j0, tr) ∧
            script.inputs db2 user_id mock_data j tr = (Ok i, j0, tr)).
  { destruct mock_data; [by eexists _, _|]. rewrite !inputs_run.
    rewrite <- (user_of_ext db1 db2 user_id j tr Huser).
    rewrite <- (topics_of_ext db1 db2 user_id _ tr Htopics).
    destruct (user_of db1 user_id j tr); by eexists _, _. }
  destruct Hinputs as (i & j0 & Hi1 & Hi2).
  unfold script.generate_and_send_newsletter. rewrite !script_bind_run, Hi1, Hi2.
  destruct i as [message|[user_data topics]]; [done|].
  rewrite !run_agent_bind.
  destruct (NewsFetcherAgent.get_news_for_topics w 3 topics language tr)
    as [[news|e] tr1]; [|done].
  rewrite !run_agent_bind.
  destruct (SummarizerAgent.summarize_news_by_topic w 150 true news tr1)
    as [[summarized|e] tr2]; [|done].
  rewrite !run_agent_bind.
  destruct (FormatterAgent.format_newsletter w "default_email.html" user_data summarized tr2)
    as [[doc|e] tr3]; [|done].
  rewrite !run_agent_bind.
  destruct (SenderAgent.send_newsletter _ user_data doc channel_name tr3)
    as [[outcome|e] tr4]; [|done].
  rewrite !script_bind_run.
  destruct (negb mock_data && success outcome); [|done].
  rewrite !script_bind_run.
  destruct (save_newsletter_run db1 user_id (from_option id "Newsletter" (doc !! "title"))
              (ODict.keys summarized) channel_name j0 tr4) as (row1 & saved1 & -> & _).
  destruct (save_newsletter_run db2 user_id (from_option id "Newsletter" (doc !! "title"))
              (ODict.keys summarized) channel_name j0 tr4) as (row2 & saved2 & -> & _).
  done.
Qed.

Lemma failed_insertion_is_silent_witness :
  select_user read_only_storage [] [] "u1" = select_user accepting_storage [] [] "u1" ∧
  select_user_topics read_only_storage ([] ++ [SelectUser "u1"]) [] "u1"
  = select_user_topics accepting_storage ([] ++ [SelectUser "u1"]) [] "u1" ∧
  (script.generate_and_send_newsletter read_only_storage unreachable no_credentials
     "u1" "email" "es" false [] []).1.1
  = (script.generate_and_send_newsletter accepting_storage unreachable no_credentials
       "u1" "email" "es" false [] []).1.1.
Proof.
  assert (Huser : select_user read_only_storage [] [] "u1"
                  = select_user accepting_storage [] [] "u1") by reflexivity.
  assert (Htopics : select_user_topics read_only_storage ([] ++ [SelectUser "u1"]) [] "u1"
                    = select_user_topics accepting_storage ([] ++ [SelectUser "u1"]) [] "u1")
    by reflexivity.
  split; [exact Huser|]. split; [exact Htopics|].
  exact (proj1 (failed_insertion_is_silent read_only_storage accepting_storage unreachable
                  no_credentials "u1" "email" "es" false [] [] Huser Htopics)).
Defined.

Section mock_run.
Context (w : World) (cfg : Config).

Lemma accepted_middle tr done c rest :
  accepted w tr (done ++ c :: rest) → smtp w (tr ++ (EvSmtp <$> done)) c = Ok ().
Proof.
  revert tr. induction done as [|c0 done IH]; intros tr; simpl.
  - rewrite app_nil_r. by intros [? _].
  - intros [_ Hacc]. apply IH in Hacc. by rewrite <- app_assoc in Hacc.
Qed.

Lemma attempt_accepted tr calls :
  (attempt w tr calls).2 = None ↔ accepted w tr calls.
Proof.
  pose proof (attempt_spec w tr calls) as Hspec.
  destruct (attempt w tr calls).2 as [e|].
  - destruct Hspec as (done & c & rest & -> & _ & Hr & _). split; [done|].
    intros Hacc%accepted_middle. by rewrite Hr in Hacc.
  - by destruct Hspec.
Qed.

Lemma format_stage_title user_id language tr doc tr1 :
  generate_newsletter.format_stage w user_id language tr = (Ok doc, tr1) →
  ∃ title, doc !! "title" = Some title.
Proof.
  unfold generate_newsletter.format_stage. rewrite bind_run.
  destruct (NewsFetcherAgent.get_news_for_topics w 3 _ language tr) as [[news|e] tr0];
    [|done].
  rewrite bind_run.
  destruct (SummarizerAgent.summarize_news_by_topic w 150 true news tr0)
    as [[summarized|e] tr2]; [|done].
  destruct (format_newsletter_stages w "default_email.html"
              (generate_newsletter.mock_user_data user_id) summarized tr2)
    as (data & tr3 & html & tr4 & _ & _ & ->).
  intros [= <- <-]. by eexists.
Qed.
End mock_run.

(** X19.  The report of a mock run.  When the first three stages return, the run
    returns a report for the requested recipient and channel that names the
    two placeholder topics and the document's title.  Over "whatsapp" and
    "telegram", and over "email" without full credentials, it reports
    success without any further call.  Over "email" with full credentials it
    reports success exactly when the mail server accepts the five calls of
    the session.  A channel that is not registered is reported as
    unsupported, and only then: the three stages have made all their calls
    before the channel is looked at. *)
Theorem mock_run_outcome
    (w : World) (cfg : Config) (user_id channel_name language : string)
    (tr tr1 : Trace) (doc : pydoc) :
  generate_newsletter.format_stage w user_id language tr = (Ok doc, tr1) →
  ∃ result tr2,
    generate_newsletter.generate_and_send_newsletter w cfg user_id channel_name language tr
    = (Ok result, tr2) ∧
    generate_newsletter.run_user_id result = user_id ∧
    generate_newsletter.run_channel result = channel_name ∧
    generate_newsletter.run_topics result = ["Inteligencia Artificial"; "Cambio Climático"] ∧
    doc !! "title" = Some (generate_newsletter.run_newsletter_title result) ∧
    (channel_name = "whatsapp" ∨ channel_name = "telegram" ∨
     (channel_name = "email" ∧ ¬ configured cfg) →
     generate_newsletter.run_success result = true ∧ tr2 = tr1) ∧
    (channel_name = "email" → configured cfg →
     (generate_newsletter.run_success result = true
      ↔ accepted w tr1
          (smtp_session cfg
             (mail_message cfg (generate_newsletter.mock_user_data user_id) doc)))) ∧
    (channel_name ≠ "email" → channel_name ≠ "whatsapp" → channel_name ≠ "telegram" →
     generate_newsletter.run_success result = false ∧
     generate_newsletter.run_message result = "Canal no soportado: " +:+ channel_name ∧
     tr2 = tr1).
Proof.
  intros Hstage. destruct (format_stage_title w user_id language tr doc tr1 Hstage)
    as [title Htitle].
  unfold generate_newsletter.generate_and_send_newsletter.
  rewrite bind_run, Hstage, bind_run.
  assert (Hmail : truthy (dict_get (generate_newsletter.mock_user_data user_id) "email" PyNone)
                  = true) by reflexivity.
  unfold SenderAgent.send_newsletter, SenderAgent.channels.
  destruct (decide (channel_name = "email")) as [->|Hne].
  { rewrite lookup_insert_eq. unfold try_except.
    destruct (SenderAgent.credentials_configured cfg) eqn:Hcfg.
    - pose proof (proj1 (configured_spec cfg) Hcfg) as Hc.
      rewrite (send_by_email_run w cfg _ _ _ Hmail Hc).
      pose proof (attempt_accepted w tr1
                    (smtp_session cfg
                       (mail_message cfg (generate_newsletter.mock_user_data user_id) doc)))
        as Hacc.
      destruct (attempt w tr1 _).2 as [e|]; eexists _, _; (split; [reflexivity|]);
        cbn [generate_newsletter.run_user_id generate_newsletter.run_channel
             generate_newsletter.run_topics generate_newsletter.run_newsletter_title
             generate_newsletter.run_success generate_newsletter.run_message];
        rewrite Htitle; (split; [done|]); (split; [done|]); (split; [done|]);
        (split; [done|]); (split; [intros [?|[?|[_ ?]]]; done|]); (split; [|done]);
        intros _ _; simpl.
      + rewrite <- Hacc. done.
      + rewrite <- Hacc. done.
    - assert (Hnc : ¬ configured cfg).
      { intros Hc%configured_spec. by rewrite Hc in Hcfg. }
      unfold SenderAgent._send_by_email. rewrite Hmail, Hcfg. simpl.
      eexists _, _. split; [reflexivity|]. simpl. rewrite Htitle.
      repeat split; try done. }
  rewrite lookup_insert_ne by done.
  destruct (decide (channel_name = "whatsapp")) as [->|Hnw].
  { rewrite lookup_insert_eq. eexists _, _. split; [reflexivity|]. simpl. rewrite Htitle.
    repeat split; try done. }
  rewrite lookup_insert_ne by done.
  destruct (decide (channel_name = "telegram")) as [->|Hnt].
  { rewrite lookup_insert_eq. eexists _, _. split; [reflexivity|]. simpl. rewrite Htitle.
    repeat split; try done. }
  rewrite lookup_insert_ne by done. rewrite lookup_empty.
  eexists _, _. split; [reflexivity|]. simpl. rewrite Htitle.
  split; [done|]. split; [done|]. split; [done|]. split; [done|].
  split; [by intros [?|[?|[? _]]]|]. by split.
Qed.

Lemma mock_run_outcome_witness :
  ∃ doc tr1,
    generate_newsletter.format_stage unreachable "u1" "es" [] = (Ok doc, tr1) ∧
    ∃ result tr2,
      generate_newsletter.generate_and_send_newsletter unreachable no_credentials
        "u1" "fax" "es" [] = (Ok result, tr2) ∧
      generate_newsletter.run_success result = false ∧
      generate_newsletter.run_message result = "Canal no soportado: fax" ∧
      tr2 = tr1.
Proof.
  assert (Hstage : ∃ doc tr1,
            generate_newsletter.format_stage unreachable "u1" "es" [] = (Ok doc, tr1)).
  { vm_compute. by eexists _, _. }
  destruct Hstage as (doc & tr1 & Hstage). exists doc, tr1. split; [exact Hstage|].
  destruct (mock_run_outcome unreachable no_credentials "u1" "fax" "es" [] tr1 doc Hstage)
    as (result & tr2 & Hrun & _ & _ & _ & _ & _ & _ & Hfax).
  exists result, tr2. split; [exact Hrun|]. by apply Hfax.
Defined.

(** ** When the script returns *)

Section origin.
Import NewsFetcherAgent.
Context (w : World) (cap : Z).

Lemma fetch_topic_origin language topic tr items tr' item :
  fetch_topic w cap language topic tr = (Ok items, tr') → item ∈ items →
  ∃ term tr0, item ∈ fetched w term language tr0.
Proof.
  unfold fetch_topic. rewrite bind_run.
  destruct (_get_search_terms w _ _ tr) as [[terms|e] tr1]; [|done].
  destruct (fetch_terms_calls w cap language terms [] tr1)
    as (k & items' & _ & _ & -> & Hitems).
  intros [= <- _] [Hin|(term & tr0 & _ & Hin)]%Hitems; [by apply elem_of_nil in Hin|].
  by exists term, tr0.
Qed.

Lemma get_news_origin topics language tr out tr' name items item :
  get_news_for_topics w cap topics language tr = (Ok out, tr') →
  (name, items) ∈ out → item ∈ items →
  ∃ term tr0, item ∈ fetched w term language tr0.
Proof.
  unfold get_news_for_topics. rewrite fetch_topics_collect.
  destruct (collect topic_name _ topics tr) as [[es|e] tr0] eqn:Hc; [|done].
  intros [= <- _] [Hin|Hin]%fill_elem Hitem; [by apply elem_of_nil in Hin|].
  destruct (collect_origin _ _ _ _ _ _ _ _ Hc Hin) as (topic & t0 & t1 & _ & _ & Hbody).
  by eapply fetch_topic_origin.
Qed.

Lemma get_news_titled topics language tr out tr' :
  string_titles w →
  get_news_for_topics w cap topics language tr = (Ok out, tr') → titled out.
Proof.
  intros Hw Hrun name items item Hin Hitem.
  destruct (get_news_origin _ _ _ _ _ _ _ _ Hrun Hin Hitem) as (term & tr0 & Hf).
  apply fetched_origin in Hf as (page & a & Hpage & Ha & Hcopies).
  destruct Hcopies as (_ & Htitle & _). unfold dict_get at 1. rewrite Htitle. simpl.
  by eapply Hw.
Qed.
End origin.

Lemma send_newsletter_returns self_channels user_data newsletter_data channel_name tr :
  ∃ outcome tr',
    SenderAgent.send_newsletter self_channels user_data newsletter_data channel_name tr
    = (Ok outcome, tr').
Proof.
  unfold SenderAgent.send_newsletter.
  destruct (self_channels !! channel_name) as [send|]; [|by eexists _, _].
  unfold try_except. destruct (send user_data newsletter_data tr) as [[o|e] tr5];
    by eexists _, _.
Qed.

(** X20.  The script returns when the search service has string titles.  In
    both modes, when the search service never answers a record with a null
    title, [generate_and_send_newsletter] returns a report, whatever the
    other services and the storage service do: every failure of a generation
    call, of a search request, of the template engine, of the mail server or
    of the storage service is turned into a result.  The statement is about
    the calls of the services; the constructors of the agents are not part
    of the model. *)
Theorem script_returns_with_string_titles
    (db : Storage) (w : World) (cfg : Config)
    (user_id channel_name language : string) (mock_data : bool)
    (j : Journal) (tr : Trace) :
  string_titles w →
  ∃ report j' tr',
    script.generate_and_send_newsletter db w cfg user_id channel_name language
      mock_data j tr
    = (Ok report, j', tr').
Proof.
  intros Hw.
  assert (Hstages : ∀ user_data topics tr0,
    ∃ news summarized doc outcome tr1 tr2 tr3 tr4,
      NewsFetcherAgent.get_news_for_topics w 3 topics language tr0 = (Ok news, tr1) ∧
      SummarizerAgent.summarize_news_by_topic w 150 true news tr1 = (Ok summarized, tr2) ∧
      FormatterAgent.format_newsletter w "default_email.html" user_data summarized tr2
      = (Ok doc, tr3) ∧
      SenderAgent.send_newsletter (SenderAgent.channels w cfg) user_data doc channel_name tr3
      = (Ok outcome, tr4)).
  { intros user_data topics tr0.
    destruct (get_news_total w 3 topics language tr0) as (news & tr1 & Hnews).
    destruct (get_news_keys _ _ _ _ _ _ _ Hnews) as (Hwf & _ & _).
    pose proof (get_news_titled _ _ _ _ _ _ _ Hw Hnews) as Ht.
    destruct (summarize_news_total w 150 true news tr1 Hwf Ht) as (summarized & tr2 & Hsum).
    destruct (format_newsletter_stages w "default_email.html" user_data summarized tr2)
      as (data & tr3 & html & tr4 & _ & _ & Hdoc).
    destruct (send_newsletter_returns (SenderAgent.channels w cfg) user_data
                (<["html":=html]>
                   (<["text":=FormatterAgent._generate_text_version w data]>
                      (<["title":=newsletter_title data]>
                         (<["subject":=newsletter_title data +:+ " - "
                                       +:+ strftime_now w tr4]> ∅))))
                channel_name (tr4 ++ [EvNow])) as (outcome & tr5 & Hsend).
    by eexists news, summarized, _, outcome, tr1, tr2, _, tr5. }
  unfold script.generate_and_send_newsletter. rewrite script_bind_run.
  assert (Hinputs : ∃ i j0, script.inputs db user_id mock_data j tr = (Ok i, j0, tr)).
  { destruct mock_data; [by eexists _, _|]. rewrite inputs_run.
    destruct (user_of db user_id j tr); by eexists _, _. }
  destruct Hinputs as (i & j0 & ->). destruct i as [message|[user_data topics]].
  { by eexists _, _, _. }
  destruct (Hstages user_data topics tr)
    as (news & summarized & doc & outcome & tr1 & tr2 & tr3 & tr4 & Hn & Hs & Hd & Ho).
  rewrite run_agent_bind, Hn, run_agent_bind, Hs, run_agent_bind, Hd, run_agent_bind, Ho.
  rewrite script_bind_run.
  destruct (negb mock_data && success outcome).
  - rewrite script_bind_run.
    destruct (save_newsletter_run db user_id
                (from_option id "Newsletter" (doc !! "title"))
                (ODict.keys summarized) channel_name j0 tr4) as (row & saved & -> & _).
    by eexists _, _, _.
  - by eexists _, _, _.
Qed.

Lemma script_returns_with_string_titles_witness :
  string_titles (serving two_articles) ∧
  ∃ result j' tr',
    script.generate_and_send_newsletter read_only_storage (serving two_articles)
      no_credentials "u1" "email" "es" false [] []
    = (Ok (script.Completed result), j', tr') ∧
    generate_newsletter.run_success result = true ∧
    generate_newsletter.run_topics result = ["Ciencia"] ∧
    searched tr' = ["ia"; "clima"] ∧
    nl_topics <$> inserted j' = [["Ciencia"]].
Proof.
  assert (Hw : string_titles (serving two_articles)).
  { intros tr q language sort_by page_size page a [= <-] Ha.
    apply elem_of_cons in Ha as [->|Ha]; [done|].
    apply elem_of_cons in Ha as [->|Ha]; [done|].
    by apply elem_of_nil in Ha. }
  split; [exact Hw|].
  destruct (script_returns_with_string_titles read_only_storage (serving two_articles)
              no_credentials "u1" "email" "es" false [] [] Hw)
    as (report & j' & tr' & Hrun).
  assert (Hvalue :
    (λ r : res script.Report * Journal * Trace,
       (match r.1.1 with
        | Ok (script.Completed result) =>
            Some (generate_newsletter.run_success result,
                  generate_newsletter.run_topics result)
        | _ => None
        end, searched r.2, nl_topics <$> inserted r.1.2))
      (script.generate_and_send_newsletter read_only_storage (serving two_articles)
         no_credentials "u1" "email" "es" false [] [])
    = (Some (true, ["Ciencia"]), ["ia"; "clima"], [["Ciencia"]]))
    by (vm_compute; reflexivity).
  rewrite Hrun in Hvalue. cbn beta iota delta [fst snd] in Hvalue.
  destruct report as [message|result]; [discriminate Hvalue|].
  injection Hvalue as Hsuccess Htopics Hsearched Hinserted.
  exists result, j', tr'. by repeat split.
Defined.
